(** * Procedural terrain streaming: chunk manager, chunk worker, mesh indices

    A shallow embedding of
      - [UChunkManagerWorldSubsystem]  (ChunkManagerWorldSubsystem.cpp),
      - [FChunkThread]                 (PTG/Generator/ChunkThread.cpp),
      - [UProceduralMeshGeneratorSubsystem::GetSquareIndices]
                                       (ProceduralMeshGeneratorSubsystem.h).

    Conventions.
      - [int32] / [int64] values are integers of [Z]; every arithmetic
        operation the C++ performs on them is written with its two's
        complement wrap-around ([Int32.add], [Int32.mul], ...).
      - [float] / [double] values are exact rationals of [Q].  Doubles that
        the code only ever fills with integral values ([PlayerPos],
        [FChunk::Coords], queued [FVector2D]s) are kept as [Z].
      - Engine objects are records, member functions take the record and
        return the updated one; calls that leave the object (registry calls,
        delegate broadcasts, the stress report) are appended to a trace. *)

From Stdlib Require Import ZArith QArith Qround Qabs Qminmax List FinFun Sorted Bool
  Lia Lqa.
Import ListNotations.
Local Open Scope Z_scope.

(* ================================================================= *)
(** ** Machine integers *)

Module Int32.

Definition min_signed : Z := - 2 ^ 31.
Definition max_signed : Z := 2 ^ 31 - 1.

(** Reduction of an integer to the signed 32-bit range. *)
Definition wrap (z : Z) : Z := (z + 2 ^ 31) mod 2 ^ 32 - 2 ^ 31.

Definition in_range (z : Z) : Prop := min_signed <= z <= max_signed.

Definition add (a b : Z) : Z := wrap (a + b).
Definition sub (a b : Z) : Z := wrap (a - b).
Definition mul (a b : Z) : Z := wrap (a * b).
Definition abs (a : Z) : Z := wrap (Z.abs a).

End Int32.

Module Int64.

Definition wrap (z : Z) : Z := (z + 2 ^ 63) mod 2 ^ 64 - 2 ^ 63.

End Int64.

(* ================================================================= *)
(** ** Mesh builder: corner indices of a grid cell *)

Record FSquareIndices : Set := {
  bottomLeft  : Z;
  bottomRight : Z;
  topLeft     : Z;
  topRight    : Z
}.

(** [UProceduralMeshGeneratorSubsystem::GetSquareIndices]. *)
Definition GetSquareIndices (x y gridSize : Z) : FSquareIndices :=
  {| bottomLeft  := Int32.add x (Int32.mul y gridSize);
     bottomRight := Int32.add (Int32.add x 1) (Int32.mul y gridSize);
     topLeft     := Int32.add x (Int32.mul (Int32.add y 1) gridSize);
     topRight    := Int32.add (Int32.add x 1) (Int32.mul (Int32.add y 1) gridSize) |}.

(* ================================================================= *)
(** ** ChunkData helpers (header not part of the sources at hand) *)

Module ChunkData.

(** Modelled from the spec: [ChunkData::GetChunkIdFromCoordinates] is
    declared in ChunkData.h, which is missing.  The spec asks for "a single
    integer derived from a ChunkCoord via a bijective pairing function
    (... e.g. interleave/shift-pack ...)"; this is the shift-pack of two
    [int32] into one [int64]: X in the high word, Y in the low word. *)
Definition GetChunkIdFromCoordinates (X Y : Z) : Z :=
  Int64.wrap (Z.lor (Z.shiftl X 32) (Z.land Y (Z.ones 32))).

(** Modelled from the spec: the inverse the spec requires ("invertible
    back to the coordinate pair"): arithmetic shift for X, sign-extended
    low word for Y. *)
Definition GetCoordinatesFromChunkId (id : Z) : Z * Z :=
  (Z.shiftr id 32, Int32.wrap (Z.land id (Z.ones 32))).

(** Modelled from the spec: [ChunkData::GetInitialChunkCount] is declared
    in the same missing header; the spec gives "the count of chunks in the
    initial window (a square of side 2R+1 chunks)". *)
Definition GetInitialChunkCount (RenderDistance : Z) : Z :=
  Int32.mul (Int32.add (Int32.mul 2 RenderDistance) 1)
            (Int32.add (Int32.mul 2 RenderDistance) 1).

End ChunkData.

(* ================================================================= *)
(** ** Engine value types *)

(** An [FVector] / [FVector2D] whose components hold integral values:
    chunk origins, the observer's chunk coordinate, queued coordinates. *)
Record FCoords : Set := { X : Z; Y : Z }.

(** An [FVector] of arbitrary doubles (a vertex position). *)
Record FVector : Set := FVectorOf { vX : Q; vY : Q; vZ : Q }.

Record FVertices : Set := { vertex_Coords : FVector }.

Record FChunk : Set := {
  Id          : Z;
  Size        : Z;
  Coords      : FCoords;
  VertexArray : list FVertices
}.

Record FPerlinParameters : Set := {
  Octaves     : Z;
  Persistence : Q;
  Frequency   : Q;
  Seed        : Z
}.

Definition coords_eqb (a b : FCoords) : bool :=
  (X a =? X b) && (Y a =? Y b).

(** The values [lo, lo+1, ..., hi] a counter takes in
    [for (int v = lo; v <= hi; v++)]; empty when [hi < lo]. *)
Definition int_range (lo hi : Z) : list Z :=
  map (fun k => lo + Z.of_nat k) (seq 0 (Z.to_nat (hi + 1 - lo))).

(* ================================================================= *)
(** ** The chunk worker, [FChunkThread] *)

Inductive WorkerEvent : Set :=
| Sleep                                   (* FPlatformProcess::Sleep(0.001f) *)
| OnCalcOver (ChunkId : Z) (chunk : FChunk). (* OnCalcOver.Broadcast *)

Record FChunkThread : Set := {
  Chunk       : FChunk;
  Parameters  : FPerlinParameters;
  bShutdown   : bool;
  bisOver     : bool;
  WorkerTrace : list WorkerEvent
}.

(** Locals of [Run] that live across loop iterations. *)
Record RunLocals : Set := {
  TempVertices      : list FVertices;
  processedVertices : Z
}.

Definition BatchSize : Z := 30.

(** [FChunkThread::Stop]. *)
Definition Stop (t : FChunkThread) : FChunkThread :=
  {| Chunk := Chunk t; Parameters := Parameters t;
     bShutdown := true; bisOver := bisOver t; WorkerTrace := WorkerTrace t |}.

(** [FChunkThread::Init]: logs and returns [true]. *)
Definition Init (t : FChunkThread) : FChunkThread * bool := (t, true).

Definition emit (e : WorkerEvent) (t : FChunkThread) : FChunkThread :=
  {| Chunk := Chunk t; Parameters := Parameters t;
     bShutdown := bShutdown t; bisOver := bisOver t;
     WorkerTrace := WorkerTrace t ++ [e] |}.

Section Worker.

(** [UPerlinNoise::GenerateOctavePerlinValue] (PerlinNoise.h is not among
    the sources): any function of the grid point and the parameters. *)
Variable GenerateOctavePerlinValue : Z -> Z -> Z -> Q -> Q -> Z -> Q.

(** The other threads: [StopRequested k] tells whether some thread calls
    [Stop] on this worker just before it computes the sample that finds
    [processedVertices = k]. *)
Variable StopRequested : Z -> bool.

(** Body of the inner loop of [Run]. *)
Definition RunBody (x x_scaled y y_scaled : Z)
           (st : FChunkThread * RunLocals) : FChunkThread * RunLocals :=
  let (t, l) := st in
  let t := if StopRequested (processedVertices l) then Stop t else t in
  let P := Parameters t in
  let vertex :=
    {| vertex_Coords :=
         FVectorOf (inject_Z x_scaled) (inject_Z y_scaled)
           (GenerateOctavePerlinValue x y (Octaves P) (Persistence P)
                                      (Frequency P) (Seed P) * 100)%Q |} in
  let processed := Int32.add (processedVertices l) 1 in
  let l := {| TempVertices := TempVertices l ++ [vertex];
              processedVertices := processed |} in
  let t := if Z.rem processed BatchSize =? 0 then emit Sleep t else t in
  (t, l).

(** [for (int x = _x, x_scaled = _x*100; x < _x + _size; x++, x_scaled += 100)];
    [fuel] bounds the number of iterations. *)
Fixpoint RunInner (fuel : nat) (bound x x_scaled y y_scaled : Z)
         (st : FChunkThread * RunLocals) : FChunkThread * RunLocals :=
  match fuel with
  | O => st
  | S fuel' =>
      if x <? bound
      then RunInner fuel' bound (Int32.add x 1) (Int32.add x_scaled 100)
                    y y_scaled (RunBody x x_scaled y y_scaled st)
      else st
  end.

(** [for (int y = _y, y_scaled = _y*100; y < _y + _size; y++, y_scaled += 100)]. *)
Fixpoint RunOuter (fuel : nat) (_x _y _size y y_scaled : Z)
         (st : FChunkThread * RunLocals) : FChunkThread * RunLocals :=
  match fuel with
  | O => st
  | S fuel' =>
      if y <? Int32.add _y _size
      then RunOuter fuel' _x _y _size (Int32.add y 1) (Int32.add y_scaled 100)
                    (RunInner (Z.to_nat _size) (Int32.add _x _size)
                              _x (Int32.mul _x 100) y y_scaled st)
      else st
  end.

(** The two loops of [Run]: the thread and the locals at line 35. *)
Definition RunLoops (t : FChunkThread) : FChunkThread * RunLocals :=
  let _size := Size (Chunk t) in
  let _x := Int32.wrap (X (Coords (Chunk t))) in
  let _y := Int32.wrap (Y (Coords (Chunk t))) in
  RunOuter (Z.to_nat _size) _x _y _size _y (Int32.mul _y 100)
           (t, {| TempVertices := []; processedVertices := 0 |}).

(** [FChunkThread::Run]: the loops, then
    [Chunk.VertexArray.Append(TempVertices)] under the lock; returns 1. *)
Definition Run (t : FChunkThread) : FChunkThread * Z :=
  let (t', l) := RunLoops t in
  let c := Chunk t' in
  ({| Chunk := {| Id := Id c; Size := Size c; Coords := Coords c;
                  VertexArray := VertexArray c ++ TempVertices l |};
      Parameters := Parameters t'; bShutdown := bShutdown t';
      bisOver := bisOver t'; WorkerTrace := WorkerTrace t' |}, 1).

(** [FChunkThread::Exit]: the task it posts, as the game thread runs it. *)
Definition Exit (t : FChunkThread) : FChunkThread :=
  emit (OnCalcOver (Id (Chunk t)) (Chunk t))
       {| Chunk := Chunk t; Parameters := Parameters t;
          bShutdown := bShutdown t; bisOver := true;
          WorkerTrace := WorkerTrace t |}.

(** What the engine does with a started [FRunnable]: [Init], and when it
    succeeds [Run], then [Exit]. *)
Definition RunThread (t : FChunkThread) : FChunkThread :=
  let (t1, ok) := Init t in
  if ok then Exit (fst (Run t1)) else t1.

(** The sample [Run] computes at grid point [(x, y)]. *)
Definition SampleAt (P : FPerlinParameters) (x y : Z) : FVertices :=
  {| vertex_Coords :=
       FVectorOf (inject_Z (100 * x)) (inject_Z (100 * y))
         (GenerateOctavePerlinValue x y (Octaves P) (Persistence P)
                                    (Frequency P) (Seed P) * 100)%Q |}.

(** The height field as the specification words it: one sample per grid
    point of the [s] x [s] footprint at [(x0, y0)], row-major. *)
Definition HeightField (P : FPerlinParameters) (x0 y0 : Z) (s : nat)
  : list FVertices :=
  flat_map (fun j => map (fun i => SampleAt P (x0 + Z.of_nat i) (y0 + Z.of_nat j))
                         (seq 0 s))
           (seq 0 s).

End Worker.

Definition completions (tr : list WorkerEvent) : list (Z * FChunk) :=
  flat_map (fun e => match e with
                     | OnCalcOver id c => [(id, c)]
                     | Sleep => []
                     end) tr.

Definition sleeps (tr : list WorkerEvent) : nat :=
  length (filter (fun e => match e with Sleep => true | _ => false end) tr).

(** The footprint of a chunk stays clear of [int] overflow in [Run]:
    the size is not negative and both scaled corners are [int]s. *)
Definition FootprintFits (c : FChunk) : Prop :=
  0 <= Size c /\
  Int32.in_range (100 * X (Coords c)) /\
  Int32.in_range (100 * (X (Coords c) + Size c)) /\
  Int32.in_range (100 * Y (Coords c)) /\
  Int32.in_range (100 * (Y (Coords c) + Size c)).

(** What the loops of [Run] leave alone in the thread object. *)
Definition same_worker (t t' : FChunkThread) : Prop :=
  Chunk t' = Chunk t /\ Parameters t' = Parameters t /\
  bisOver t' = bisOver t /\
  completions (WorkerTrace t') = completions (WorkerTrace t).

(* ================================================================= *)
(** ** The chunk registry, [UTerrainGeneratorWorldSubsystem] *)

(** [ChunkMap] is a [TMap<int64, FChunk>]; the manager iterates over it, so
    it is kept as the list of its entries in iteration order. *)
Record UTerrainGeneratorWorldSubsystem : Set := {
  ChunkMap : list (Z * FChunk)
}.

(** Modelled from the spec: TerrainGeneratorWorldSubsystem.cpp is missing;
    "hasChunk(id) -> bool: O(1) membership test against the authoritative
    set". *)
Definition HasChunk (g : UTerrainGeneratorWorldSubsystem) (id : Z) : bool :=
  existsb (fun e => fst e =? id) (ChunkMap g).

(** Modelled from the spec: same missing file; "generateChunk(origin, size,
    params): constructs a Chunk ..., computes its id, inserts it ... Fails
    silently (logs, no state change) if a chunk with that id already
    exists".  The worker it dispatches is not part of the registry state. *)
Definition GenerateChunk (g : UTerrainGeneratorWorldSubsystem)
           (x y size : Z) : UTerrainGeneratorWorldSubsystem :=
  let id := ChunkData.GetChunkIdFromCoordinates x y in
  if HasChunk g id then g
  else {| ChunkMap :=
            ChunkMap g ++
            [(id, {| Id := id; Size := size; Coords := {| X := x; Y := y |};
                     VertexArray := [] |})] |}.

(** Modelled from the spec: same missing file; "destroyChunk(id): if
    present, ... removes the Chunk record and its buffer.  No-op if
    absent". *)
Definition DestroyChunk (g : UTerrainGeneratorWorldSubsystem) (id : Z)
  : UTerrainGeneratorWorldSubsystem :=
  {| ChunkMap := filter (fun e => negb (fst e =? id)) (ChunkMap g) |}.

(** Modelled from the spec: [UTerrainGeneratorWorldSubsystem::DisplayChunk]
    is in the missing TerrainGeneratorWorldSubsystem.cpp (only its call at
    line 254 is at hand).  The spec has the display as a sink outside
    the registry: "Display sink: a callback/notification invoked with a chunk
    id when that chunk becomes Ready, expected to trigger Mesh Builder +
    presentation (owned by the excluded rendering/actor layer)", and "Mesh
    Builder invocation lives outside the Registry's responsibility".  The
    call therefore leaves the entries of the registry as they are. *)
Definition DisplayChunk (g : UTerrainGeneratorWorldSubsystem) (ChunkId : Z)
  : UTerrainGeneratorWorldSubsystem := g.

(* ================================================================= *)
(** ** The stream manager, [UChunkManagerWorldSubsystem] *)

(** What leaves the manager: calls into the registry, the progress
    delegate, and the stress report written to the log. *)
Inductive ManagerEvent : Set :=
| CallGenerateChunk (x y size : Z)
| CallDestroyChunk (ChunkId : Z)
| CallDisplayChunk (ChunkId : Z)
| LoadingProgressUpdate (done total : Z)
| StressTestComplete (TotalTime : Q) (Average : option Q).

Record UChunkManagerWorldSubsystem : Set := {
  TerrainGenerator            : option UTerrainGeneratorWorldSubsystem;
  ChunkSize                   : Z;
  RenderDistance              : Z;
  PlayerPos                   : FCoords;
  ChunkGenerationQueue        : list FCoords;
  ChunkDestructionQueue       : list Z;
  TimeSinceLastChunkOperation : Q;
  ChunkOperationInterval      : Q;
  bInitialChunksGenerated     : bool;
  InitialChunksRemaining      : Z;
  bStressTestInProgress       : bool;
  PendingChunks               : Z;
  StressTestStartTime         : Q;
  Trace                       : list ManagerEvent
}.

(** Assignment to one member. *)
Section Setters.

Variable s : UChunkManagerWorldSubsystem.

Definition set_TerrainGenerator v :=
  {| TerrainGenerator := v; ChunkSize := ChunkSize s;
     RenderDistance := RenderDistance s; PlayerPos := PlayerPos s;
     ChunkGenerationQueue := ChunkGenerationQueue s;
     ChunkDestructionQueue := ChunkDestructionQueue s;
     TimeSinceLastChunkOperation := TimeSinceLastChunkOperation s;
     ChunkOperationInterval := ChunkOperationInterval s;
     bInitialChunksGenerated := bInitialChunksGenerated s;
     InitialChunksRemaining := InitialChunksRemaining s;
     bStressTestInProgress := bStressTestInProgress s;
     PendingChunks := PendingChunks s;
     StressTestStartTime := StressTestStartTime s; Trace := Trace s |}.

Definition set_PlayerPos v :=
  {| TerrainGenerator := TerrainGenerator s; ChunkSize := ChunkSize s;
     RenderDistance := RenderDistance s; PlayerPos := v;
     ChunkGenerationQueue := ChunkGenerationQueue s;
     ChunkDestructionQueue := ChunkDestructionQueue s;
     TimeSinceLastChunkOperation := TimeSinceLastChunkOperation s;
     ChunkOperationInterval := ChunkOperationInterval s;
     bInitialChunksGenerated := bInitialChunksGenerated s;
     InitialChunksRemaining := InitialChunksRemaining s;
     bStressTestInProgress := bStressTestInProgress s;
     PendingChunks := PendingChunks s;
     StressTestStartTime := StressTestStartTime s; Trace := Trace s |}.

Definition set_ChunkGenerationQueue v :=
  {| TerrainGenerator := TerrainGenerator s; ChunkSize := ChunkSize s;
     RenderDistance := RenderDistance s; PlayerPos := PlayerPos s;
     ChunkGenerationQueue := v;
     ChunkDestructionQueue := ChunkDestructionQueue s;
     TimeSinceLastChunkOperation := TimeSinceLastChunkOperation s;
     ChunkOperationInterval := ChunkOperationInterval s;
     bInitialChunksGenerated := bInitialChunksGenerated s;
     InitialChunksRemaining := InitialChunksRemaining s;
     bStressTestInProgress := bStressTestInProgress s;
     PendingChunks := PendingChunks s;
     StressTestStartTime := StressTestStartTime s; Trace := Trace s |}.

Definition set_ChunkDestructionQueue v :=
  {| TerrainGenerator := TerrainGenerator s; ChunkSize := ChunkSize s;
     RenderDistance := RenderDistance s; PlayerPos := PlayerPos s;
     ChunkGenerationQueue := ChunkGenerationQueue s;
     ChunkDestructionQueue := v;
     TimeSinceLastChunkOperation := TimeSinceLastChunkOperation s;
     ChunkOperationInterval := ChunkOperationInterval s;
     bInitialChunksGenerated := bInitialChunksGenerated s;
     InitialChunksRemaining := InitialChunksRemaining s;
     bStressTestInProgress := bStressTestInProgress s;
     PendingChunks := PendingChunks s;
     StressTestStartTime := StressTestStartTime s; Trace := Trace s |}.

Definition set_TimeSinceLastChunkOperation v :=
  {| TerrainGenerator := TerrainGenerator s; ChunkSize := ChunkSize s;
     RenderDistance := RenderDistance s; PlayerPos := PlayerPos s;
     ChunkGenerationQueue := ChunkGenerationQueue s;
     ChunkDestructionQueue := ChunkDestructionQueue s;
     TimeSinceLastChunkOperation := v;
     ChunkOperationInterval := ChunkOperationInterval s;
     bInitialChunksGenerated := bInitialChunksGenerated s;
     InitialChunksRemaining := InitialChunksRemaining s;
     bStressTestInProgress := bStressTestInProgress s;
     PendingChunks := PendingChunks s;
     StressTestStartTime := StressTestStartTime s; Trace := Trace s |}.

Definition set_bInitialChunksGenerated v :=
  {| TerrainGenerator := TerrainGenerator s; ChunkSize := ChunkSize s;
     RenderDistance := RenderDistance s; PlayerPos := PlayerPos s;
     ChunkGenerationQueue := ChunkGenerationQueue s;
     ChunkDestructionQueue := ChunkDestructionQueue s;
     TimeSinceLastChunkOperation := TimeSinceLastChunkOperation s;
     ChunkOperationInterval := ChunkOperationInterval s;
     bInitialChunksGenerated := v;
     InitialChunksRemaining := InitialChunksRemaining s;
     bStressTestInProgress := bStressTestInProgress s;
     PendingChunks := PendingChunks s;
     StressTestStartTime := StressTestStartTime s; Trace := Trace s |}.

Definition set_InitialChunksRemaining v :=
  {| TerrainGenerator := TerrainGenerator s; ChunkSize := ChunkSize s;
     RenderDistance := RenderDistance s; PlayerPos := PlayerPos s;
     ChunkGenerationQueue := ChunkGenerationQueue s;
     ChunkDestructionQueue := ChunkDestructionQueue s;
     TimeSinceLastChunkOperation := TimeSinceLastChunkOperation s;
     ChunkOperationInterval := ChunkOperationInterval s;
     bInitialChunksGenerated := bInitialChunksGenerated s;
     InitialChunksRemaining := v;
     bStressTestInProgress := bStressTestInProgress s;
     PendingChunks := PendingChunks s;
     StressTestStartTime := StressTestStartTime s; Trace := Trace s |}.

Definition set_bStressTestInProgress v :=
  {| TerrainGenerator := TerrainGenerator s; ChunkSize := ChunkSize s;
     RenderDistance := RenderDistance s; PlayerPos := PlayerPos s;
     ChunkGenerationQueue := ChunkGenerationQueue s;
     ChunkDestructionQueue := ChunkDestructionQueue s;
     TimeSinceLastChunkOperation := TimeSinceLastChunkOperation s;
     ChunkOperationInterval := ChunkOperationInterval s;
     bInitialChunksGenerated := bInitialChunksGenerated s;
     InitialChunksRemaining := InitialChunksRemaining s;
     bStressTestInProgress := v;
     PendingChunks := PendingChunks s;
     StressTestStartTime := StressTestStartTime s; Trace := Trace s |}.

Definition set_PendingChunks v :=
  {| TerrainGenerator := TerrainGenerator s; ChunkSize := ChunkSize s;
     RenderDistance := RenderDistance s; PlayerPos := PlayerPos s;
     ChunkGenerationQueue := ChunkGenerationQueue s;
     ChunkDestructionQueue := ChunkDestructionQueue s;
     TimeSinceLastChunkOperation := TimeSinceLastChunkOperation s;
     ChunkOperationInterval := ChunkOperationInterval s;
     bInitialChunksGenerated := bInitialChunksGenerated s;
     InitialChunksRemaining := InitialChunksRemaining s;
     bStressTestInProgress := bStressTestInProgress s;
     PendingChunks := v;
     StressTestStartTime := StressTestStartTime s; Trace := Trace s |}.

Definition set_StressTestStartTime v :=
  {| TerrainGenerator := TerrainGenerator s; ChunkSize := ChunkSize s;
     RenderDistance := RenderDistance s; PlayerPos := PlayerPos s;
     ChunkGenerationQueue := ChunkGenerationQueue s;
     ChunkDestructionQueue := ChunkDestructionQueue s;
     TimeSinceLastChunkOperation := TimeSinceLastChunkOperation s;
     ChunkOperationInterval := ChunkOperationInterval s;
     bInitialChunksGenerated := bInitialChunksGenerated s;
     InitialChunksRemaining := InitialChunksRemaining s;
     bStressTestInProgress := bStressTestInProgress s;
     PendingChunks := PendingChunks s;
     StressTestStartTime := v; Trace := Trace s |}.

Definition set_Trace v :=
  {| TerrainGenerator := TerrainGenerator s; ChunkSize := ChunkSize s;
     RenderDistance := RenderDistance s; PlayerPos := PlayerPos s;
     ChunkGenerationQueue := ChunkGenerationQueue s;
     ChunkDestructionQueue := ChunkDestructionQueue s;
     TimeSinceLastChunkOperation := TimeSinceLastChunkOperation s;
     ChunkOperationInterval := ChunkOperationInterval s;
     bInitialChunksGenerated := bInitialChunksGenerated s;
     InitialChunksRemaining := InitialChunksRemaining s;
     bStressTestInProgress := bStressTestInProgress s;
     PendingChunks := PendingChunks s;
     StressTestStartTime := StressTestStartTime s; Trace := v |}.

End Setters.


Definition log (e : ManagerEvent) (s : UChunkManagerWorldSubsystem)
  : UChunkManagerWorldSubsystem :=
  set_Trace s (Trace s ++ [e]).

(** [UChunkManagerWorldSubsystem::RequestChunkGeneration]. *)
Definition RequestChunkGeneration (s : UChunkManagerWorldSubsystem)
           (x y size : Z) : UChunkManagerWorldSubsystem :=
  match TerrainGenerator s with
  | Some g =>
      log (CallGenerateChunk x y size)
          (set_TerrainGenerator s (Some (GenerateChunk g x y size)))
  | None => s
  end.

(** [UChunkManagerWorldSubsystem::RequestChunkDestruction]. *)
Definition RequestChunkDestruction (s : UChunkManagerWorldSubsystem)
           (ChunkId : Z) : UChunkManagerWorldSubsystem :=
  match TerrainGenerator s with
  | Some g =>
      log (CallDestroyChunk ChunkId)
          (set_TerrainGenerator s (Some (DestroyChunk g ChunkId)))
  | None => s
  end.

(** [FMath::Floor(Location / ((ChunkSize - 1.0f) * 100))]: one component of
    the observer's chunk coordinate.  The divisor is the edge of a chunk in
    world units.  It is 0 for [ChunkSize = 1]: the float quotient is then
    infinite or not a number, [Equals] fails on every tick and the loop
    bounds of line 79 convert a non-finite value to [int].  The rational
    quotient has no such value, so this definition stands for the code only
    where a chunk has an edge, [2 <= ChunkSize]. *)
Definition ObserverChunk (chunkSize : Z) (location : Q) : Z :=
  Qfloor (location / ((inject_Z chunkSize - 1) * 100)).

(** The id under which the chunk at grid coordinate [(x, y)] is registered:
    [GetChunkIdFromCoordinates(x * (ChunkSize - 1), y * (ChunkSize - 1))]. *)
Definition ChunkIdAt (chunkSize x y : Z) : Z :=
  ChunkData.GetChunkIdFromCoordinates
    (Int32.mul x (Int32.sub chunkSize 1)) (Int32.mul y (Int32.sub chunkSize 1)).

(** Lines 79-88 of [Tick]: the creation queue after the window scan. *)
Definition QueueNewChunks (s : UChunkManagerWorldSubsystem)
           (g : UTerrainGeneratorWorldSubsystem) : list FCoords :=
  let P := PlayerPos s in
  let R := RenderDistance s in
  fold_left
    (fun q y =>
       fold_left
         (fun q x =>
            if negb (HasChunk g (ChunkIdAt (ChunkSize s) x y))
            then q ++ [{| X := x; Y := y |}]
            else q)
         (int_range (Int32.wrap (X P - R)) (X P + R)) q)
    (int_range (Int32.wrap (Y P - R)) (Y P + R))
    (ChunkGenerationQueue s).

(** The test of lines 101-102 on one registered chunk. *)
Definition IsFar (s : UChunkManagerWorldSubsystem) (chunk : FChunk) : bool :=
  let playerQuadX := Int32.wrap (X (PlayerPos s) * Int32.sub (ChunkSize s) 1) in
  let playerQuadY := Int32.wrap (Y (PlayerPos s) * Int32.sub (ChunkSize s) 1) in
  let chunkX := Int32.wrap (X (Coords chunk)) in
  let chunkY := Int32.wrap (Y (Coords chunk)) in
  let reach := Int32.mul (RenderDistance s) (Int32.sub (ChunkSize s) 1) in
  (Int32.abs (Int32.sub chunkX playerQuadX) >? reach) ||
  (Int32.abs (Int32.sub chunkY playerQuadY) >? reach).

(** Lines 91-107 of [Tick]: the destruction queue after the registry scan. *)
Definition QueueFarChunks (s : UChunkManagerWorldSubsystem)
           (g : UTerrainGeneratorWorldSubsystem) : list Z :=
  fold_left
    (fun q e => if IsFar s (snd e) then q ++ [fst e] else q)
    (ChunkMap g)
    (ChunkDestructionQueue s).

(** Lines 79-88 of [Tick] while [TerrainGenerator] is null: the same two
    loops as in [QueueNewChunks], each pass of which calls [HasChunk] through
    the null pointer.  The scan comes through ([true]) only if the loops make
    no pass at all. *)
Definition NullScanReturns (s : UChunkManagerWorldSubsystem) : bool :=
  let P := PlayerPos s in
  let R := RenderDistance s in
  fold_left
    (fun ok y =>
       fold_left
         (fun ok x => false)
         (int_range (Int32.wrap (X P - R)) (X P + R)) ok)
    (int_range (Int32.wrap (Y P - R)) (Y P + R))
    true.

(** Lines 66-110 of [Tick].  [Pawn] is the pawn's location, [None] when
    there is no player controller or no pawn.  The result is [None] when the
    scan calls [HasChunk] through a null [TerrainGenerator]; when the loops
    make no pass, the test of line 94 skips the registry scan. *)
Definition UpdateWindow (s : UChunkManagerWorldSubsystem)
           (Pawn : option FVector) : option UChunkManagerWorldSubsystem :=
  match Pawn with
  | None => Some s
  | Some location =>
      let pos := {| X := ObserverChunk (ChunkSize s) (vX location);
                    Y := ObserverChunk (ChunkSize s) (vY location) |} in
      if coords_eqb (PlayerPos s) pos then Some s
      else
        let s := set_PlayerPos s pos in
        match TerrainGenerator s with
        | Some g =>
            Some (set_ChunkDestructionQueue
                    (set_ChunkGenerationQueue s (QueueNewChunks s g))
                    (QueueFarChunks s g))
        | None =>
            if NullScanReturns s then Some s else None
        end
  end.

(** Lines 112-136 of [Tick]. *)
Definition ProcessQueuedOperations (s : UChunkManagerWorldSubsystem)
           (DeltaTime : Q) : UChunkManagerWorldSubsystem :=
  let s := set_TimeSinceLastChunkOperation s
             (TimeSinceLastChunkOperation s + DeltaTime)%Q in
  if Qle_bool (ChunkOperationInterval s) (TimeSinceLastChunkOperation s)
  then
    let s := set_TimeSinceLastChunkOperation s 0%Q in
    let s :=
      match ChunkGenerationQueue s with
      | ChunkPos :: rest =>
          RequestChunkGeneration
            (set_ChunkGenerationQueue s rest)
            (Int32.wrap (X ChunkPos * Int32.sub (ChunkSize s) 1))
            (Int32.wrap (Y ChunkPos * Int32.sub (ChunkSize s) 1))
            (ChunkSize s)
      | [] => s
      end in
    match ChunkDestructionQueue s with
    | ChunkId :: rest =>
        RequestChunkDestruction (set_ChunkDestructionQueue s rest) ChunkId
    | [] => s
    end
  else s.

(** [UChunkManagerWorldSubsystem::Tick]. *)
Definition Tick (s : UChunkManagerWorldSubsystem) (DeltaTime : Q)
           (Pawn : option FVector) : option UChunkManagerWorldSubsystem :=
  if negb (bInitialChunksGenerated s) then Some s
  else
    match UpdateWindow s Pawn with
    | Some s' => Some (ProcessQueuedOperations s' DeltaTime)
    | None => None
    end.

(** [UChunkManagerWorldSubsystem::StressTest]; [now] is what
    [FPlatformTime::Seconds()] returns. *)
Definition StressTest (s : UChunkManagerWorldSubsystem) (now : Q)
           (NumChunks : Z) : UChunkManagerWorldSubsystem :=
  let s := set_PendingChunks s NumChunks in
  let s := set_bStressTestInProgress s true in
  let s := set_StressTestStartTime s now in
  fold_left (fun s i => RequestChunkGeneration s (Int32.mul i 31) 0 32)
            (int_range 0 (NumChunks - 1)) s.

(** [UChunkManagerWorldSubsystem::InitialChunkGeneration]. *)
Definition InitialChunkGeneration (s : UChunkManagerWorldSubsystem)
           (InRenderDistance : Z) : UChunkManagerWorldSubsystem :=
  let s := set_InitialChunksRemaining s
             (ChunkData.GetInitialChunkCount InRenderDistance) in
  let s := RequestChunkGeneration s 0 0 (ChunkSize s) in
  let R := RenderDistance s in
  let n := Int32.sub (ChunkSize s) 1 in
  fold_left
    (fun s y =>
       fold_left
         (fun s x =>
            if (x =? 0) && (y =? 0) then s
            else RequestChunkGeneration s (Int32.mul x n) (Int32.mul y n)
                                        (ChunkSize s))
         (int_range (Int32.sub 0 R) R) s)
    (int_range (Int32.sub 0 R) R) s.

(** A [double] divided by an [int]; [None] stands for the non-finite value
    IEEE arithmetic gives when the divisor is 0. *)
Definition fdiv (a : Q) (b : Z) : option Q :=
  if b =? 0 then None else Some (a / inject_Z b)%Q.

(** [UChunkManagerWorldSubsystem::OnChunkGenerated]; [now] is what
    [FPlatformTime::Seconds()] returns if it is read. *)
Definition OnChunkGenerated (s : UChunkManagerWorldSubsystem) (now : Q)
           (ChunkId : Z) : UChunkManagerWorldSubsystem :=
  let s :=
    if negb (bInitialChunksGenerated s) then
      let s := set_InitialChunksRemaining s
                 (Int32.sub (InitialChunksRemaining s) 1) in
      let total := ChunkData.GetInitialChunkCount (RenderDistance s) in
      let s := log (LoadingProgressUpdate
                      (Int32.sub total (InitialChunksRemaining s)) total) s in
      if InitialChunksRemaining s <=? 0
      then set_bInitialChunksGenerated s true
      else s
    else s in
  let s :=
    if bStressTestInProgress s then
      let s := set_PendingChunks s (Int32.sub (PendingChunks s) 1) in
      if PendingChunks s <=? 0 then
        let TotalTime := ((now - StressTestStartTime s) * 1000)%Q in
        let s := log (StressTestComplete
                        TotalTime (fdiv TotalTime (PendingChunks s))) s in
        set_bStressTestInProgress s false
      else s
    else s in
  match TerrainGenerator s with
  | Some g =>
      log (CallDisplayChunk ChunkId)
          (set_TerrainGenerator s (Some (DisplayChunk g ChunkId)))
  | None => s
  end.

(** A run of completion notifications, each with the clock value at which
    it arrives. *)
Definition Notifications (s : UChunkManagerWorldSubsystem)
           (ns : list (Q * Z)) : UChunkManagerWorldSubsystem :=
  fold_left (fun s n => OnChunkGenerated s (fst n) (snd n)) ns s.

(* ================================================================= *)
(** ** Vocabulary of the specification *)

(** The window of radius [R] around chunk coordinate [p]. *)
Definition InWindow (p : FCoords) (R : Z) (c : FCoords) : Prop :=
  Z.abs (X c - X p) <= R /\ Z.abs (Y c - Y p) <= R.

(** A chunk origin, which the registry keeps in vertex units, in chunk
    units: one chunk is [chunkSize - 1] vertices wide. *)
Definition InChunkUnits (chunkSize v : Z) : Q :=
  (inject_Z v / inject_Z (chunkSize - 1))%Q.

(** Chebyshev distance, in chunk units, from the observer's chunk
    coordinate [p] to a registered chunk. *)
Definition ChebyshevDistance (chunkSize : Z) (p : FCoords) (chunk : FChunk) : Q :=
  Qmax
    (Qabs (InChunkUnits chunkSize (X (Coords chunk)) - inject_Z (X p)))
    (Qabs (InChunkUnits chunkSize (Y (Coords chunk)) - inject_Z (Y p))).

(** The drain interval has elapsed at this tick. *)
Definition DrainDue (s : UChunkManagerWorldSubsystem) (DeltaTime : Q) : bool :=
  Qle_bool (ChunkOperationInterval s)
           (TimeSinceLastChunkOperation s + DeltaTime).

Definition generation_requests (tr : list ManagerEvent) : list (Z * Z * Z) :=
  flat_map (fun e => match e with
                     | CallGenerateChunk x y sz => [(x, y, sz)]
                     | _ => []
                     end) tr.

Definition destruction_requests (tr : list ManagerEvent) : list Z :=
  flat_map (fun e => match e with
                     | CallDestroyChunk id => [id]
                     | _ => []
                     end) tr.

Definition progress_reports (tr : list ManagerEvent) : list (Z * Z) :=
  flat_map (fun e => match e with
                     | LoadingProgressUpdate d t => [(d, t)]
                     | _ => []
                     end) tr.

Definition stress_reports (tr : list ManagerEvent) : list (Q * option Q) :=
  flat_map (fun e => match e with
                     | StressTestComplete t a => [(t, a)]
                     | _ => []
                     end) tr.

(** The coordinates a pair of nested loops visits, [y] outer over [ys] and
    [x] inner over [xs], in the order it visits them. *)
Definition grid (xs ys : list Z) : list FCoords :=
  flat_map (fun y => map (fun x => {| X := x; Y := y |}) xs) ys.

(** The [int] arithmetic of the window scan does not overflow: chunk
    edges, the window around [pos] and the registered origins stay within
    [2^30] vertices of the world origin. *)
Definition WorldFits (s : UChunkManagerWorldSubsystem) (pos : FCoords)
           (g : UTerrainGeneratorWorldSubsystem) : Prop :=
  2 <= ChunkSize s /\
  (Z.abs (X pos) + Z.abs (RenderDistance s) + 1) * (ChunkSize s - 1) <= 2 ^ 30 /\
  (Z.abs (Y pos) + Z.abs (RenderDistance s) + 1) * (ChunkSize s - 1) <= 2 ^ 30 /\
  Forall (fun e => Z.abs (X (Coords (snd e))) <= 2 ^ 30 /\
                   Z.abs (Y (Coords (snd e))) <= 2 ^ 30) (ChunkMap g).

(* ================================================================= *)
(** ** Sample inputs *)

Module Sample.

(** A stand-in for the noise function. *)
Definition noise (x y octaves : Z) (persistence frequency : Q) (seed : Z) : Q :=
  inject_Z (x + 1000 * y + seed).

Definition parameters : FPerlinParameters :=
  {| Octaves := 1; Persistence := 1 # 2; Frequency := 1 # 10; Seed := 42 |}.

Definition worker (x0 y0 size : Z) : FChunkThread :=
  {| Chunk := {| Id := ChunkData.GetChunkIdFromCoordinates x0 y0;
                 Size := size; Coords := {| X := x0; Y := y0 |};
                 VertexArray := [] |};
     Parameters := parameters;
     bShutdown := false; bisOver := false; WorkerTrace := [] |}.

Definition never (_ : Z) : bool := false.
Definition always (_ : Z) : bool := true.

(** A manager as it is before [InitialChunkGeneration], with chunks of 32
    vertices, over an empty registry. *)
Definition fresh (renderDistance : Z) : UChunkManagerWorldSubsystem :=
  {| TerrainGenerator := Some {| ChunkMap := [] |};
     ChunkSize := 32; RenderDistance := renderDistance;
     PlayerPos := {| X := 0; Y := 0 |};
     ChunkGenerationQueue := []; ChunkDestructionQueue := [];
     TimeSinceLastChunkOperation := 0; ChunkOperationInterval := 1 # 10;
     bInitialChunksGenerated := false; InitialChunksRemaining := 0;
     bStressTestInProgress := false; PendingChunks := 0;
     StressTestStartTime := 0; Trace := [] |}.

(** The manager after the bootstrap for render distance 1: nine chunks
    requested and nine completions received. *)
Definition steady : UChunkManagerWorldSubsystem :=
  Eval vm_compute in
    Notifications (InitialChunkGeneration (fresh 1) 1)
                  (map (fun k => (0%Q, k)) (int_range 1 9)).

Definition registry (s : UChunkManagerWorldSubsystem)
  : UTerrainGeneratorWorldSubsystem :=
  match TerrainGenerator s with
  | Some g => g
  | None => {| ChunkMap := [] |}
  end.

Definition after_tick (s : UChunkManagerWorldSubsystem) (DeltaTime : Q)
           (Pawn : option FVector) : UChunkManagerWorldSubsystem :=
  match Tick s DeltaTime Pawn with
  | Some s' => s'
  | None => s
  end.

(** A pawn standing in chunk (3, 0): one chunk edge is 3100 world units. *)
Definition pawn_far : FVector := FVectorOf 9301 15 0.

(** A pawn that has just crossed into chunk (1, 0): its window still holds
    six of the nine chunks of the bootstrap. *)
Definition pawn_near : FVector := FVectorOf 3101 15 0.

(** The steady manager one short tick after the pawn went to chunk (3, 0):
    both queues are filled and the drain is not yet due. *)
Definition queued : UChunkManagerWorldSubsystem :=
  Eval vm_compute in after_tick steady (1 # 100) (Some pawn_far).

End Sample.

(* ================================================================= *)
(** ** Further vocabulary *)

(** What [k] passes through the body of the inner loop of [Run] do to the
    counters of the worker: [processedVertices] advances by [k], the flag
    [bShutdown] is raised by any call of [Stop] that arrived on the way, and
    one [Sleep] is taken at each multiple of [BatchSize]. *)
Definition Counters (StopRequested : Z -> bool)
           (st st' : FChunkThread * RunLocals) (k : nat) : Prop :=
  let p := processedVertices (snd st) in
  processedVertices (snd st') = p + Z.of_nat k /\
  bShutdown (fst st') =
    bShutdown (fst st) ||
    existsb StopRequested (map (fun i => p + Z.of_nat i) (seq 0 k)) /\
  Z.of_nat (sleeps (WorkerTrace (fst st'))) =
    Z.of_nat (sleeps (WorkerTrace (fst st))) +
    ((p + Z.of_nat k) / BatchSize - p / BatchSize).

(** [s'] is [s] after calls that only reach the registry: no member but the
    registry has changed, and the trace has grown by registry calls only, so
    neither a progress update nor a stress report was written. *)
Definition RegistryCallsOnly (s s' : UChunkManagerWorldSubsystem) : Prop :=
  exists calls : list ManagerEvent,
    s' = set_Trace (set_TerrainGenerator s (TerrainGenerator s'))
                   (Trace s ++ calls) /\
    progress_reports calls = [] /\ stress_reports calls = [].


Definition display_requests (tr : list ManagerEvent) : list Z :=
  flat_map (fun e => match e with
                     | CallDisplayChunk id => [id]
                     | _ => []
                     end) tr.

(** Sample inputs at the edges. *)
Module Edge.

(** A manager that was initialised without a registry. *)
Definition no_generator : UChunkManagerWorldSubsystem :=
  set_TerrainGenerator (Sample.fresh 2) None.

(** The steady manager of [Sample.steady], configured with a negative
    render distance. *)
Definition negative_distance : UChunkManagerWorldSubsystem :=
  {| TerrainGenerator := TerrainGenerator Sample.steady;
     ChunkSize := 32; RenderDistance := -1;
     PlayerPos := {| X := 0; Y := 0 |};
     ChunkGenerationQueue := []; ChunkDestructionQueue := [];
     TimeSinceLastChunkOperation := 0; ChunkOperationInterval := 1 # 10;
     bInitialChunksGenerated := true; InitialChunksRemaining := 0;
     bStressTestInProgress := false; PendingChunks := 0;
     StressTestStartTime := 0; Trace := [] |}.

(** The steady manager of [Sample.steady] after it has lost its registry. *)
Definition lost_generator : UChunkManagerWorldSubsystem :=
  set_TerrainGenerator Sample.steady None.

End Edge.

(* ================================================================= *)
(** ** Facts on machine integers *)

Lemma wrap32_small (z : Z) : Int32.in_range z -> Int32.wrap z = z.
Proof.
  unfold Int32.in_range, Int32.min_signed, Int32.max_signed, Int32.wrap.
  intros H. rewrite Z.mod_small; lia.
Qed.

Lemma wrap32_range (z : Z) : Int32.in_range (Int32.wrap z).
Proof.
  unfold Int32.in_range, Int32.min_signed, Int32.max_signed, Int32.wrap.
  pose proof (Z.mod_pos_bound (z + 2 ^ 31) (2 ^ 32)). lia.
Qed.

Lemma wrap64_small (z : Z) : - 2 ^ 63 <= z < 2 ^ 63 -> Int64.wrap z = z.
Proof.
  unfold Int64.wrap. intros H. rewrite Z.mod_small; lia.
Qed.

(** Removes every [Int32.wrap] whose argument is in range by the facts of
    the context, innermost first. *)
Ltac int32_range :=
  unfold Int32.in_range, Int32.min_signed, Int32.max_signed in *;
  first [lia | nia].

Ltac int32_small :=
  unfold Int32.add, Int32.sub, Int32.mul, Int32.abs;
  repeat match goal with
         | |- context [Int32.wrap ?z] =>
             rewrite (wrap32_small z) by int32_range
         end.

(** The same with linear arithmetic only, for goals whose products are
    bounded by facts of the context. *)
Ltac int32_linear :=
  unfold Int32.add, Int32.sub, Int32.mul, Int32.abs;
  repeat match goal with
         | |- context [Int32.wrap ?z] =>
             rewrite (wrap32_small z)
               by (unfold Int32.in_range, Int32.min_signed, Int32.max_signed;
                   lia)
         end.

(* ================================================================= *)
(** ** Mesh builder: the four corners are distinct and in bounds *)

Section SquareIndices.

Variables x y gridSize : Z.
Hypothesis Hgrid : 2 <= gridSize.
Hypothesis Hbuf  : gridSize * gridSize <= Int32.max_signed.
Hypothesis Hx    : 0 <= x <= gridSize - 2.
Hypothesis Hy    : 0 <= y <= gridSize - 2.

Lemma square_indices_exact :
  GetSquareIndices x y gridSize =
  {| bottomLeft  := x + y * gridSize;
     bottomRight := (x + 1) + y * gridSize;
     topLeft     := x + (y + 1) * gridSize;
     topRight    := (x + 1) + (y + 1) * gridSize |}.
Proof.
  unfold GetSquareIndices, Int32.max_signed in *.
  assert (0 <= y * gridSize) by nia.
  assert ((y + 1) * gridSize <= gridSize * gridSize - gridSize) by nia.
  assert (y * gridSize <= (y + 1) * gridSize) by nia.
  int32_small. reflexivity.
Qed.

End SquareIndices.

(** C9: for a grid of side [gridSize >= 2] whose [gridSize^2] vertices can be
    indexed by an [int32], and every cell [(x, y)] with
    [0 <= x, y <= gridSize - 2], [GetSquareIndices] returns
    [x + y*gridSize], [(x+1) + y*gridSize], [x + (y+1)*gridSize] and
    [(x+1) + (y+1)*gridSize]; the four are pairwise distinct and each lies in
    [[0, gridSize^2)]. *)
Theorem GetSquareIndices_distinct_in_bounds (x y gridSize : Z) :
  2 <= gridSize ->
  gridSize * gridSize <= Int32.max_signed ->
  0 <= x <= gridSize - 2 ->
  0 <= y <= gridSize - 2 ->
  let sq := GetSquareIndices x y gridSize in
  (bottomLeft sq = x + y * gridSize /\
   bottomRight sq = (x + 1) + y * gridSize /\
   topLeft sq = x + (y + 1) * gridSize /\
   topRight sq = (x + 1) + (y + 1) * gridSize) /\
  (bottomLeft sq <> bottomRight sq /\ bottomLeft sq <> topLeft sq /\
   bottomLeft sq <> topRight sq /\ bottomRight sq <> topLeft sq /\
   bottomRight sq <> topRight sq /\ topLeft sq <> topRight sq) /\
  (0 <= bottomLeft sq < gridSize * gridSize /\
   0 <= bottomRight sq < gridSize * gridSize /\
   0 <= topLeft sq < gridSize * gridSize /\
   0 <= topRight sq < gridSize * gridSize).
Proof.
  intros Hg Hb Hx Hy sq. subst sq.
  rewrite (square_indices_exact x y gridSize Hg Hb Hx Hy). cbn [bottomLeft bottomRight topLeft topRight].
  assert (0 <= y * gridSize) by nia.
  assert ((y + 1) * gridSize = y * gridSize + gridSize) by ring.
  assert (y * gridSize + gridSize <= gridSize * gridSize - gridSize) by nia.
  repeat split; lia.
Qed.

Lemma GetSquareIndices_distinct_in_bounds_witness :
  let sq := GetSquareIndices 3 3 5 in
  (bottomLeft sq = 3 + 3 * 5 /\
   bottomRight sq = (3 + 1) + 3 * 5 /\
   topLeft sq = 3 + (3 + 1) * 5 /\
   topRight sq = (3 + 1) + (3 + 1) * 5) /\
  (bottomLeft sq <> bottomRight sq /\ bottomLeft sq <> topLeft sq /\
   bottomLeft sq <> topRight sq /\ bottomRight sq <> topLeft sq /\
   bottomRight sq <> topRight sq /\ topLeft sq <> topRight sq) /\
  (0 <= bottomLeft sq < 5 * 5 /\
   0 <= bottomRight sq < 5 * 5 /\
   0 <= topLeft sq < 5 * 5 /\
   0 <= topRight sq < 5 * 5).
Proof.
  apply (GetSquareIndices_distinct_in_bounds 3 3 5);
    unfold Int32.max_signed; lia.
Defined.

(* ================================================================= *)
(** ** ChunkCoord <-> ChunkId *)

Section ShiftPack.

Variables x y : Z.
Hypothesis Hx : Int32.in_range x.
Hypothesis Hy : Int32.in_range y.

Lemma packed_high :
  Z.shiftr (Z.lor (Z.shiftl x 32) (Z.land y (Z.ones 32))) 32 = x.
Proof.
  rewrite Z.shiftr_lor, Z.shiftr_shiftl_l by lia.
  rewrite Z.sub_diag, Z.shiftl_0_r.
  rewrite Z.land_ones by lia. rewrite Z.shiftr_div_pow2 by lia.
  rewrite Z.div_small by (apply Z.mod_pos_bound; lia).
  apply Z.lor_0_r.
Qed.

Lemma packed_low :
  Z.land (Z.lor (Z.shiftl x 32) (Z.land y (Z.ones 32))) (Z.ones 32)
  = y mod 2 ^ 32.
Proof.
  rewrite Z.land_lor_distr_l.
  rewrite <- Z.land_assoc, Z.land_diag.
  rewrite (Z.land_ones (Z.shiftl x 32)) by lia.
  rewrite Z.shiftl_mul_pow2 by lia. rewrite Z.mod_mul by lia.
  rewrite Z.lor_0_l. apply Z.land_ones. lia.
Qed.

Lemma packed_value :
  Z.lor (Z.shiftl x 32) (Z.land y (Z.ones 32)) = x * 2 ^ 32 + y mod 2 ^ 32.
Proof.
  rewrite (Z.div_mod (Z.lor (Z.shiftl x 32) (Z.land y (Z.ones 32))) (2 ^ 32))
    by lia.
  rewrite <- Z.shiftr_div_pow2 by lia. rewrite packed_high.
  rewrite <- (Z.land_ones (Z.lor _ _)) by lia. rewrite packed_low. ring.
Qed.

Lemma packed_fits :
  Int64.wrap (Z.lor (Z.shiftl x 32) (Z.land y (Z.ones 32))) =
  Z.lor (Z.shiftl x 32) (Z.land y (Z.ones 32)).
Proof.
  apply wrap64_small. rewrite packed_value.
  pose proof (Z.mod_pos_bound y (2 ^ 32)).
  unfold Int32.in_range, Int32.min_signed, Int32.max_signed in *. lia.
Qed.

Lemma low_word_signed : Int32.wrap (y mod 2 ^ 32) = y.
Proof.
  unfold Int32.wrap, Int32.in_range, Int32.min_signed, Int32.max_signed in *.
  change (2 ^ 32) with 4294967296 in *. change (2 ^ 31) with 2147483648 in *.
  Z.div_mod_to_equations. lia.
Qed.

Lemma decode_encode :
  ChunkData.GetCoordinatesFromChunkId
    (ChunkData.GetChunkIdFromCoordinates x y) = (x, y).
Proof.
  unfold ChunkData.GetCoordinatesFromChunkId,
         ChunkData.GetChunkIdFromCoordinates.
  rewrite packed_fits, packed_high, packed_low, low_word_signed.
  reflexivity.
Qed.

End ShiftPack.

Lemma GetChunkIdFromCoordinates_inj (x1 y1 x2 y2 : Z) :
  Int32.in_range x1 -> Int32.in_range y1 ->
  Int32.in_range x2 -> Int32.in_range y2 ->
  ChunkData.GetChunkIdFromCoordinates x1 y1 =
  ChunkData.GetChunkIdFromCoordinates x2 y2 ->
  x1 = x2 /\ y1 = y2.
Proof.
  intros H1 H2 H3 H4 E.
  pose proof (decode_encode x1 y1 H1 H2) as D1.
  pose proof (decode_encode x2 y2 H3 H4) as D2.
  rewrite E in D1. rewrite D1 in D2. inversion D2. auto.
Qed.

(** C3: over the whole signed 32-bit range the coordinate-to-id mapping is
    inverted by the decoder, and two distinct coordinate pairs never share
    an id. *)
Theorem ChunkId_bijection (x1 y1 x2 y2 : Z) :
  Int32.in_range x1 -> Int32.in_range y1 ->
  Int32.in_range x2 -> Int32.in_range y2 ->
  ChunkData.GetCoordinatesFromChunkId
    (ChunkData.GetChunkIdFromCoordinates x1 y1) = (x1, y1) /\
  ((x1, y1) <> (x2, y2) ->
   ChunkData.GetChunkIdFromCoordinates x1 y1 <>
   ChunkData.GetChunkIdFromCoordinates x2 y2).
Proof.
  intros H1 H2 H3 H4. split.
  - apply decode_encode; assumption.
  - intros Hne E. apply Hne.
    destruct (GetChunkIdFromCoordinates_inj _ _ _ _ H1 H2 H3 H4 E).
    congruence.
Qed.

Lemma ChunkId_bijection_witness :
  ChunkData.GetCoordinatesFromChunkId
    (ChunkData.GetChunkIdFromCoordinates (-2147483648) 2147483647)
  = (-2147483648, 2147483647) /\
  ((-2147483648, 2147483647) <> (2147483647, -1) ->
   ChunkData.GetChunkIdFromCoordinates (-2147483648) 2147483647 <>
   ChunkData.GetChunkIdFromCoordinates 2147483647 (-1)).
Proof.
  apply (ChunkId_bijection (-2147483648) 2147483647 2147483647 (-1));
    unfold Int32.in_range, Int32.min_signed, Int32.max_signed; lia.
Defined.

(* ================================================================= *)
(** ** Lists laid out row by row *)

Section RowMajor.

Context {A : Type}.
Variable f : nat -> nat -> A.   (* row, then column *)
Variable s : nat.               (* length of a row *)

Lemma rows_length (a m : nat) :
  length (flat_map (fun j => map (f j) (seq 0 s)) (seq a m)) = (m * s)%nat.
Proof.
  revert a. induction m as [| m IH]; intros a; simpl.
  - reflexivity.
  - rewrite length_app, length_map, length_seq, IH. reflexivity.
Qed.

Lemma rows_nth_error (a m i j : nat) :
  (i < s)%nat -> (j < m)%nat ->
  nth_error (flat_map (fun j => map (f j) (seq 0 s)) (seq a m)) (j * s + i)
  = Some (f (a + j)%nat i).
Proof.
  revert a j. induction m as [| m IH]; intros a j Hi Hj.
  - lia.
  - simpl. destruct j as [| j].
    + rewrite nth_error_app1 by (rewrite length_map, length_seq; exact Hi).
      simpl. rewrite nth_error_map.
      rewrite nth_error_nth' with (d := O) by (rewrite length_seq; exact Hi).
      rewrite seq_nth by exact Hi. simpl. rewrite Nat.add_0_r. reflexivity.
    + rewrite nth_error_app2 by (rewrite length_map, length_seq; simpl; lia).
      rewrite length_map, length_seq.
      replace (S j * s + i - s)%nat with (j * s + i)%nat by (simpl; lia).
      rewrite IH by lia. f_equal. f_equal. lia.
Qed.

End RowMajor.

(* ================================================================= *)
(** ** The chunk worker *)

Lemma completions_app (tr1 tr2 : list WorkerEvent) :
  completions (tr1 ++ tr2) = completions tr1 ++ completions tr2.
Proof. unfold completions. apply flat_map_app. Qed.

Lemma same_worker_refl (t : FChunkThread) : same_worker t t.
Proof. repeat split. Qed.

Lemma same_worker_trans (t1 t2 t3 : FChunkThread) :
  same_worker t1 t2 -> same_worker t2 t3 -> same_worker t1 t3.
Proof.
  unfold same_worker. intros (A1 & A2 & A3 & A4) (B1 & B2 & B3 & B4).
  repeat split; congruence.
Qed.

Lemma same_worker_Stop (t : FChunkThread) : same_worker t (Stop t).
Proof. repeat split. Qed.

Lemma same_worker_Sleep (t : FChunkThread) : same_worker t (emit Sleep t).
Proof.
  repeat split. simpl. rewrite completions_app. simpl. apply app_nil_r.
Qed.

Create HintDb worker.

#[local] Hint Resolve same_worker_refl same_worker_Stop same_worker_Sleep
  : worker.

Section WorkerFacts.

Variable noise : Z -> Z -> Z -> Q -> Q -> Z -> Q.
Variable StopRequested : Z -> bool.

Lemma RunBody_spec (x y : Z) (st : FChunkThread * RunLocals) :
  let st' := RunBody noise StopRequested x (100 * x) y (100 * y) st in
  TempVertices (snd st') =
    TempVertices (snd st) ++ [SampleAt noise (Parameters (fst st)) x y] /\
  same_worker (fst st) (fst st').
Proof.
  destruct st as [t l]. unfold RunBody.
  destruct (StopRequested (processedVertices l));
    destruct (Z.rem _ BatchSize =? 0); simpl; split;
    try reflexivity;
    eauto using same_worker_trans with worker.
Qed.

(** The inner loop, from column [x] to [bound]: [m] columns are left, and
    any fuel of at least [m] gives the same result. *)
Lemma RunInner_spec (y bound : Z) (m : nat) :
  forall (fuel : nat) (x : Z) (st : FChunkThread * RunLocals),
    (m <= fuel)%nat ->
    bound = x + Z.of_nat m ->
    Int32.in_range (100 * x) -> Int32.in_range (100 * bound) ->
    let st' := RunInner noise StopRequested fuel bound x (100 * x)
                        y (100 * y) st in
    TempVertices (snd st') =
      TempVertices (snd st) ++
      map (fun i => SampleAt noise (Parameters (fst st)) (x + Z.of_nat i) y)
          (seq 0 m) /\
    same_worker (fst st) (fst st').
Proof.
  induction m as [| m IH]; intros fuel x st Hfuel Hb Hlo Hhi st'; subst st'.
  - assert ((x <? bound) = false) as Hc by (apply Z.ltb_ge; lia).
    destruct fuel; cbn [RunInner seq map]; rewrite ?Hc, app_nil_r; split;
      auto with worker.
  - destruct fuel as [| fuel]; [lia |]. cbn [RunInner].
    assert ((x <? bound) = true) as Hc by (apply Z.ltb_lt; lia).
    rewrite Hc.
    destruct (RunBody_spec x y st) as [Hv Hw].
    set (st1 := RunBody noise StopRequested x (100 * x) y (100 * y) st) in *.
    assert (Int32.add x 1 = x + 1) as -> by (int32_small; ring).
    assert (Int32.add (100 * x) 100 = 100 * (x + 1)) as ->
      by (int32_small; ring).
    destruct (IH fuel (x + 1) st1) as [Hv' Hw'];
      [lia | lia | int32_range | assumption |].
    split; [| eauto using same_worker_trans].
    rewrite Hv', Hv, <- app_assoc. f_equal.
    destruct Hw as (_ & -> & _).
    change (seq 0 (S m)) with (0%nat :: seq 1 m).
    rewrite <- seq_shift, map_cons, map_map. simpl app. f_equal.
    + f_equal. simpl. lia.
    + apply map_ext. intros i. f_equal. lia.
Qed.

(** The outer loop, from row [y] on, with [m] rows left. *)
Lemma RunOuter_spec (_x _y _size : Z) (m : nat) :
  forall (fuel : nat) (y : Z) (st : FChunkThread * RunLocals),
    (m <= fuel)%nat ->
    0 <= _size ->
    _y + _size = y + Z.of_nat m ->
    Int32.in_range (100 * _x) -> Int32.in_range (100 * (_x + _size)) ->
    Int32.in_range (100 * y) -> Int32.in_range (100 * (_y + _size)) ->
    Int32.in_range _y ->
    let st' := RunOuter noise StopRequested fuel _x _y _size y (100 * y) st in
    TempVertices (snd st') =
      TempVertices (snd st) ++
      flat_map (fun j =>
                  map (fun i => SampleAt noise (Parameters (fst st))
                                         (_x + Z.of_nat i) (y + Z.of_nat j))
                      (seq 0 (Z.to_nat _size)))
               (seq 0 m) /\
    same_worker (fst st) (fst st').
Proof.
  induction m as [| m IH];
    intros fuel y st Hfuel Hs Hb Hxlo Hxhi Hylo Hyhi Hy0 st'; subst st';
    assert (Int32.add _y _size = _y + _size) as Hbound by (int32_small; ring).
  - assert ((y <? _y + _size) = false) as Hc by (apply Z.ltb_ge; lia).
    destruct fuel; cbn [RunOuter seq flat_map]; rewrite ?Hbound, ?Hc, app_nil_r;
      split; auto with worker.
  - destruct fuel as [| fuel]; [lia |]. cbn [RunOuter]. rewrite Hbound.
    assert ((y <? _y + _size) = true) as Hc by (apply Z.ltb_lt; lia).
    rewrite Hc.
    assert (Int32.add _x _size = _x + _size) as -> by (int32_small; ring).
    assert (Int32.mul _x 100 = 100 * _x) as -> by (int32_small; ring).
    destruct (RunInner_spec y (_x + _size) (Z.to_nat _size)
                            (Z.to_nat _size) _x st) as [Hv Hw];
      [lia | lia | assumption | assumption |].
    set (st1 := RunInner noise StopRequested (Z.to_nat _size) (_x + _size)
                         _x (100 * _x) y (100 * y) st) in *.
    assert (Int32.add y 1 = y + 1) as -> by (int32_small; ring).
    assert (Int32.add (100 * y) 100 = 100 * (y + 1)) as ->
      by (int32_small; ring).
    destruct (IH fuel (y + 1) st1) as [Hv' Hw'];
      try assumption; try lia; [int32_range |].
    split; [| eauto using same_worker_trans].
    rewrite Hv', Hv, <- app_assoc. f_equal.
    destruct Hw as (_ & -> & _).
    change (seq 0 (S m)) with (0%nat :: seq 1 m).
    rewrite <- seq_shift. cbn [flat_map].
    rewrite (flat_map_concat_map _ (map S _)), map_map,
      <- flat_map_concat_map.
    f_equal.
    + apply map_ext. intros i. f_equal. simpl. lia.
    + apply flat_map_ext. intros j. apply map_ext. intros i. f_equal. lia.
Qed.

End WorkerFacts.

Section WorkerResults.

Variable noise : Z -> Z -> Z -> Q -> Q -> Z -> Q.
Variable StopRequested : Z -> bool.

Lemma FootprintFits_origin (c : FChunk) :
  FootprintFits c ->
  Int32.in_range (X (Coords c)) /\ Int32.in_range (Y (Coords c)).
Proof.
  unfold FootprintFits. intros (Hs & H1 & H2 & H3 & H4).
  split; int32_range.
Qed.

Lemma RunLoops_spec (t : FChunkThread) :
  FootprintFits (Chunk t) ->
  TempVertices (snd (RunLoops noise StopRequested t)) =
    HeightField noise (Parameters t) (X (Coords (Chunk t)))
                (Y (Coords (Chunk t))) (Z.to_nat (Size (Chunk t))) /\
  same_worker t (fst (RunLoops noise StopRequested t)).
Proof.
  intros Hfit. destruct (FootprintFits_origin _ Hfit) as [Hx Hy].
  destruct Hfit as (Hs & Hxlo & Hxhi & Hylo & Hyhi).
  unfold RunLoops. rewrite !wrap32_small by assumption.
  set (x0 := X (Coords (Chunk t))) in *.
  set (y0 := Y (Coords (Chunk t))) in *.
  set (sz := Size (Chunk t)) in *.
  assert (Int32.mul y0 100 = 100 * y0) as -> by (int32_small; ring).
  destruct (RunOuter_spec noise StopRequested x0 y0 sz (Z.to_nat sz)
              (Z.to_nat sz) y0
              (t, {| TempVertices := []; processedVertices := 0 |}))
    as [Hv Hw]; try assumption; try lia.
  split; [| exact Hw].
  rewrite Hv. reflexivity.
Qed.

Lemma HeightField_length (P : FPerlinParameters) (x0 y0 : Z) (s : nat) :
  length (HeightField noise P x0 y0 s) = (s * s)%nat.
Proof.
  unfold HeightField.
  apply (rows_length
           (fun j i => SampleAt noise P (x0 + Z.of_nat i) (y0 + Z.of_nat j))).
Qed.

Lemma HeightField_nth_error (P : FPerlinParameters) (x0 y0 : Z) (s i j : nat) :
  (i < s)%nat -> (j < s)%nat ->
  nth_error (HeightField noise P x0 y0 s) (j * s + i) =
    Some (SampleAt noise P (x0 + Z.of_nat i) (y0 + Z.of_nat j)).
Proof.
  intros Hi Hj. unfold HeightField.
  exact (rows_nth_error
           (fun j i => SampleAt noise P (x0 + Z.of_nat i) (y0 + Z.of_nat j))
           s 0 s i j Hi Hj).
Qed.

Lemma Run_spec (t : FChunkThread) :
  FootprintFits (Chunk t) ->
  let t' := fst (Run noise StopRequested t) in
  VertexArray (Chunk t') =
    VertexArray (Chunk t) ++
    HeightField noise (Parameters t) (X (Coords (Chunk t)))
                (Y (Coords (Chunk t))) (Z.to_nat (Size (Chunk t))) /\
  Id (Chunk t') = Id (Chunk t) /\
  Parameters t' = Parameters t /\
  bisOver t' = bisOver t /\
  completions (WorkerTrace t') = completions (WorkerTrace t).
Proof.
  intros Hfit. destruct (RunLoops_spec t Hfit) as [Hv (Hc & Hp & Ho & Htr)].
  unfold Run. destruct (RunLoops noise StopRequested t) as [t1 l].
  simpl in *. rewrite Hc, Hv. auto.
Qed.

End WorkerResults.

(** C2: for an origin [(x0, y0)] and a size [s] (with the scaled footprint
    within [int]), [Run] appends exactly [s*s] samples, row-major with [y]
    outer and [x] inner: the sample at row [j], column [i] has position
    [(100*(x0+i), 100*(y0+j))] and height 100 times the noise value at grid
    point [(x0+i, y0+j)]. *)
Theorem Run_row_major_height_field
        (noise : Z -> Z -> Z -> Q -> Q -> Z -> Q) (StopRequested : Z -> bool)
        (t : FChunkThread) :
  FootprintFits (Chunk t) ->
  let x0 := X (Coords (Chunk t)) in
  let y0 := Y (Coords (Chunk t)) in
  let s := Z.to_nat (Size (Chunk t)) in
  let P := Parameters t in
  exists samples : list FVertices,
    VertexArray (Chunk (fst (Run noise StopRequested t))) =
      VertexArray (Chunk t) ++ samples /\
    length samples = (s * s)%nat /\
    forall i j : nat, (i < s)%nat -> (j < s)%nat ->
      nth_error samples (j * s + i) =
        Some {| vertex_Coords :=
                  FVectorOf
                    (inject_Z (100 * (x0 + Z.of_nat i)))
                    (inject_Z (100 * (y0 + Z.of_nat j)))
                    (noise (x0 + Z.of_nat i)%Z (y0 + Z.of_nat j)%Z
                           (Octaves P) (Persistence P) (Frequency P) (Seed P)
                     * 100)%Q |}.
Proof.
  intros Hfit x0 y0 s P.
  destruct (Run_spec noise StopRequested t Hfit) as (Hv & _).
  exists (HeightField noise P x0 y0 s). split; [exact Hv |]. split.
  - apply HeightField_length.
  - intros i j Hi Hj. rewrite HeightField_nth_error by assumption.
    reflexivity.
Qed.

(** C10: a worker that is started appends the whole [Size^2] buffer to its
    chunk once and broadcasts one [OnCalcOver] with the chunk id and the
    chunk, whatever calls of [Stop] arrive while it runs. *)
Theorem RunThread_appends_and_notifies_once
        (noise : Z -> Z -> Z -> Q -> Q -> Z -> Q) (StopRequested : Z -> bool)
        (t : FChunkThread) :
  FootprintFits (Chunk t) ->
  let t' := RunThread noise StopRequested t in
  let buffer := HeightField noise (Parameters t) (X (Coords (Chunk t)))
                            (Y (Coords (Chunk t))) (Z.to_nat (Size (Chunk t))) in
  VertexArray (Chunk t') = VertexArray (Chunk t) ++ buffer /\
  Z.of_nat (length buffer) = Size (Chunk t) * Size (Chunk t) /\
  completions (WorkerTrace t') =
    completions (WorkerTrace t) ++ [(Id (Chunk t), Chunk t')] /\
  bisOver t' = true.
Proof.
  intros Hfit t' buffer.
  destruct (Run_spec noise StopRequested t Hfit) as (Hv & Hid & _ & _ & Htr).
  subst t'. unfold RunThread, Init, Exit.
  set (t1 := fst (Run noise StopRequested t)) in *. simpl.
  repeat split.
  - exact Hv.
  - subst buffer. rewrite HeightField_length.
    destruct Hfit as (Hs & _). lia.
  - rewrite completions_app, Htr, Hid. reflexivity.
Qed.

Lemma Run_row_major_height_field_witness :
  exists samples : list FVertices,
    VertexArray (Chunk (fst (Run Sample.noise Sample.never
                                 (Sample.worker 0 0 5)))) = samples /\
    length samples = 25%nat /\
    nth_error samples (3 * 5 + 2) =
      Some {| vertex_Coords := FVectorOf 200 300 (inject_Z 3044 * 100) |}.
Proof.
  assert (FootprintFits (Chunk (Sample.worker 0 0 5))) as Hfit.
  { unfold FootprintFits, Int32.in_range, Int32.min_signed, Int32.max_signed.
    simpl. lia. }
  destruct (Run_row_major_height_field Sample.noise Sample.never
              (Sample.worker 0 0 5) Hfit) as (samples & Hv & Hlen & Hnth).
  exists samples. split; [exact Hv |]. split; [exact Hlen |].
  apply (Hnth 2%nat 3%nat); simpl; lia.
Defined.

Lemma RunThread_appends_and_notifies_once_witness :
  let t' := RunThread Sample.noise Sample.always (Sample.worker 31 (-62) 8) in
  Z.of_nat (length (VertexArray (Chunk t'))) = 8 * 8 /\
  completions (WorkerTrace t') = [(Id (Chunk t'), Chunk t')] /\
  bShutdown t' = true.
Proof.
  assert (FootprintFits (Chunk (Sample.worker 31 (-62) 8))) as Hfit.
  { unfold FootprintFits, Int32.in_range, Int32.min_signed, Int32.max_signed.
    simpl. lia. }
  destruct (RunThread_appends_and_notifies_once Sample.noise Sample.always
              (Sample.worker 31 (-62) 8) Hfit) as (Hv & Hlen & Hc & _).
  intros t'. subst t'. split; [| split].
  - rewrite Hv. exact Hlen.
  - rewrite Hc. vm_compute. reflexivity.
  - vm_compute. reflexivity.
Defined.

(** The samples [Run] computes do not depend on the calls of [Stop]. *)
Lemma RunLoops_ignores_Stop
      (noise : Z -> Z -> Z -> Q -> Q -> Z -> Q) (stop1 stop2 : Z -> bool)
      (t : FChunkThread) :
  FootprintFits (Chunk t) ->
  TempVertices (snd (RunLoops noise stop1 t)) =
  TempVertices (snd (RunLoops noise stop2 t)).
Proof.
  intros Hfit.
  destruct (RunLoops_spec noise stop1 t Hfit) as [-> _].
  destruct (RunLoops_spec noise stop2 t Hfit) as [-> _].
  reflexivity.
Qed.

(** C4 (what the code does instead): [Stop] is called before the very first
    sample of a 64-sample chunk, so the flag is set long before the batch
    boundaries at 30 and 60 samples; [Run] passes both boundaries (it sleeps
    twice) and still computes all 64 samples. *)
Theorem Run_never_reads_bShutdown :
  let r := RunLoops Sample.noise Sample.always (Sample.worker 0 0 8) in
  bShutdown (fst r) = true /\
  sleeps (WorkerTrace (fst r)) = 2%nat /\
  length (TempVertices (snd r)) = 64%nat /\
  TempVertices (snd r) =
    TempVertices (snd (RunLoops Sample.noise Sample.never (Sample.worker 0 0 8))).
Proof. vm_compute. repeat split. Qed.

(* ================================================================= *)
(** ** Loops as lists *)

Lemma int_range_In (lo hi z : Z) : In z (int_range lo hi) <-> lo <= z <= hi.
Proof.
  unfold int_range. rewrite in_map_iff. split.
  - intros (k & <- & Hk). apply in_seq in Hk. lia.
  - intros H. exists (Z.to_nat (z - lo)). split; [lia |].
    apply in_seq. lia.
Qed.

Lemma int_range_NoDup (lo hi : Z) : NoDup (int_range lo hi).
Proof.
  unfold int_range. apply Injective_map_NoDup.
  - intros a b H. lia.
  - apply seq_NoDup.
Qed.

Lemma int_range_length (lo hi : Z) :
  lo <= hi + 1 -> Z.of_nat (length (int_range lo hi)) = hi + 1 - lo.
Proof.
  intros H. unfold int_range. rewrite length_map, length_seq. lia.
Qed.

Lemma grid_In (xs ys : list Z) (c : FCoords) :
  In c (grid xs ys) <-> In (X c) xs /\ In (Y c) ys.
Proof.
  unfold grid. rewrite in_flat_map. split.
  - intros (y & Hy & Hc). apply in_map_iff in Hc.
    destruct Hc as (x & <- & Hx). simpl. auto.
  - intros [Hx Hy]. exists (Y c). split; [exact Hy |].
    apply in_map_iff. exists (X c). split; [destruct c; reflexivity | exact Hx].
Qed.

Lemma grid_NoDup (xs ys : list Z) :
  NoDup xs -> NoDup ys -> NoDup (grid xs ys).
Proof.
  intros Hxs Hys. unfold grid. induction Hys as [| y ys Hy Hys IH]; simpl.
  - constructor.
  - apply NoDup_app.
    + apply Injective_map_NoDup; [| exact Hxs].
      intros a b H. congruence.
    + exact IH.
    + intros c Hrow Hrest. apply in_map_iff in Hrow.
      destruct Hrow as (x & <- & _).
      apply (grid_In xs ys) in Hrest. simpl in Hrest. tauto.
Qed.

Lemma grid_length (xs ys : list Z) :
  length (grid xs ys) = (length ys * length xs)%nat.
Proof.
  unfold grid. induction ys as [| y ys IH]; simpl.
  - reflexivity.
  - rewrite length_app, length_map, IH. reflexivity.
Qed.

Section Folds.

Context {S : Type}.

(** Nested loops are one loop over the grid. *)
Lemma fold_nested (step : S -> Z -> Z -> S) (xs ys : list Z) (s : S) :
  fold_left (fun s y => fold_left (fun s x => step s x y) xs s) ys s =
  fold_left (fun s c => step s (X c) (Y c)) (grid xs ys) s.
Proof.
  unfold grid. revert s. induction ys as [| y ys IH]; intros s; simpl.
  - reflexivity.
  - rewrite fold_left_app, IH. f_equal.
    clear. revert s. induction xs as [| x xs IH]; intros s; simpl; auto.
Qed.

(** A loop that skips ([continue]) some elements is a loop over the
    others. *)
Lemma fold_skip {A : Type} (skip : A -> bool) (step : S -> A -> S)
      (l : list A) (s : S) :
  fold_left (fun s a => if skip a then s else step s a) l s =
  fold_left step (filter (fun a => negb (skip a)) l) s.
Proof.
  revert s. induction l as [| a l IH]; intros s; simpl.
  - reflexivity.
  - destruct (skip a); simpl; apply IH.
Qed.

End Folds.

(** A loop that enqueues the elements passing a test. *)
Lemma fold_enqueue {A B : Type} (keep : A -> bool) (f : A -> B)
      (l : list A) (q : list B) :
  fold_left (fun q a => if keep a then q ++ [f a] else q) l q =
  q ++ map f (filter keep l).
Proof.
  revert q. induction l as [| a l IH]; intros q; simpl.
  - symmetry. apply app_nil_r.
  - rewrite IH. destruct (keep a); simpl.
    + rewrite <- app_assoc. reflexivity.
    + reflexivity.
Qed.

Lemma filter_all {A : Type} (p : A -> bool) (l : list A) :
  (forall a, In a l -> p a = true) -> filter p l = l.
Proof.
  induction l as [| a l IH]; intros H; simpl.
  - reflexivity.
  - rewrite (H a) by (left; reflexivity). f_equal. apply IH.
    intros b Hb. apply H. right. exact Hb.
Qed.

(** Removing the one occurrence of an element of a duplicate-free list. *)
Lemma filter_remove_one {A : Type} (is_a : A -> bool) (a : A) (l : list A) :
  (forall b, is_a b = true <-> b = a) ->
  NoDup l -> In a l ->
  S (length (filter (fun b => negb (is_a b)) l)) = length l.
Proof.
  intros Hdec Hnd. induction Hnd as [| b l Hb Hnd IH]; intros Hin.
  - destruct Hin.
  - simpl. destruct (is_a b) eqn:E; simpl.
    + apply Hdec in E. subst b. f_equal.
      rewrite filter_all; [reflexivity |].
      intros c Hc. destruct (is_a c) eqn:Ec; [| reflexivity].
      apply Hdec in Ec. subst c. contradiction.
    + f_equal. apply IH. destruct Hin as [-> | Hin]; [| exact Hin].
      assert (is_a a = true) as Ea by (apply Hdec; reflexivity). congruence.
Qed.

(* ================================================================= *)
(** ** The window scan of [Tick] *)

Lemma QueueNewChunks_spec (s : UChunkManagerWorldSubsystem)
      (g : UTerrainGeneratorWorldSubsystem) :
  QueueNewChunks s g =
  ChunkGenerationQueue s ++
  filter (fun c => negb (HasChunk g (ChunkIdAt (ChunkSize s) (X c) (Y c))))
         (grid (int_range (Int32.wrap (X (PlayerPos s) - RenderDistance s))
                          (X (PlayerPos s) + RenderDistance s))
               (int_range (Int32.wrap (Y (PlayerPos s) - RenderDistance s))
                          (Y (PlayerPos s) + RenderDistance s))).
Proof.
  unfold QueueNewChunks.
  rewrite (fold_nested
             (fun q x y =>
                if negb (HasChunk g (ChunkIdAt (ChunkSize s) x y))
                then q ++ [{| X := x; Y := y |}] else q)).
  rewrite (fold_enqueue
             (fun c => negb (HasChunk g (ChunkIdAt (ChunkSize s) (X c) (Y c))))
             (fun c => {| X := X c; Y := Y c |})).
  f_equal. rewrite <- map_id. apply map_ext. intros []. reflexivity.
Qed.

Lemma QueueFarChunks_spec (s : UChunkManagerWorldSubsystem)
      (g : UTerrainGeneratorWorldSubsystem) :
  QueueFarChunks s g =
  ChunkDestructionQueue s ++
  map fst (filter (fun e => IsFar s (snd e)) (ChunkMap g)).
Proof.
  unfold QueueFarChunks.
  apply (fold_enqueue (fun e => IsFar s (snd e)) fst).
Qed.

(** In chunk units: [R < |v/d - p|] says [R*d < |v - p*d|]. *)
Lemma far_in_chunk_units (d v p R : Z) :
  0 < d ->
  (inject_Z R < Qabs (inject_Z v / inject_Z d - inject_Z p))%Q <->
  R * d < Z.abs (v - p * d).
Proof.
  intros Hd. destruct d as [| d | d]; try lia.
  unfold Qdiv, Qinv, Qminus, Qplus, Qopp, Qmult, Qabs, Qlt, inject_Z. simpl.
  rewrite !Z.mul_1_r, ?Pos.mul_1_r, ?Pos.mul_1_l.
  replace (v + - p * Z.pos d) with (v - p * Z.pos d) by ring. lia.
Qed.

(** The test of lines 101-102 is the Chebyshev test of the specification. *)
Lemma IsFar_Chebyshev (s : UChunkManagerWorldSubsystem) (chunk : FChunk) :
  2 <= ChunkSize s ->
  (Z.abs (X (PlayerPos s)) + Z.abs (RenderDistance s) + 1) * (ChunkSize s - 1)
    <= 2 ^ 30 ->
  (Z.abs (Y (PlayerPos s)) + Z.abs (RenderDistance s) + 1) * (ChunkSize s - 1)
    <= 2 ^ 30 ->
  Z.abs (X (Coords chunk)) <= 2 ^ 30 ->
  Z.abs (Y (Coords chunk)) <= 2 ^ 30 ->
  IsFar s chunk =
  negb (Qle_bool (ChebyshevDistance (ChunkSize s) (PlayerPos s) chunk)
                 (inject_Z (RenderDistance s))).
Proof.
  intros Hcs Hx Hy Hcx Hcy.
  set (n := ChunkSize s - 1) in *.
  set (px := X (PlayerPos s)) in *. set (py := Y (PlayerPos s)) in *.
  set (R := RenderDistance s) in *.
  set (cx := X (Coords chunk)) in *. set (cy := Y (Coords chunk)) in *.
  assert (1 <= n) as Hn by (subst n; lia).
  assert (Z.abs (px * n) <= 2 ^ 30 /\ Z.abs (R * n) <= 2 ^ 30 /\
          Z.abs (py * n) <= 2 ^ 30) as (Hpx & HR & Hpy).
  { rewrite !Z.abs_mul, (Z.abs_eq n) by lia. repeat split; nia. }
  assert (2 ^ 30 = 1073741824) as E30 by reflexivity.
  assert (IsFar s chunk =
          ((Z.abs (cx - px * n) >? R * n) || (Z.abs (cy - py * n) >? R * n)))
    as ->.
  { unfold IsFar. fold px py R cx cy.
    assert (Int32.sub (ChunkSize s) 1 = n) as -> by (int32_linear; reflexivity).
    int32_linear. reflexivity. }
  apply eq_true_iff_eq.
  rewrite orb_true_iff, negb_true_iff, <- !Zgt_is_gt_bool, <- not_true_iff_false,
    Qle_bool_iff.
  unfold ChebyshevDistance, InChunkUnits. fold n px py cx cy R.
  assert (forall a b : Q, ~ (a <= b)%Q <-> (b < a)%Q) as Hnle
    by (intros a b; split; [apply Qnot_le_lt | apply Qlt_not_le]).
  rewrite Hnle, Q.max_lt_iff.
  rewrite !far_in_chunk_units by lia. lia.
Qed.

Lemma coords_eqb_eq (a b : FCoords) : coords_eqb a b = true <-> a = b.
Proof.
  unfold coords_eqb. rewrite andb_true_iff, !Z.eqb_eq.
  destruct a, b; simpl. split; [intros [-> ->]; reflexivity |].
  intros H. inversion H. auto.
Qed.

Lemma coords_eqb_neq (a b : FCoords) : a <> b -> coords_eqb a b = false.
Proof.
  intros H. apply not_true_iff_false. rewrite coords_eqb_eq. exact H.
Qed.

Lemma InWindow_ranges (p c : FCoords) (R : Z) :
  InWindow p R c <->
  In (X c) (int_range (X p - R) (X p + R)) /\
  In (Y c) (int_range (Y p - R) (Y p + R)).
Proof. unfold InWindow. rewrite !int_range_In. lia. Qed.

(** The registry holds a chunk under an id exactly when [HasChunk] says
    so. *)
Lemma HasChunk_In (g : UTerrainGeneratorWorldSubsystem) (id : Z) :
  HasChunk g id = true <-> exists chunk, In (id, chunk) (ChunkMap g).
Proof.
  unfold HasChunk. rewrite existsb_exists. split.
  - intros ([k c] & Hin & Hk). cbn in Hk. apply Z.eqb_eq in Hk. subst k.
    exists c. exact Hin.
  - intros (c & Hin). exists (id, c). split; [exact Hin | apply Z.eqb_refl].
Qed.

(** Without overflow, the id the scan looks up for grid coordinate [(x, y)]
    is the id of the origin [(x * (ChunkSize-1), y * (ChunkSize-1))]. *)
Lemma ChunkIdAt_exact (chunkSize x y : Z) :
  2 <= chunkSize ->
  (Z.abs x + 1) * (chunkSize - 1) <= 2 ^ 30 ->
  (Z.abs y + 1) * (chunkSize - 1) <= 2 ^ 30 ->
  ChunkIdAt chunkSize x y =
  ChunkData.GetChunkIdFromCoordinates (x * (chunkSize - 1))
                                      (y * (chunkSize - 1)).
Proof.
  intros Hcs Hx Hy. unfold ChunkIdAt.
  set (n := chunkSize - 1) in *.
  assert (2 ^ 30 = 1073741824) as E30 by reflexivity.
  assert (1 <= n) as Hn by (subst n; lia).
  assert (Z.abs (x * n) <= 2 ^ 30 /\ Z.abs (y * n) <= 2 ^ 30 /\ n <= 2 ^ 30)
    as (Hxn & Hyn & Hn').
  { rewrite !Z.abs_mul, (Z.abs_eq n) by lia. repeat split; nia. }
  assert (Int32.sub chunkSize 1 = n) as -> by (int32_linear; reflexivity).
  int32_linear. reflexivity.
Qed.

(** A coordinate of the window is as far from overflow as the window. *)
Lemma window_coordinate_fits (p R x n : Z) :
  1 <= n ->
  Z.abs (x - p) <= R ->
  (Z.abs p + Z.abs R + 1) * n <= 2 ^ 30 ->
  (Z.abs x + 1) * n <= 2 ^ 30.
Proof.
  intros Hn Hx Hfit.
  apply Z.le_trans with ((Z.abs p + Z.abs R + 1) * n); [| exact Hfit].
  apply Z.mul_le_mono_nonneg_r; lia.
Qed.

(** C1: in the steady phase, a tick on which the observer's chunk
    coordinate has changed to [pos] appends to the creation queue exactly
    the coordinates of the window of radius [R] around [pos] under whose id
    (the id of the origin [(x * (ChunkSize-1), y * (ChunkSize-1))]) the
    registry holds no chunk, each once and row by row, and to the
    destruction queue exactly the ids of the registered chunks whose
    Chebyshev distance from [pos], in chunk units, exceeds [R].  A chunk
    that the registry holds under the id of its origin, at a coordinate of
    the window, is queued neither for creation nor for destruction.  The
    queues are then handed to the drain. *)
Theorem Tick_window_diff
        (s : UChunkManagerWorldSubsystem) (DeltaTime : Q) (location : FVector)
        (g : UTerrainGeneratorWorldSubsystem) :
  bInitialChunksGenerated s = true ->
  TerrainGenerator s = Some g ->
  let pos := {| X := ObserverChunk (ChunkSize s) (vX location);
                Y := ObserverChunk (ChunkSize s) (vY location) |} in
  PlayerPos s <> pos ->
  WorldFits s pos g ->
  let R := RenderDistance s in
  let n := ChunkSize s - 1 in
  exists (created : list FCoords) (far : list (Z * FChunk)),
    Tick s DeltaTime (Some location) =
      Some (ProcessQueuedOperations
              (set_ChunkDestructionQueue
                 (set_ChunkGenerationQueue
                    (set_PlayerPos s pos)
                    (ChunkGenerationQueue s ++ created))
                 (ChunkDestructionQueue s ++ map fst far))
              DeltaTime) /\
    created =
      filter (fun c => negb (HasChunk g (ChunkData.GetChunkIdFromCoordinates
                                           (X c * n) (Y c * n))))
             (grid (int_range (X pos - R) (X pos + R))
                   (int_range (Y pos - R) (Y pos + R))) /\
    NoDup created /\
    (forall c, In c created <->
               InWindow pos R c /\
               ~ exists chunk,
                   In (ChunkData.GetChunkIdFromCoordinates (X c * n) (Y c * n),
                       chunk) (ChunkMap g)) /\
    far = filter (fun e => negb (Qle_bool
                                   (ChebyshevDistance (ChunkSize s) pos (snd e))
                                   (inject_Z R)))
                 (ChunkMap g) /\
    (forall e, In e far <->
               In e (ChunkMap g) /\
               (inject_Z R < ChebyshevDistance (ChunkSize s) pos (snd e))%Q) /\
    (forall e c,
        In e (ChunkMap g) ->
        fst e = ChunkData.GetChunkIdFromCoordinates
                  (X (Coords (snd e))) (Y (Coords (snd e))) ->
        Coords (snd e) = {| X := X c * n; Y := Y c * n |} ->
        InWindow pos R c ->
        ~ In c created /\ ~ In e far).
Proof.
  intros Hinit Hgen pos Hmoved (Hcs & Hwx & Hwy & Hreg) R n.
  set (s1 := set_PlayerPos s pos).
  assert (2 ^ 30 = 1073741824) as E30 by reflexivity.
  assert (1 <= n) as Hn by (subst n; lia).
  assert (Int32.wrap (X pos - R) = X pos - R /\
          Int32.wrap (Y pos - R) = Y pos - R) as [Ex Ey].
  { fold R in Hwx, Hwy. fold n in Hwx, Hwy.
    split; apply wrap32_small; int32_range. }
  set (window := grid (int_range (X pos - R) (X pos + R))
                      (int_range (Y pos - R) (Y pos + R))).
  set (held := fun c : FCoords =>
                 HasChunk g (ChunkData.GetChunkIdFromCoordinates
                               (X c * n) (Y c * n))).
  set (distant := fun e : Z * FChunk =>
                    negb (Qle_bool (ChebyshevDistance (ChunkSize s) pos (snd e))
                                   (inject_Z R))).
  assert (forall c, In c window <-> InWindow pos R c) as Hwin.
  { intros c. unfold window. rewrite grid_In, InWindow_ranges. reflexivity. }
  assert (forall c, In c (filter (fun c => negb (held c)) window) <->
                    InWindow pos R c /\
                    ~ exists chunk,
                        In (ChunkData.GetChunkIdFromCoordinates
                              (X c * n) (Y c * n), chunk) (ChunkMap g))
    as Hcreated.
  { intros c. rewrite filter_In, Hwin, negb_true_iff. unfold held.
    rewrite <- HasChunk_In, not_true_iff_false. reflexivity. }
  assert (forall e, In e (filter distant (ChunkMap g)) <->
                    In e (ChunkMap g) /\
                    (inject_Z R < ChebyshevDistance (ChunkSize s) pos (snd e))%Q)
    as Hfar.
  { intros e. unfold distant.
    rewrite filter_In, negb_true_iff, <- not_true_iff_false, Qle_bool_iff.
    split; intros [He Hd]; (split; [exact He |]).
    - apply Qnot_le_lt. exact Hd.
    - apply Qlt_not_le. exact Hd. }
  exists (filter (fun c => negb (held c)) window), (filter distant (ChunkMap g)).
  split; [| split; [reflexivity | split; [| split; [exact Hcreated |
          split; [reflexivity | split; [exact Hfar |]]]]]].
  - unfold Tick. rewrite Hinit. cbn [negb]. unfold UpdateWindow.
    fold pos. rewrite (coords_eqb_neq _ _ Hmoved). fold s1.
    replace (TerrainGenerator s1) with (Some g) by (symmetry; exact Hgen).
    rewrite QueueNewChunks_spec, QueueFarChunks_spec.
    cbn [s1 set_PlayerPos PlayerPos RenderDistance ChunkSize
         ChunkGenerationQueue ChunkDestructionQueue].
    fold R. rewrite Ex, Ey. fold s1. fold window.
    assert (filter (fun c => negb (HasChunk g (ChunkIdAt (ChunkSize s)
                                                         (X c) (Y c))))
                   window =
            filter (fun c => negb (held c)) window) as ->.
    { apply filter_ext_in. intros c Hc. apply Hwin in Hc.
      destruct Hc as [Hcx Hcy]. unfold held. fold R in Hwx, Hwy.
      rewrite ChunkIdAt_exact; [reflexivity | exact Hcs | |];
        fold n; eapply window_coordinate_fits; eassumption. }
    assert (filter (fun e => IsFar s1 (snd e)) (ChunkMap g) =
            filter distant (ChunkMap g)) as ->.
    { apply filter_ext_in. intros e He.
      rewrite Forall_forall in Hreg. destruct (Hreg e He) as [Hcx Hcy].
      apply (IsFar_Chebyshev s1 (snd e)); assumption. }
    reflexivity.
  - apply NoDup_filter. unfold window.
    apply grid_NoDup; apply int_range_NoDup.
  - intros e c He Hkey Hat [Hcx Hcy]. split.
    + intros Hin. apply Hcreated in Hin. destruct Hin as [_ Hnone].
      apply Hnone. exists (snd e).
      rewrite Hat in Hkey. cbn [X Y] in Hkey. rewrite <- Hkey.
      destruct e. exact He.
    + intros Hin. apply Hfar in Hin. destruct Hin as [_ Hd].
      unfold ChebyshevDistance, InChunkUnits in Hd. fold n in Hd.
      rewrite Hat in Hd. cbn [X Y] in Hd.
      apply Q.max_lt_iff in Hd.
      rewrite !far_in_chunk_units in Hd by lia.
      rewrite <- !Z.mul_sub_distr_r, !Z.abs_mul, (Z.abs_eq n) in Hd by lia.
      destruct Hd as [Hd | Hd]; apply Z.mul_lt_mono_pos_r in Hd; lia.
Qed.

Lemma Tick_window_diff_witness :
  exists (created : list FCoords) (far : list (Z * FChunk)),
    Tick Sample.steady (1 # 5) (Some Sample.pawn_near) =
      Some (ProcessQueuedOperations
              (set_ChunkDestructionQueue
                 (set_ChunkGenerationQueue
                    (set_PlayerPos Sample.steady {| X := 1; Y := 0 |})
                    (ChunkGenerationQueue Sample.steady ++ created))
                 (ChunkDestructionQueue Sample.steady ++ map fst far))
              (1 # 5)) /\
    created = [{| X := 2; Y := -1 |}; {| X := 2; Y := 0 |};
               {| X := 2; Y := 1 |}] /\
    map (fun e => Coords (snd e)) far =
      [{| X := -31; Y := -31 |}; {| X := -31; Y := 0 |};
       {| X := -31; Y := 31 |}] /\
    (forall e, In e (ChunkMap (Sample.registry Sample.steady)) ->
               Coords (snd e) = {| X := 31; Y := 0 |} ->
               ~ In {| X := 1; Y := 0 |} created /\ ~ In e far).
Proof.
  assert (bInitialChunksGenerated Sample.steady = true) as H1
    by (vm_compute; reflexivity).
  assert (TerrainGenerator Sample.steady =
          Some (Sample.registry Sample.steady)) as H2
    by (vm_compute; reflexivity).
  assert (PlayerPos Sample.steady <>
          {| X := ObserverChunk (ChunkSize Sample.steady) (vX Sample.pawn_near);
             Y := ObserverChunk (ChunkSize Sample.steady) (vY Sample.pawn_near) |})
    as H3 by (vm_compute; discriminate).
  assert (forallb (fun e => (Z.abs (X (Coords (snd e))) <=? 2 ^ 30) &&
                            (Z.abs (Y (Coords (snd e))) <=? 2 ^ 30) &&
                            (fst e =? ChunkData.GetChunkIdFromCoordinates
                                        (X (Coords (snd e)))
                                        (Y (Coords (snd e)))))
                  (ChunkMap (Sample.registry Sample.steady)) = true) as Hb
    by (vm_compute; reflexivity).
  rewrite forallb_forall in Hb.
  assert (WorldFits Sample.steady
            {| X := ObserverChunk (ChunkSize Sample.steady) (vX Sample.pawn_near);
               Y := ObserverChunk (ChunkSize Sample.steady) (vY Sample.pawn_near) |}
            (Sample.registry Sample.steady)) as H4.
  { unfold WorldFits.
    split; [vm_compute; discriminate |].
    split; [vm_compute; discriminate |].
    split; [vm_compute; discriminate |].
    apply Forall_forall. intros e He.
    specialize (Hb e He). rewrite !andb_true_iff, !Z.leb_le in Hb. tauto. }
  destruct (Tick_window_diff Sample.steady (1 # 5) Sample.pawn_near
              (Sample.registry Sample.steady) H1 H2 H3 H4)
    as (created & far & HT & Hc & _ & _ & Hf & _ & Hkept).
  exists created, far. split; [exact HT |].
  split; [rewrite Hc; vm_compute; reflexivity |].
  split; [rewrite Hf; vm_compute; reflexivity |].
  intros e He Hat. apply (Hkept e {| X := 1; Y := 0 |} He).
  - specialize (Hb e He). rewrite !andb_true_iff, Z.eqb_eq in Hb. tauto.
  - rewrite Hat. reflexivity.
  - split; vm_compute; discriminate.
Defined.

(* ================================================================= *)
(** ** The drain of [Tick] *)

Lemma ProcessQueuedOperations_due (s : UChunkManagerWorldSubsystem) (dt : Q) :
  DrainDue s dt = true ->
  ProcessQueuedOperations s dt =
    let s := set_TimeSinceLastChunkOperation s 0%Q in
    let s :=
      match ChunkGenerationQueue s with
      | ChunkPos :: rest =>
          RequestChunkGeneration
            (set_ChunkGenerationQueue s rest)
            (Int32.wrap (X ChunkPos * Int32.sub (ChunkSize s) 1))
            (Int32.wrap (Y ChunkPos * Int32.sub (ChunkSize s) 1))
            (ChunkSize s)
      | [] => s
      end in
    match ChunkDestructionQueue s with
    | ChunkId :: rest =>
        RequestChunkDestruction (set_ChunkDestructionQueue s rest) ChunkId
    | [] => s
    end.
Proof.
  unfold DrainDue, ProcessQueuedOperations. cbn. intros ->. reflexivity.
Qed.

Lemma ProcessQueuedOperations_not_due (s : UChunkManagerWorldSubsystem) (dt : Q) :
  DrainDue s dt = false ->
  ProcessQueuedOperations s dt =
    set_TimeSinceLastChunkOperation s (TimeSinceLastChunkOperation s + dt)%Q.
Proof.
  unfold DrainDue, ProcessQueuedOperations. cbn. intros ->. reflexivity.
Qed.

(** The drain takes the head of each queue when it is due, and nothing
    otherwise; it never touches the observer's coordinate. *)
Lemma ProcessQueuedOperations_queues (s : UChunkManagerWorldSubsystem) (dt : Q) :
  let s' := ProcessQueuedOperations s dt in
  PlayerPos s' = PlayerPos s /\
  ChunkGenerationQueue s' =
    (if DrainDue s dt then tl (ChunkGenerationQueue s)
     else ChunkGenerationQueue s) /\
  ChunkDestructionQueue s' =
    (if DrainDue s dt then tl (ChunkDestructionQueue s)
     else ChunkDestructionQueue s).
Proof.
  destruct (DrainDue s dt) eqn:Hdue.
  - rewrite (ProcessQueuedOperations_due s dt Hdue).
    unfold RequestChunkGeneration, RequestChunkDestruction.
    destruct s as [[g |] cs R P cq dq T I b1 n1 b2 n2 t0 tr];
      destruct cq as [| c cq]; destruct dq as [| d dq]; cbn; auto.
  - rewrite (ProcessQueuedOperations_not_due s dt Hdue). cbn. auto.
Qed.

(** What the drain forwards to the registry. *)
Lemma ProcessQueuedOperations_trace (s : UChunkManagerWorldSubsystem) (dt : Q) :
  Trace (ProcessQueuedOperations s dt) =
  Trace s ++
  match TerrainGenerator s with
  | None => []
  | Some _ =>
      if DrainDue s dt then
        match ChunkGenerationQueue s with
        | c :: _ =>
            [CallGenerateChunk
               (Int32.wrap (X c * Int32.sub (ChunkSize s) 1))
               (Int32.wrap (Y c * Int32.sub (ChunkSize s) 1))
               (ChunkSize s)]
        | [] => []
        end ++
        match ChunkDestructionQueue s with
        | d :: _ => [CallDestroyChunk d]
        | [] => []
        end
      else []
  end.
Proof.
  destruct (DrainDue s dt) eqn:Hdue.
  - rewrite (ProcessQueuedOperations_due s dt Hdue).
    unfold RequestChunkGeneration, RequestChunkDestruction.
    destruct s as [[g |] cs R P cq dq T I b1 n1 b2 n2 t0 tr];
      destruct cq as [| c cq]; destruct dq as [| d dq]; cbn;
      rewrite <- ?app_assoc, ?app_nil_r; reflexivity.
  - rewrite (ProcessQueuedOperations_not_due s dt Hdue). cbn.
    destruct (TerrainGenerator s); rewrite app_nil_r; reflexivity.
Qed.

(** The window scan only moves the observer and appends to the queues. *)
Lemma UpdateWindow_appends (s s1 : UChunkManagerWorldSubsystem)
      (Pawn : option FVector) :
  UpdateWindow s Pawn = Some s1 ->
  exists (pos : FCoords) (created : list FCoords) (destroyed : list Z),
    s1 = set_ChunkDestructionQueue
           (set_ChunkGenerationQueue
              (set_PlayerPos s pos)
              (ChunkGenerationQueue s ++ created))
           (ChunkDestructionQueue s ++ destroyed).
Proof.
  assert (s = set_ChunkDestructionQueue
                (set_ChunkGenerationQueue
                   (set_PlayerPos s (PlayerPos s))
                   (ChunkGenerationQueue s ++ []))
                (ChunkDestructionQueue s ++ [])) as Hsame.
  { destruct s. cbn. rewrite !app_nil_r. reflexivity. }
  unfold UpdateWindow. destruct Pawn as [location |].
  - set (pos := {| X := ObserverChunk (ChunkSize s) (vX location);
                   Y := ObserverChunk (ChunkSize s) (vY location) |}).
    destruct (coords_eqb (PlayerPos s) pos) eqn:Heq.
    + intros [= <-]. exists (PlayerPos s), [], []. exact Hsame.
    + destruct (TerrainGenerator (set_PlayerPos s pos)) as [g |] eqn:Hg.
      * intros [= <-]. rewrite QueueNewChunks_spec, QueueFarChunks_spec.
        exists pos. eexists. eexists. cbn. reflexivity.
      * destruct (NullScanReturns (set_PlayerPos s pos)); [| discriminate].
        intros [= <-]. exists pos, [], []. destruct s. cbn.
        rewrite !app_nil_r. reflexivity.
  - intros [= <-]. exists (PlayerPos s), [], []. exact Hsame.
Qed.

(** C8: in the steady phase and with chunks that have an edge
    ([2 <= ChunkSize], so that the divisor of line 71 is not 0 and the
    quotient is finite), a tick on which the recomputed observer chunk
    coordinate equals the stored one performs no window scan: only the drain
    runs, so each queue is its old self with at most its head removed and
    nothing appended, and the stored coordinate stays. *)
Theorem Tick_same_chunk_no_rediff
        (s : UChunkManagerWorldSubsystem) (DeltaTime : Q) (location : FVector) :
  bInitialChunksGenerated s = true ->
  2 <= ChunkSize s ->
  ObserverChunk (ChunkSize s) (vX location) = X (PlayerPos s) ->
  ObserverChunk (ChunkSize s) (vY location) = Y (PlayerPos s) ->
  exists s' : UChunkManagerWorldSubsystem,
    Tick s DeltaTime (Some location) = Some s' /\
    s' = ProcessQueuedOperations s DeltaTime /\
    PlayerPos s' = PlayerPos s /\
    (exists k, (k <= 1)%nat /\
               ChunkGenerationQueue s' = skipn k (ChunkGenerationQueue s)) /\
    (exists k, (k <= 1)%nat /\
               ChunkDestructionQueue s' = skipn k (ChunkDestructionQueue s)).
Proof.
  intros Hinit Hcs Hx Hy. exists (ProcessQueuedOperations s DeltaTime).
  destruct (ProcessQueuedOperations_queues s DeltaTime) as (HP & HG & HD).
  split; [| split; [reflexivity | split; [exact HP | split]]].
  - unfold Tick. rewrite Hinit. cbn [negb]. unfold UpdateWindow.
    rewrite Hx, Hy.
    assert (coords_eqb (PlayerPos s)
                       {| X := X (PlayerPos s); Y := Y (PlayerPos s) |} = true)
      as -> by (apply coords_eqb_eq; destruct (PlayerPos s); reflexivity).
    reflexivity.
  - rewrite HG. destruct (DrainDue s DeltaTime).
    + exists 1%nat. split; [lia |]. destruct (ChunkGenerationQueue s); reflexivity.
    + exists 0%nat. split; [lia | reflexivity].
  - rewrite HD. destruct (DrainDue s DeltaTime).
    + exists 1%nat. split; [lia |]. destruct (ChunkDestructionQueue s); reflexivity.
    + exists 0%nat. split; [lia | reflexivity].
Qed.

Lemma Tick_same_chunk_no_rediff_witness :
  exists s' : UChunkManagerWorldSubsystem,
    Tick Sample.queued (1 # 5) (Some Sample.pawn_far) = Some s' /\
    PlayerPos s' = {| X := 3; Y := 0 |} /\
    ChunkGenerationQueue s' = tl (ChunkGenerationQueue Sample.queued) /\
    ChunkDestructionQueue s' = tl (ChunkDestructionQueue Sample.queued).
Proof.
  destruct (Tick_same_chunk_no_rediff Sample.queued (1 # 5) Sample.pawn_far)
    as (s' & HT & Hs' & HP & _);
    [reflexivity | vm_compute; discriminate | reflexivity | reflexivity |].
  exists s'. split; [exact HT |]. split; [rewrite HP; vm_compute; reflexivity |].
  rewrite Hs'. split; vm_compute; reflexivity.
Defined.

(** C5: whatever the tick, at most one creation request and at most one
    destruction request leave the queues and reach the registry, and the
    queues keep their order.  When the drain is due and each queue has a
    head, exactly the two heads are forwarded, the creation first, and
    everything behind them stays queued in order (followed by what the same
    tick has appended). *)
Theorem Tick_drains_one_of_each
        (s s' : UChunkManagerWorldSubsystem) (DeltaTime : Q)
        (Pawn : option FVector) :
  Tick s DeltaTime Pawn = Some s' ->
  exists (created : list FCoords) (destroyed : list Z)
         (calls : list ManagerEvent),
    Trace s' = Trace s ++ calls /\
    (length calls <= 2)%nat /\
    (length (generation_requests calls) <= 1)%nat /\
    (length (destruction_requests calls) <= 1)%nat /\
    (exists k, (k <= 1)%nat /\
               ChunkGenerationQueue s' =
                 skipn k (ChunkGenerationQueue s ++ created)) /\
    (exists k, (k <= 1)%nat /\
               ChunkDestructionQueue s' =
                 skipn k (ChunkDestructionQueue s ++ destroyed)) /\
    (forall g c cs d ds,
        bInitialChunksGenerated s = true ->
        TerrainGenerator s = Some g ->
        DrainDue s DeltaTime = true ->
        ChunkGenerationQueue s = c :: cs ->
        ChunkDestructionQueue s = d :: ds ->
        calls = [CallGenerateChunk
                   (Int32.wrap (X c * Int32.sub (ChunkSize s) 1))
                   (Int32.wrap (Y c * Int32.sub (ChunkSize s) 1))
                   (ChunkSize s);
                 CallDestroyChunk d] /\
        ChunkGenerationQueue s' = cs ++ created /\
        ChunkDestructionQueue s' = ds ++ destroyed).
Proof.
  unfold Tick. destruct (bInitialChunksGenerated s) eqn:Hinit; cbn [negb].
  - destruct (UpdateWindow s Pawn) as [s1 |] eqn:Hscan; [| discriminate].
    intros [= <-].
    destruct (UpdateWindow_appends s s1 Pawn Hscan)
      as (pos & created & destroyed & Hs1).
    assert (Trace s1 = Trace s /\ TerrainGenerator s1 = TerrainGenerator s /\
            ChunkSize s1 = ChunkSize s /\
            DrainDue s1 DeltaTime = DrainDue s DeltaTime /\
            ChunkGenerationQueue s1 = ChunkGenerationQueue s ++ created /\
            ChunkDestructionQueue s1 = ChunkDestructionQueue s ++ destroyed)
      as (Etr & Etg & Ecs & Edue & Egq & Edq)
      by (rewrite Hs1; unfold DrainDue; cbn; repeat split; reflexivity).
    destruct (ProcessQueuedOperations_queues s1 DeltaTime) as (_ & HG & HD).
    pose proof (ProcessQueuedOperations_trace s1 DeltaTime) as HT.
    rewrite Etr, Etg, Ecs, Edue, Egq, Edq in HT.
    rewrite Edue, Egq in HG. rewrite Edue, Edq in HD.
    exists created, destroyed. eexists. split; [exact HT |].
    split; [| split; [| split; [| split; [| split]]]].
    + destruct (TerrainGenerator s), (DrainDue s DeltaTime),
        (ChunkGenerationQueue s ++ created),
        (ChunkDestructionQueue s ++ destroyed); cbn; lia.
    + destruct (TerrainGenerator s), (DrainDue s DeltaTime),
        (ChunkGenerationQueue s ++ created),
        (ChunkDestructionQueue s ++ destroyed); cbn; lia.
    + destruct (TerrainGenerator s), (DrainDue s DeltaTime),
        (ChunkGenerationQueue s ++ created),
        (ChunkDestructionQueue s ++ destroyed); cbn; lia.
    + rewrite HG. destruct (DrainDue s DeltaTime).
      * exists 1%nat. split; [lia |].
        destruct (ChunkGenerationQueue s ++ created); reflexivity.
      * exists 0%nat. split; [lia | reflexivity].
    + rewrite HD. destruct (DrainDue s DeltaTime).
      * exists 1%nat. split; [lia |].
        destruct (ChunkDestructionQueue s ++ destroyed); reflexivity.
      * exists 0%nat. split; [lia | reflexivity].
    + intros g c cs d ds _ Hg Hdue Hc Hd.
      rewrite HG, HD, Hg, Hdue, Hc, Hd. cbn. auto.
  - intros [= <-]. exists [], [], []. rewrite !app_nil_r.
    split; [reflexivity |]. cbn.
    split; [lia | split; [lia | split; [lia | split; [| split]]]].
    + exists 0%nat. split; [lia | reflexivity].
    + exists 0%nat. split; [lia | reflexivity].
    + intros; congruence.
Qed.

Lemma Tick_drains_one_of_each_witness :
  let s := Sample.queued in
  let s' := Sample.after_tick s (1 # 5) (Some Sample.pawn_far) in
  exists calls : list ManagerEvent,
    Trace s' = Trace s ++ calls /\
    calls = [CallGenerateChunk 62 (-31) 32;
             CallDestroyChunk (ChunkData.GetChunkIdFromCoordinates 0 0)] /\
    ChunkGenerationQueue s' = tl (ChunkGenerationQueue s) /\
    ChunkDestructionQueue s' = tl (ChunkDestructionQueue s) /\
    length (ChunkGenerationQueue s') = 8%nat /\
    length (ChunkDestructionQueue s') = 8%nat.
Proof.
  intros s s'.
  assert (Tick s (1 # 5) (Some Sample.pawn_far) = Some s') as HT
    by (vm_compute; reflexivity).
  destruct (Tick_drains_one_of_each s s' (1 # 5) (Some Sample.pawn_far) HT)
    as (created & destroyed & calls & Htr & _ & _ & _ & _ & _ & Hone).
  exists calls. split; [exact Htr |].
  destruct (Hone (Sample.registry s)
                 {| X := 2; Y := -1 |} (tl (ChunkGenerationQueue s))
                 (ChunkData.GetChunkIdFromCoordinates 0 0)
                 (tl (ChunkDestructionQueue s)))
    as (Hcalls & _ & _); try (vm_compute; reflexivity).
  split; [rewrite Hcalls; vm_compute; reflexivity |].
  repeat split; vm_compute; reflexivity.
Defined.

(* ================================================================= *)
(** ** Bootstrap *)

(** A run of generation requests: the registry receives them in order and
    nothing else of the manager changes. *)
Lemma RequestChunkGeneration_fold {A : Type} (fx fy : A -> Z)
      (fsize : Z -> A -> Z) (l : list A) :
  forall (s : UChunkManagerWorldSubsystem) (g : UTerrainGeneratorWorldSubsystem),
    TerrainGenerator s = Some g ->
    fold_left (fun s a => RequestChunkGeneration
                            s (fx a) (fy a) (fsize (ChunkSize s) a)) l s =
    set_Trace
      (set_TerrainGenerator
         s (Some (fold_left (fun g a => GenerateChunk
                                          g (fx a) (fy a)
                                          (fsize (ChunkSize s) a)) l g)))
      (Trace s ++
       map (fun a => CallGenerateChunk (fx a) (fy a) (fsize (ChunkSize s) a)) l).
Proof.
  induction l as [| a l IH]; intros s g Hg.
  - destruct s. cbn in *. subst. rewrite app_nil_r. reflexivity.
  - cbn [fold_left map]. unfold RequestChunkGeneration at 2. rewrite Hg.
    erewrite IH by reflexivity.
    unfold log, set_Trace, set_TerrainGenerator. cbn.
    rewrite <- app_assoc. reflexivity.
Qed.

Lemma GetInitialChunkCount_square (R : Z) :
  0 <= R -> (2 * R + 1) * (2 * R + 1) <= Int32.max_signed ->
  ChunkData.GetInitialChunkCount R = (2 * R + 1) * (2 * R + 1).
Proof.
  intros H0 H1. unfold ChunkData.GetInitialChunkCount.
  assert (2 * R + 1 <= (2 * R + 1) * (2 * R + 1)) by nia.
  int32_small. reflexivity.
Qed.

(** The coordinates [InitialChunkGeneration] visits after the centre. *)
Lemma window_without_centre (R : Z) :
  0 <= R ->
  let others :=
    filter (fun c => negb ((X c =? 0) && (Y c =? 0)))
           (grid (int_range (- R) R) (int_range (- R) R)) in
  Z.of_nat (length ({| X := 0; Y := 0 |} :: others)) = (2 * R + 1) * (2 * R + 1) /\
  NoDup ({| X := 0; Y := 0 |} :: others) /\
  (forall c, In c ({| X := 0; Y := 0 |} :: others) <->
             InWindow {| X := 0; Y := 0 |} R c).
Proof.
  intros HR others.
  assert (NoDup (grid (int_range (- R) R) (int_range (- R) R))) as Hnd
    by (apply grid_NoDup; apply int_range_NoDup).
  assert (forall c, In c (grid (int_range (- R) R) (int_range (- R) R)) <->
                    InWindow {| X := 0; Y := 0 |} R c) as Hin.
  { intros c. rewrite grid_In, InWindow_ranges. cbn. reflexivity. }
  assert (forall c : FCoords,
             (X c =? 0) && (Y c =? 0) = true <-> c = {| X := 0; Y := 0 |})
    as Hdec.
  { intros [x y]. cbn. rewrite andb_true_iff, !Z.eqb_eq.
    split; [intros [-> ->]; reflexivity | intros [= -> ->]; auto]. }
  split; [| split].
  - cbn [length]. subst others.
    rewrite (filter_remove_one _ {| X := 0; Y := 0 |} _ Hdec Hnd).
    + rewrite grid_length, Nat2Z.inj_mul, int_range_length by lia. ring.
    + apply Hin. unfold InWindow. cbn. lia.
  - constructor.
    + subst others. rewrite filter_In, negb_true_iff. cbn. intros [_ H].
      discriminate.
    + apply NoDup_filter, Hnd.
  - intros c. cbn [In]. subst others. rewrite filter_In, Hin, negb_true_iff.
    split.
    + intros [<- | [H _]]; [unfold InWindow; cbn; lia | exact H].
    + intros H. destruct ((X c =? 0) && (Y c =? 0)) eqn:E.
      * left. symmetry. apply Hdec. exact E.
      * right. auto.
Qed.

(** [InitialChunkGeneration], as one update of the manager. *)
Lemma InitialChunkGeneration_spec (s : UChunkManagerWorldSubsystem)
      (g : UTerrainGeneratorWorldSubsystem) (InRenderDistance : Z) :
  TerrainGenerator s = Some g ->
  0 <= RenderDistance s <= Int32.max_signed ->
  let n := Int32.sub (ChunkSize s) 1 in
  let others :=
    filter (fun c => negb ((X c =? 0) && (Y c =? 0)))
           (grid (int_range (- RenderDistance s) (RenderDistance s))
                 (int_range (- RenderDistance s) (RenderDistance s))) in
  exists g' : UTerrainGeneratorWorldSubsystem,
    InitialChunkGeneration s InRenderDistance =
    set_Trace
      (set_TerrainGenerator
         (set_InitialChunksRemaining
            s (ChunkData.GetInitialChunkCount InRenderDistance))
         (Some g'))
      (Trace s ++
       map (fun c => CallGenerateChunk (Int32.mul (X c) n) (Int32.mul (Y c) n)
                                       (ChunkSize s))
           ({| X := 0; Y := 0 |} :: others)).
Proof.
  intros Hg HR n others. unfold InitialChunkGeneration.
  set (s1 := set_InitialChunksRemaining s _).
  set (s2 := RequestChunkGeneration s1 0 0 (ChunkSize s1)).
  assert (s2 = set_Trace (set_TerrainGenerator
                            s1 (Some (GenerateChunk g 0 0 (ChunkSize s))))
                         (Trace s ++ [CallGenerateChunk 0 0 (ChunkSize s)]))
    as Hs2.
  { subst s2. unfold RequestChunkGeneration.
    replace (TerrainGenerator s1) with (Some g) by (symmetry; exact Hg).
    reflexivity. }
  assert (Int32.sub 0 (RenderDistance s2) = - RenderDistance s) as ->.
  { rewrite Hs2. cbn. int32_small. ring. }
  replace (RenderDistance s2) with (RenderDistance s) by (rewrite Hs2; reflexivity).
  replace (Int32.sub (ChunkSize s2) 1) with n by (rewrite Hs2; reflexivity).
  rewrite (fold_nested
             (fun s x y =>
                if (x =? 0) && (y =? 0) then s
                else RequestChunkGeneration s (Int32.mul x n) (Int32.mul y n)
                                            (ChunkSize s))).
  rewrite (fold_skip
             (fun c => (X c =? 0) && (Y c =? 0))
             (fun s c => RequestChunkGeneration
                           s (Int32.mul (X c) n) (Int32.mul (Y c) n)
                           (ChunkSize s))).
  fold others.
  erewrite (RequestChunkGeneration_fold
              (fun c => Int32.mul (X c) n) (fun c => Int32.mul (Y c) n)
              (fun cs _ => cs) others s2)
    by (rewrite Hs2; reflexivity).
  eexists. rewrite Hs2. unfold set_Trace, set_TerrainGenerator. cbn.
  rewrite <- app_assoc. reflexivity.
Qed.

Lemma progress_reports_app (tr1 tr2 : list ManagerEvent) :
  progress_reports (tr1 ++ tr2) = progress_reports tr1 ++ progress_reports tr2.
Proof. unfold progress_reports. apply flat_map_app. Qed.

(** One completion notification during the bootstrap. *)
Lemma OnChunkGenerated_bootstrap (s : UChunkManagerWorldSubsystem)
      (now : Q) (ChunkId : Z) :
  bInitialChunksGenerated s = false ->
  let total := ChunkData.GetInitialChunkCount (RenderDistance s) in
  let remaining := Int32.sub (InitialChunksRemaining s) 1 in
  let s' := OnChunkGenerated s now ChunkId in
  InitialChunksRemaining s' = remaining /\
  progress_reports (Trace s') =
    progress_reports (Trace s) ++ [(Int32.sub total remaining, total)] /\
  bInitialChunksGenerated s' = (remaining <=? 0) /\
  RenderDistance s' = RenderDistance s.
Proof.
  intros Hinit total remaining s'. subst s' total remaining.
  unfold OnChunkGenerated. rewrite Hinit. cbn [negb].
  destruct s as [tg cs R P cq dq T I b1 n1 b2 n2 t0 tr]. cbn in *.
  destruct (Int32.sub n1 1 <=? 0) eqn:Hrem; cbn;
    destruct b2; cbn;
    try destruct (Int32.sub n2 1 <=? 0); cbn;
    destruct tg; cbn;
    rewrite ?progress_reports_app; cbn;
    rewrite ?app_nil_r; auto.
Qed.

Lemma OnChunkGenerated_RenderDistance (s : UChunkManagerWorldSubsystem)
      (now : Q) (ChunkId : Z) :
  RenderDistance (OnChunkGenerated s now ChunkId) = RenderDistance s.
Proof.
  unfold OnChunkGenerated.
  destruct s as [tg cs R0 P cq dq T I b1 n1 b2 n2 t0 tr]. cbn.
  destruct b1; cbn;
    try destruct (Int32.sub n1 1 <=? 0); cbn;
    destruct b2; cbn;
    try destruct (Int32.sub n2 1 <=? 0); cbn;
    destruct tg; reflexivity.
Qed.

Lemma Notifications_RenderDistance (ns : list (Q * Z)) :
  forall s : UChunkManagerWorldSubsystem,
    RenderDistance (fold_left (fun s n => OnChunkGenerated s (fst n) (snd n))
                              ns s) = RenderDistance s.
Proof.
  induction ns as [| n ns IH]; intros s; cbn [fold_left].
  - reflexivity.
  - rewrite IH. apply OnChunkGenerated_RenderDistance.
Qed.

(** Where the argument of [InitialChunkGeneration] is the value of the
    member [RenderDistance], the bootstrap is the one of the specification:
    it forwards exactly [(2R+1)^2] generation requests, the one for chunk
    (0,0) first and one for every other coordinate of the window; each
    completion notification lowers the remaining count by one and reports
    [(total - remaining, total)]; the steady phase begins with the
    notification that brings the count to 0, whose report is
    [(total, total)]. *)
Lemma Bootstrap_requests_and_progress
        (s : UChunkManagerWorldSubsystem) (g : UTerrainGeneratorWorldSubsystem)
        (R : Z) :
  TerrainGenerator s = Some g ->
  RenderDistance s = R ->
  0 <= R ->
  (2 * R + 1) * (2 * R + 1) <= Int32.max_signed ->
  bInitialChunksGenerated s = false ->
  let total := (2 * R + 1) * (2 * R + 1) in
  let n := Int32.sub (ChunkSize s) 1 in
  let s0 := InitialChunkGeneration s R in
  (exists others : list FCoords,
      Trace s0 =
        Trace s ++
        CallGenerateChunk 0 0 (ChunkSize s) ::
        map (fun c => CallGenerateChunk (Int32.mul (X c) n) (Int32.mul (Y c) n)
                                        (ChunkSize s)) others /\
      Z.of_nat (length ({| X := 0; Y := 0 |} :: others)) = total /\
      NoDup ({| X := 0; Y := 0 |} :: others) /\
      (forall c, In c ({| X := 0; Y := 0 |} :: others) <->
                 InWindow {| X := 0; Y := 0 |} R c)) /\
  InitialChunksRemaining s0 = total /\
  bInitialChunksGenerated s0 = false /\
  forall ns : list (Q * Z),
    Z.of_nat (length ns) <= total ->
    let sk := Notifications s0 ns in
    InitialChunksRemaining sk = total - Z.of_nat (length ns) /\
    progress_reports (Trace sk) =
      progress_reports (Trace s0) ++
      map (fun k => (Z.of_nat k, total)) (seq 1 (length ns)) /\
    bInitialChunksGenerated sk = (Z.of_nat (length ns) =? total).
Proof.
  intros Hg HR H0 Hfit Hinit total n s0.
  assert (0 <= RenderDistance s <= Int32.max_signed) as HR'.
  { rewrite HR. unfold Int32.max_signed in *. nia. }
  destruct (InitialChunkGeneration_spec s g R Hg HR') as (g' & Hs0).
  fold s0 in Hs0. rewrite HR in Hs0. fold n in Hs0.
  rewrite (GetInitialChunkCount_square R H0 Hfit) in Hs0. fold total in Hs0.
  destruct (window_without_centre R H0) as (Hlen & Hnd & Hin).
  assert (InitialChunksRemaining s0 = total /\
          bInitialChunksGenerated s0 = false /\ RenderDistance s0 = R)
    as (Hrem0 & Hinit0 & HR0) by (rewrite Hs0; cbn; auto).
  split; [| split; [exact Hrem0 | split; [exact Hinit0 |]]].
  - eexists. split; [| split; [exact Hlen | split; [exact Hnd | exact Hin]]].
    rewrite Hs0. cbn. reflexivity.
  - intros ns. induction ns as [| [now id] ns IH] using rev_ind; intros Hk sk.
    + subst sk. unfold Notifications. cbn [fold_left length seq map].
      rewrite app_nil_r, Hrem0, Hinit0.
      repeat split; [lia |]. symmetry. apply Z.eqb_neq. subst total. nia.
    + rewrite length_app in Hk. cbn [length] in Hk.
      destruct IH as (Hrem & Hrep & Hb); [lia |].
      subst sk. unfold Notifications in *. rewrite fold_left_app. cbn [fold_left].
      set (sk := fold_left _ ns s0) in *. cbn [fst snd].
      assert (bInitialChunksGenerated sk = false) as Hbk
        by (rewrite Hb; apply Z.eqb_neq; lia).
      assert (RenderDistance sk = R) as HRk
        by (subst sk; rewrite Notifications_RenderDistance; exact HR0).
      destruct (OnChunkGenerated_bootstrap sk now id Hbk)
        as (Hrem' & Hrep' & Hb' & _).
      rewrite HRk, (GetInitialChunkCount_square R H0 Hfit), Hrem in *.
      fold total in Hrep'.
      assert (Int32.sub (total - Z.of_nat (length ns)) 1 =
              total - Z.of_nat (length ns) - 1) as E1
        by (int32_small; reflexivity).
      assert (Int32.sub total (total - Z.of_nat (length ns) - 1) =
              Z.of_nat (length ns) + 1) as E2 by (int32_small; ring).
      rewrite E1 in *. rewrite E2 in *.
      rewrite Hrem', Hrep', Hrep, Hb', length_app. cbn [length].
      rewrite Nat.add_1_r, seq_S, map_app, <- app_assoc. cbn [map].
      repeat split.
      * lia.
      * replace (Z.of_nat (1 + length ns)) with (Z.of_nat (length ns) + 1)
          by lia.
        reflexivity.
      * apply eq_true_iff_eq. rewrite Z.leb_le, Z.eqb_eq. lia.
Qed.

Lemma Bootstrap_requests_and_progress_witness :
  let s := Sample.fresh 2 in
  let s0 := InitialChunkGeneration s 2 in
  let sk := Notifications s0 (map (fun k => (0%Q, k)) (int_range 1 25)) in
  (exists others : list FCoords,
      Trace s0 =
        CallGenerateChunk 0 0 32 ::
        map (fun c => CallGenerateChunk (Int32.mul (X c) 31) (Int32.mul (Y c) 31) 32)
            others /\
      Z.of_nat (length ({| X := 0; Y := 0 |} :: others)) = 25) /\
  InitialChunksRemaining s0 = 25 /\
  InitialChunksRemaining sk = 0 /\
  progress_reports (Trace sk) =
    map (fun k => (Z.of_nat k, 25)) (seq 1 25) /\
  bInitialChunksGenerated sk = true.
Proof.
  intros s s0 sk.
  destruct (Bootstrap_requests_and_progress
              s {| ChunkMap := [] |} 2)
    as ((others & Htr & Hlen & _) & Hrem & _ & Hn);
    try reflexivity; try (unfold Int32.max_signed; lia).
  destruct (Hn (map (fun k => (0%Q, k)) (int_range 1 25)))
    as (Hrk & Hpk & Hbk); [vm_compute; discriminate |].
  split; [| split; [exact Hrem | split; [exact Hrk | split]]].
  - exists others. split; [exact Htr | exact Hlen].
  - fold s0 sk in Hpk. rewrite Hpk. vm_compute. reflexivity.
  - exact Hbk.
Defined.

(** C6 (what the code does instead): the bootstrap is started with render
    distance 2 on a manager whose member [RenderDistance] is 1.
    [InitialChunkGeneration] takes the count to wait for from its argument
    (25), but its loops run over the member, and [OnChunkGenerated] takes
    the progress total from the member too.  So 9 requests go out, not 25;
    the 9 completions report (-15, 9) ... (-7, 9); and with 16 chunks still
    counted as remaining when every requested chunk is ready, the steady
    phase is not entered.  With member 2 and argument 1 the 25 requests go
    out, and the steady phase is entered at the 9th completion, 16 chunks
    early. *)
Theorem Bootstrap_window_ignores_its_argument :
  let s0 := InitialChunkGeneration (Sample.fresh 1) 2 in
  let sk := Notifications s0 (map (fun k => (0%Q, k)) (int_range 1 9)) in
  let s0' := InitialChunkGeneration (Sample.fresh 2) 1 in
  let sk' := Notifications s0' (map (fun k => (0%Q, k)) (int_range 1 9)) in
  (generation_requests (Trace s0) =
     [(0, 0, 32); (-31, -31, 32); (0, -31, 32); (31, -31, 32); (-31, 0, 32);
      (31, 0, 32); (-31, 31, 32); (0, 31, 32); (31, 31, 32)] /\
   InitialChunksRemaining s0 = 25 /\
   progress_reports (Trace sk) =
     [(-15, 9); (-14, 9); (-13, 9); (-12, 9); (-11, 9); (-10, 9); (-9, 9);
      (-8, 9); (-7, 9)] /\
   InitialChunksRemaining sk = 16 /\
   bInitialChunksGenerated sk = false) /\
  (length (generation_requests (Trace s0')) = 25%nat /\
   InitialChunksRemaining s0' = 9 /\
   progress_reports (Trace sk') =
     [(17, 25); (18, 25); (19, 25); (20, 25); (21, 25); (22, 25); (23, 25);
      (24, 25); (25, 25)] /\
   bInitialChunksGenerated sk' = true).
Proof. vm_compute. repeat split. Qed.

(* ================================================================= *)
(** ** Stress test *)

Lemma stress_reports_app (tr1 tr2 : list ManagerEvent) :
  stress_reports (tr1 ++ tr2) = stress_reports tr1 ++ stress_reports tr2.
Proof. unfold stress_reports. apply flat_map_app. Qed.

(** The requests of [StressTest] lie on the axis [y = 0], 31 vertices
    apart. *)
Lemma StressTest_requests (s : UChunkManagerWorldSubsystem)
      (g : UTerrainGeneratorWorldSubsystem) (now : Q) (NumChunks : Z) :
  TerrainGenerator s = Some g ->
  Trace (StressTest s now NumChunks) =
    Trace s ++
    map (fun i => CallGenerateChunk (Int32.mul i 31) 0 32)
        (int_range 0 (NumChunks - 1)) /\
  PendingChunks (StressTest s now NumChunks) = NumChunks /\
  bStressTestInProgress (StressTest s now NumChunks) = true /\
  StressTestStartTime (StressTest s now NumChunks) = now.
Proof.
  intros Hg. unfold StressTest.
  rewrite (RequestChunkGeneration_fold
             (fun i => Int32.mul i 31) (fun _ => 0) (fun _ _ => 32)
             (int_range 0 (NumChunks - 1)) _ g) by exact Hg.
  cbn. auto.
Qed.

(** Multiplying by 31 is one-to-one on [int], wrap-around included. *)
Lemma mul31_injective (i j : Z) :
  Int32.in_range i -> Int32.in_range j ->
  Int32.mul i 31 = Int32.mul j 31 -> i = j.
Proof.
  unfold Int32.mul, Int32.wrap, Int32.in_range, Int32.min_signed,
    Int32.max_signed.
  intros Hi Hj E.
  assert ((2 ^ 32 | 31 * (i - j))) as Hdiv.
  { exists ((i * 31 + 2 ^ 31) / 2 ^ 32 - (j * 31 + 2 ^ 31) / 2 ^ 32).
    pose proof (Z.div_mod (i * 31 + 2 ^ 31) (2 ^ 32)).
    pose proof (Z.div_mod (j * 31 + 2 ^ 31) (2 ^ 32)). lia. }
  apply Z.gauss in Hdiv; [| reflexivity ].
  destruct Hdiv as [k Hk]. assert (k = 0) by lia. lia.
Qed.

(** The ids of the chunks a stress test requests are pairwise distinct. *)
Lemma StressTest_ids_distinct (NumChunks : Z) :
  NumChunks <= Int32.max_signed ->
  NoDup (map (fun i => ChunkData.GetChunkIdFromCoordinates (Int32.mul i 31) 0)
             (int_range 0 (NumChunks - 1))).
Proof.
  intros HN.
  assert (forall l, NoDup l -> Forall Int32.in_range l ->
                    NoDup (map (fun i => ChunkData.GetChunkIdFromCoordinates
                                           (Int32.mul i 31) 0) l)) as Hgen.
  { induction 1 as [| i l Hi Hnd IH]; intros Hr; cbn; constructor.
    - rewrite in_map_iff. intros (j & E & Hj). apply Hi.
      inversion Hr as [| ? ? Hri Hrl]; subst.
      rewrite Forall_forall in Hrl.
      apply GetChunkIdFromCoordinates_inj in E;
        try apply wrap32_range; try (vm_compute; split; discriminate).
      destruct E as [E _]. apply mul31_injective in E; auto. congruence.
    - apply IH. inversion Hr; assumption. }
  apply Hgen; [apply int_range_NoDup |].
  apply Forall_forall. intros i Hi. apply int_range_In in Hi.
  unfold Int32.in_range, Int32.min_signed, Int32.max_signed in *. lia.
Qed.

(** Whenever [OnChunkGenerated] writes a stress report, the per-chunk
    average it prints is the total divided by [PendingChunks] after the
    decrement, which is not positive at that point. *)
Lemma OnChunkGenerated_stress_report (s : UChunkManagerWorldSubsystem)
      (now : Q) (ChunkId : Z) :
  stress_reports (Trace (OnChunkGenerated s now ChunkId)) =
    stress_reports (Trace s) \/
  exists TotalTime : Q,
    stress_reports (Trace (OnChunkGenerated s now ChunkId)) =
      stress_reports (Trace s) ++
      [(TotalTime, fdiv TotalTime (Int32.sub (PendingChunks s) 1))] /\
    Int32.sub (PendingChunks s) 1 <= 0.
Proof.
  unfold OnChunkGenerated.
  destruct s as [tg cs R P cq dq T I b1 n1 b2 n2 t0 tr]. cbn.
  destruct b1; cbn;
    try destruct (Int32.sub n1 1 <=? 0); cbn;
    destruct b2; cbn;
    try (destruct (Int32.sub n2 1 <=? 0) eqn:Hp;
         [apply Z.leb_le in Hp |]); cbn;
    destruct tg; cbn;
    rewrite ?stress_reports_app; cbn; rewrite ?app_nil_r;
    solve [ left; reflexivity
          | right; eexists; split; [reflexivity | exact Hp] ].
Qed.

(** C7 (what the code does instead): a stress test of 3 chunks started at
    second 5, whose completions arrive at seconds 6, 7 and 8.  The three
    requests go out at once and the report comes with the third completion,
    with the total of 3000 ms; but the average is computed as the total
    divided by [PendingChunks], which is 0 by then, not by 3. *)
Theorem StressTest_average_divides_by_zero :
  let s0 := StressTest Sample.steady 5%Q 3 in
  let sk := Notifications s0 [(6%Q, 1); (7%Q, 2); (8%Q, 3)] in
  generation_requests (skipn (length (Trace Sample.steady)) (Trace s0)) =
    [(0, 0, 32); (31, 0, 32); (62, 0, 32)] /\
  stress_reports (Trace (Notifications s0 [(6%Q, 1); (7%Q, 2)])) = [] /\
  stress_reports (Trace sk) = [(3000%Q, None)] /\
  PendingChunks sk = 0 /\
  fdiv 3000%Q 3 = Some (3000 / 3)%Q.
Proof. vm_compute. repeat split. Qed.

(* ================================================================= *)
(** ** More on the mesh indices *)

(** X1: two different cells of the grid never have the same bottom-left
    corner, so the corner index identifies the cell. *)
Theorem GetSquareIndices_cell_of_corner (x y x' y' gridSize : Z) :
  2 <= gridSize ->
  gridSize * gridSize <= Int32.max_signed ->
  0 <= x <= gridSize - 2 -> 0 <= y <= gridSize - 2 ->
  0 <= x' <= gridSize - 2 -> 0 <= y' <= gridSize - 2 ->
  (x, y) <> (x', y') ->
  bottomLeft (GetSquareIndices x y gridSize) <>
  bottomLeft (GetSquareIndices x' y' gridSize).
Proof.
  intros Hg Hb Hx Hy Hx' Hy' Hne.
  rewrite (square_indices_exact x y gridSize Hg Hb Hx Hy).
  rewrite (square_indices_exact x' y' gridSize Hg Hb Hx' Hy').
  cbn [bottomLeft]. intros E. apply Hne.
  assert (y = y') by nia. subst y'. f_equal. lia.
Qed.

Lemma GetSquareIndices_cell_of_corner_witness :
  bottomLeft (GetSquareIndices 3 0 5) <> bottomLeft (GetSquareIndices 0 3 5).
Proof.
  apply (GetSquareIndices_cell_of_corner 3 0 0 3 5);
    unfold Int32.max_signed; try lia.
  intros E. discriminate E.
Defined.

(** X2: neighbouring cells share their common edge: the right-hand corners
    of a cell are the left-hand corners of the cell to its right, and its
    top corners are the bottom corners of the cell above. *)
Theorem GetSquareIndices_shared_edges (x y gridSize : Z) :
  3 <= gridSize ->
  gridSize * gridSize <= Int32.max_signed ->
  0 <= x <= gridSize - 3 -> 0 <= y <= gridSize - 3 ->
  let here := GetSquareIndices x y gridSize in
  let right := GetSquareIndices (x + 1) y gridSize in
  let above := GetSquareIndices x (y + 1) gridSize in
  bottomRight here = bottomLeft right /\ topRight here = topLeft right /\
  topLeft here = bottomLeft above /\ topRight here = bottomRight above.
Proof.
  intros Hg Hb Hx Hy here right above. subst here right above.
  rewrite (square_indices_exact x y gridSize) by lia.
  rewrite (square_indices_exact (x + 1) y gridSize) by lia.
  rewrite (square_indices_exact x (y + 1) gridSize) by lia.
  cbn [bottomLeft bottomRight topLeft topRight]. repeat split; ring.
Qed.

Lemma GetSquareIndices_shared_edges_witness :
  let here := GetSquareIndices 1 2 5 in
  let right := GetSquareIndices (1 + 1) 2 5 in
  let above := GetSquareIndices 1 (2 + 1) 5 in
  bottomRight here = bottomLeft right /\ topRight here = topLeft right /\
  topLeft here = bottomLeft above /\ topRight here = bottomRight above.
Proof.
  apply (GetSquareIndices_shared_edges 1 2 5); unfold Int32.max_signed; lia.
Defined.

(** X3: every vertex of the [gridSize] x [gridSize] buffer is a corner of
    at least one cell. *)
Theorem GetSquareIndices_covers_buffer (k gridSize : Z) :
  2 <= gridSize ->
  gridSize * gridSize <= Int32.max_signed ->
  0 <= k < gridSize * gridSize ->
  exists x y : Z,
    0 <= x <= gridSize - 2 /\ 0 <= y <= gridSize - 2 /\
    let sq := GetSquareIndices x y gridSize in
    k = bottomLeft sq \/ k = bottomRight sq \/
    k = topLeft sq \/ k = topRight sq.
Proof.
  intros Hg Hb Hk.
  pose proof (Z.div_mod k gridSize ltac:(lia)) as Hdm.
  pose proof (Z.mod_pos_bound k gridSize ltac:(lia)) as Hcol.
  assert (0 <= k / gridSize <= gridSize - 1) as Hrow.
  { split; [apply Z.div_pos; lia |].
    assert (k / gridSize < gridSize); [| lia].
    apply Z.div_lt_upper_bound; lia. }
  set (col := k mod gridSize) in *. set (row := k / gridSize) in *.
  exists (Z.min col (gridSize - 2)), (Z.min row (gridSize - 2)).
  split; [lia |]. split; [lia |].
  rewrite (square_indices_exact _ _ gridSize) by lia.
  cbn [bottomLeft bottomRight topLeft topRight].
  destruct (Z_le_gt_dec col (gridSize - 2));
    destruct (Z_le_gt_dec row (gridSize - 2)).
  - left. rewrite !Z.min_l by lia. lia.
  - right. right. left. rewrite Z.min_l, Z.min_r by lia.
    replace row with (gridSize - 1) in Hdm by lia. lia.
  - right. left. rewrite Z.min_r, Z.min_l by lia.
    replace col with (gridSize - 1) in Hdm by lia. lia.
  - right. right. right. rewrite !Z.min_r by lia.
    replace col with (gridSize - 1) in Hdm by lia.
    replace row with (gridSize - 1) in Hdm by lia. lia.
Qed.

Lemma GetSquareIndices_covers_buffer_witness :
  exists x y : Z,
    0 <= x <= 5 - 2 /\ 0 <= y <= 5 - 2 /\
    let sq := GetSquareIndices x y 5 in
    24 = bottomLeft sq \/ 24 = bottomRight sq \/
    24 = topLeft sq \/ 24 = topRight sq.
Proof.
  apply (GetSquareIndices_covers_buffer 24 5); unfold Int32.max_signed; lia.
Defined.

(* ================================================================= *)
(** ** More on the chunk worker *)

Lemma fold_left_map_arg {A B C : Type} (f : A -> C -> A) (g : B -> C)
      (l : list B) (a : A) :
  fold_left f (map g l) a = fold_left (fun a b => f a (g b)) l a.
Proof.
  revert a. induction l as [| b l IH]; intros a; cbn; [reflexivity | apply IH].
Qed.

Lemma fold_left_same {A B : Type} (f g : A -> B -> A) (l : list B) (a : A) :
  (forall a b, f a b = g a b) -> fold_left f l a = fold_left g l a.
Proof.
  intros H. revert a. induction l as [| b l IH]; intros a; cbn.
  - reflexivity.
  - rewrite H. apply IH.
Qed.

Lemma seq_from (a n : nat) : seq a n = map (fun i => (a + i)%nat) (seq 0 n).
Proof.
  revert a. induction n as [| n IH]; intros a; cbn [seq map].
  - reflexivity.
  - rewrite Nat.add_0_r. f_equal. rewrite (IH (S a)), (IH 1%nat), map_map.
    apply map_ext. intros i. lia.
Qed.

Section WorkerLoops.

Variable noise : Z -> Z -> Z -> Q -> Q -> Z -> Q.
Variable StopRequested : Z -> bool.

(** The inner loop is the body applied to the columns [x, x+1, ...] in
    turn. *)
Lemma RunInner_fold (y bound : Z) (m : nat) :
  forall (fuel : nat) (x : Z) (st : FChunkThread * RunLocals),
    (m <= fuel)%nat ->
    bound = x + Z.of_nat m ->
    Int32.in_range (100 * x) -> Int32.in_range (100 * bound) ->
    RunInner noise StopRequested fuel bound x (100 * x) y (100 * y) st =
    fold_left (fun st i => RunBody noise StopRequested
                                   (x + Z.of_nat i) (100 * (x + Z.of_nat i))
                                   y (100 * y) st)
              (seq 0 m) st.
Proof.
  induction m as [| m IH]; intros fuel x st Hfuel Hb Hlo Hhi.
  - assert ((x <? bound) = false) as Hc by (apply Z.ltb_ge; lia).
    destruct fuel; cbn [RunInner seq fold_left]; rewrite ?Hc; reflexivity.
  - destruct fuel as [| fuel]; [lia |]. cbn [RunInner].
    assert ((x <? bound) = true) as Hc by (apply Z.ltb_lt; lia).
    rewrite Hc.
    assert (Int32.add x 1 = x + 1) as -> by (int32_small; ring).
    assert (Int32.add (100 * x) 100 = 100 * (x + 1)) as ->
      by (int32_small; ring).
    rewrite IH; [| lia | lia | int32_range | assumption].
    change (seq 0 (S m)) with (0%nat :: seq 1 m).
    rewrite <- seq_shift. cbn [fold_left]. rewrite fold_left_map_arg.
    replace (x + Z.of_nat 0) with x by (cbn; lia).
    apply fold_left_same. intros st' i.
    replace (x + 1 + Z.of_nat i) with (x + Z.of_nat (S i)) by lia.
    reflexivity.
Qed.

(** The outer loop is the inner loop applied to the rows [y, y+1, ...] in
    turn. *)
Lemma RunOuter_fold (_x _y _size : Z) (m : nat) :
  forall (fuel : nat) (y : Z) (st : FChunkThread * RunLocals),
    (m <= fuel)%nat ->
    0 <= _size ->
    _y + _size = y + Z.of_nat m ->
    Int32.in_range (100 * _x) -> Int32.in_range (100 * (_x + _size)) ->
    Int32.in_range (100 * y) -> Int32.in_range (100 * (_y + _size)) ->
    Int32.in_range _y ->
    RunOuter noise StopRequested fuel _x _y _size y (100 * y) st =
    fold_left
      (fun st j =>
         fold_left (fun st i => RunBody noise StopRequested
                                        (_x + Z.of_nat i) (100 * (_x + Z.of_nat i))
                                        (y + Z.of_nat j) (100 * (y + Z.of_nat j))
                                        st)
                   (seq 0 (Z.to_nat _size)) st)
      (seq 0 m) st.
Proof.
  induction m as [| m IH];
    intros fuel y st Hfuel Hs Hb Hxlo Hxhi Hylo Hyhi Hy0;
    assert (Int32.add _y _size = _y + _size) as Hbound by (int32_small; ring).
  - assert ((y <? _y + _size) = false) as Hc by (apply Z.ltb_ge; lia).
    destruct fuel; cbn [RunOuter seq fold_left]; rewrite ?Hbound, ?Hc;
      reflexivity.
  - destruct fuel as [| fuel]; [lia |]. cbn [RunOuter]. rewrite Hbound.
    assert ((y <? _y + _size) = true) as Hc by (apply Z.ltb_lt; lia).
    rewrite Hc.
    assert (Int32.add _x _size = _x + _size) as -> by (int32_small; ring).
    assert (Int32.mul _x 100 = 100 * _x) as -> by (int32_small; ring).
    rewrite (RunInner_fold y (_x + _size) (Z.to_nat _size))
      by (try assumption; lia).
    assert (Int32.add y 1 = y + 1) as -> by (int32_small; ring).
    assert (Int32.add (100 * y) 100 = 100 * (y + 1)) as ->
      by (int32_small; ring).
    rewrite IH; try assumption; try lia; [| int32_range].
    change (seq 0 (S m)) with (0%nat :: seq 1 m).
    rewrite <- seq_shift. cbn [fold_left]. rewrite fold_left_map_arg.
    replace (y + Z.of_nat 0) with y by (cbn; lia).
    apply fold_left_same. intros st' j.
    replace (y + 1 + Z.of_nat j) with (y + Z.of_nat (S j)) by lia.
    reflexivity.
Qed.

End WorkerLoops.

Lemma sleeps_app (tr1 tr2 : list WorkerEvent) :
  sleeps (tr1 ++ tr2) = (sleeps tr1 + sleeps tr2)%nat.
Proof. unfold sleeps. rewrite filter_app, length_app. reflexivity. Qed.

Section WorkerCounters.

Variable noise : Z -> Z -> Z -> Q -> Q -> Z -> Q.
Variable StopRequested : Z -> bool.

Lemma Counters_refl (st : FChunkThread * RunLocals) :
  Counters StopRequested st st 0.
Proof.
  unfold Counters. cbn [seq map existsb Z.of_nat].
  rewrite Z.add_0_r, orb_false_r. repeat split; lia.
Qed.

Lemma Counters_trans (st1 st2 st3 : FChunkThread * RunLocals) (k k' : nat) :
  Counters StopRequested st1 st2 k -> Counters StopRequested st2 st3 k' ->
  Counters StopRequested st1 st3 (k + k').
Proof.
  unfold Counters. intros (Hp & Hb & Hs) (Hp' & Hb' & Hs').
  rewrite Hp in *. rewrite Nat2Z.inj_add, Z.add_assoc.
  split; [exact Hp' |]. split; [| lia].
  rewrite Hb', Hb, seq_app, map_app, existsb_app, orb_assoc. do 2 f_equal.
  cbn [Nat.add]. rewrite (seq_from k k'), map_map.
  apply map_ext. intros i. lia.
Qed.

(** One pass through the body. *)
Lemma Counters_body (x x_scaled y y_scaled : Z)
      (st : FChunkThread * RunLocals) :
  0 <= processedVertices (snd st) < Int32.max_signed ->
  Counters StopRequested st
           (RunBody noise StopRequested x x_scaled y y_scaled st) 1.
Proof.
  destruct st as [t l]. cbn [snd fst]. intros Hp.
  unfold Counters, RunBody. cbn [snd fst seq map existsb Z.of_nat].
  set (p := processedVertices l) in *.
  assert (Int32.add p 1 = p + 1) as -> by (int32_small; ring).
  rewrite Z.add_0_r, orb_false_r.
  assert (Z.rem (p + 1) BatchSize = (p + 1) mod BatchSize) as ->
    by (apply Z.rem_mod_nonneg; unfold BatchSize; lia).
  change (Z.pos (Pos.of_succ_nat 0)) with 1.
  assert (((p + 1) mod BatchSize =? 0) = true /\
          (p + 1) / BatchSize - p / BatchSize = 1 \/
          ((p + 1) mod BatchSize =? 0) = false /\
          (p + 1) / BatchSize - p / BatchSize = 0) as Hbatch.
  { unfold BatchSize. destruct ((p + 1) mod 30 =? 0) eqn:E;
      [left; apply Z.eqb_eq in E | right; apply Z.eqb_neq in E];
      (split; [reflexivity |]); Z.div_mod_to_equations; lia. }
  destruct Hbatch as [[-> ->] | [-> ->]];
    destruct (StopRequested p); cbn; unfold sleeps;
    rewrite ?filter_app, ?length_app, ?orb_true_r, ?orb_false_r; cbn;
    repeat split; lia.
Qed.

(** Any run of passes through the body, whatever the grid points. *)
Lemma Counters_passes {A : Type} (fx fxs fy fys : A -> Z) (l : list A) :
  forall st : FChunkThread * RunLocals,
    0 <= processedVertices (snd st) ->
    processedVertices (snd st) + Z.of_nat (length l) <= Int32.max_signed ->
    Counters StopRequested st
             (fold_left (fun st a => RunBody noise StopRequested
                                             (fx a) (fxs a) (fy a) (fys a) st)
                        l st)
             (length l).
Proof.
  induction l as [| a l IH]; intros st H0 Hmax; cbn [fold_left length].
  - apply Counters_refl.
  - cbn [length] in Hmax.
    assert (Counters StopRequested st
              (RunBody noise StopRequested (fx a) (fxs a) (fy a) (fys a) st) 1)
      as H1 by (apply Counters_body; lia).
    apply (Counters_trans _ _ _ 1 (length l) H1).
    destruct H1 as (Hp & _). apply IH; rewrite Hp; lia.
Qed.

(** Rows of [s] passes each. *)
Lemma Counters_rows {A B : Type} (fx fxs : A -> B -> Z) (fy fys : A -> Z)
      (cols : list B) (rows : list A) :
  forall st : FChunkThread * RunLocals,
    0 <= processedVertices (snd st) ->
    processedVertices (snd st) + Z.of_nat (length rows * length cols)
      <= Int32.max_signed ->
    Counters StopRequested st
             (fold_left
                (fun st j =>
                   fold_left (fun st i => RunBody noise StopRequested
                                                  (fx j i) (fxs j i) (fy j) (fys j)
                                                  st)
                             cols st)
                rows st)
             (length rows * length cols).
Proof.
  induction rows as [| j rows IH]; intros st H0 Hmax; cbn [fold_left length].
  - apply Counters_refl.
  - cbn [length Nat.mul] in Hmax. rewrite Nat2Z.inj_add in Hmax.
    cbn [Nat.mul].
    assert (Counters StopRequested st
              (fold_left (fun st i => RunBody noise StopRequested
                                              (fx j i) (fxs j i) (fy j) (fys j) st)
                         cols st)
              (length cols)) as H1
      by (apply (Counters_passes (fx j) (fxs j) (fun _ => fy j) (fun _ => fys j));
          lia).
    apply (Counters_trans _ _ _ _ _ H1).
    destruct H1 as (Hp & _). apply IH; rewrite Hp; lia.
Qed.

(** The counters after the two loops of [Run]. *)
Lemma RunLoops_counters (t : FChunkThread) :
  FootprintFits (Chunk t) ->
  Size (Chunk t) * Size (Chunk t) <= Int32.max_signed ->
  Counters StopRequested
           (t, {| TempVertices := []; processedVertices := 0 |})
           (RunLoops noise StopRequested t)
           (Z.to_nat (Size (Chunk t)) * Z.to_nat (Size (Chunk t))).
Proof.
  intros Hfit Hsq. destruct (FootprintFits_origin _ Hfit) as [Hx Hy].
  destruct Hfit as (Hs & Hxlo & Hxhi & Hylo & Hyhi).
  unfold RunLoops. rewrite !wrap32_small by assumption.
  set (x0 := X (Coords (Chunk t))) in *.
  set (y0 := Y (Coords (Chunk t))) in *.
  set (sz := Size (Chunk t)) in *.
  assert (Int32.mul y0 100 = 100 * y0) as -> by (int32_small; ring).
  rewrite (RunOuter_fold noise StopRequested x0 y0 sz (Z.to_nat sz))
    by (try assumption; lia).
  pose proof (Counters_rows
                (fun (j i : nat) => x0 + Z.of_nat i)
                (fun (j i : nat) => 100 * (x0 + Z.of_nat i))
                (fun j : nat => y0 + Z.of_nat j)
                (fun j : nat => 100 * (y0 + Z.of_nat j))
                (seq 0 (Z.to_nat sz)) (seq 0 (Z.to_nat sz))
                (t, {| TempVertices := []; processedVertices := 0 |})) as H.
  rewrite !length_seq in H. apply H; cbn [snd processedVertices]; [lia |].
  rewrite Nat2Z.inj_mul, Z2Nat.id by lia. lia.
Qed.

End WorkerCounters.

Lemma Run_fields (noise : Z -> Z -> Z -> Q -> Q -> Z -> Q)
      (StopRequested : Z -> bool) (t : FChunkThread) :
  let r := RunLoops noise StopRequested t in
  let t' := fst (Run noise StopRequested t) in
  bShutdown t' = bShutdown (fst r) /\
  WorkerTrace t' = WorkerTrace (fst r) /\
  VertexArray (Chunk t') = VertexArray (Chunk (fst r)) ++ TempVertices (snd r).
Proof.
  unfold Run. destruct (RunLoops noise StopRequested t) as [t1 l]. cbn. auto.
Qed.

(** X4: over its whole life a worker sleeps once per completed batch of 30
    samples, that is [Size^2 / 30] times, rounded down. *)
Theorem RunThread_sleeps_once_per_batch
        (noise : Z -> Z -> Z -> Q -> Q -> Z -> Q) (StopRequested : Z -> bool)
        (t : FChunkThread) :
  FootprintFits (Chunk t) ->
  Size (Chunk t) * Size (Chunk t) <= Int32.max_signed ->
  Z.of_nat (sleeps (WorkerTrace (RunThread noise StopRequested t))) =
  Z.of_nat (sleeps (WorkerTrace t)) + Size (Chunk t) * Size (Chunk t) / BatchSize.
Proof.
  intros Hfit Hsq.
  destruct (RunLoops_counters noise StopRequested t Hfit Hsq) as (_ & _ & Hs).
  destruct (Run_fields noise StopRequested t) as (_ & Htr & _).
  unfold RunThread, Init, Exit. cbn [emit WorkerTrace].
  rewrite sleeps_app, Htr. cbn [fst snd processedVertices] in Hs.
  rewrite Nat2Z.inj_add, Hs. cbn [sleeps filter length Z.of_nat].
  rewrite Nat2Z.inj_mul, Z2Nat.id by (destruct Hfit; lia).
  rewrite Z.add_0_l. unfold BatchSize. cbn [Z.div]. change (0 / 30) with 0. lia.
Qed.

Lemma RunThread_sleeps_once_per_batch_witness :
  Z.of_nat (sleeps (WorkerTrace (RunThread Sample.noise Sample.never
                                           (Sample.worker 31 0 32)))) = 34.
Proof.
  rewrite (RunThread_sleeps_once_per_batch Sample.noise Sample.never
             (Sample.worker 31 0 32)).
  - reflexivity.
  - unfold FootprintFits, Int32.in_range, Int32.min_signed, Int32.max_signed.
    cbn. lia.
  - unfold Int32.max_signed. cbn. lia.
Defined.

(** X5: the worker never clears [bShutdown]: when it has finished, the flag
    is set exactly if it was set before or [Stop] was called before one of
    the [Size^2] samples. *)
Theorem RunThread_keeps_bShutdown
        (noise : Z -> Z -> Z -> Q -> Q -> Z -> Q) (StopRequested : Z -> bool)
        (t : FChunkThread) :
  FootprintFits (Chunk t) ->
  Size (Chunk t) * Size (Chunk t) <= Int32.max_signed ->
  bShutdown (RunThread noise StopRequested t) =
  bShutdown t ||
  existsb StopRequested
          (map Z.of_nat (seq 0 (Z.to_nat (Size (Chunk t) * Size (Chunk t))))).
Proof.
  intros Hfit Hsq.
  destruct (RunLoops_counters noise StopRequested t Hfit Hsq) as (_ & Hb & _).
  destruct (Run_fields noise StopRequested t) as (Hsh & _ & _).
  unfold RunThread, Init, Exit. cbn [emit bShutdown].
  rewrite Hsh, Hb. cbn [fst snd processedVertices bShutdown].
  rewrite Z2Nat.inj_mul by (destruct Hfit; lia). do 2 f_equal.
Qed.

Lemma RunThread_keeps_bShutdown_witness :
  bShutdown (RunThread Sample.noise (fun k => k =? 24) (Sample.worker 0 0 5))
  = true /\
  bShutdown (RunThread Sample.noise (fun k => k =? 25) (Sample.worker 0 0 5))
  = false.
Proof.
  split;
    (rewrite RunThread_keeps_bShutdown;
     [ vm_compute; reflexivity
     | unfold FootprintFits, Int32.in_range, Int32.min_signed,
         Int32.max_signed; cbn; lia
     | unfold Int32.max_signed; cbn; lia ]).
Defined.

(** X6: two chunks computed with the same parameters carry the same vertex
    at every grid point they have in common, so chunks that overlap in a
    row or column of grid points meet without a seam. *)
Theorem Run_agrees_on_shared_grid_points
        (noise : Z -> Z -> Z -> Q -> Q -> Z -> Q) (stopA stopB : Z -> bool)
        (tA tB : FChunkThread) (i j i' j' : nat) :
  FootprintFits (Chunk tA) -> FootprintFits (Chunk tB) ->
  Parameters tA = Parameters tB ->
  let sA := Z.to_nat (Size (Chunk tA)) in
  let sB := Z.to_nat (Size (Chunk tB)) in
  (i < sA)%nat -> (j < sA)%nat -> (i' < sB)%nat -> (j' < sB)%nat ->
  X (Coords (Chunk tA)) + Z.of_nat i = X (Coords (Chunk tB)) + Z.of_nat i' ->
  Y (Coords (Chunk tA)) + Z.of_nat j = Y (Coords (Chunk tB)) + Z.of_nat j' ->
  exists v : FVertices,
    nth_error (VertexArray (Chunk (fst (Run noise stopA tA))))
              (length (VertexArray (Chunk tA)) + (j * sA + i)) = Some v /\
    nth_error (VertexArray (Chunk (fst (Run noise stopB tB))))
              (length (VertexArray (Chunk tB)) + (j' * sB + i')) = Some v.
Proof.
  intros HfA HfB HP sA sB Hi Hj Hi' Hj' Ex Ey.
  destruct (Run_spec noise stopA tA HfA) as (HvA & _).
  destruct (Run_spec noise stopB tB HfB) as (HvB & _).
  exists (SampleAt noise (Parameters tA)
                   (X (Coords (Chunk tA)) + Z.of_nat i)
                   (Y (Coords (Chunk tA)) + Z.of_nat j)).
  rewrite HvA, HvB.
  rewrite !nth_error_app2 by lia.
  replace (length (VertexArray (Chunk tA)) + (j * sA + i)
           - length (VertexArray (Chunk tA)))%nat
    with (j * sA + i)%nat by lia.
  replace (length (VertexArray (Chunk tB)) + (j' * sB + i')
           - length (VertexArray (Chunk tB)))%nat
    with (j' * sB + i')%nat by lia.
  rewrite !HeightField_nth_error by assumption.
  rewrite HP, Ex, Ey. split; reflexivity.
Qed.

Lemma Run_agrees_on_shared_grid_points_witness :
  exists v : FVertices,
    nth_error (VertexArray (Chunk (fst (Run Sample.noise Sample.never
                                            (Sample.worker 0 0 5)))))
              (0 + (2 * 5 + 4)) = Some v /\
    nth_error (VertexArray (Chunk (fst (Run Sample.noise Sample.always
                                            (Sample.worker 4 0 5)))))
              (0 + (2 * 5 + 0)) = Some v.
Proof.
  apply (Run_agrees_on_shared_grid_points
           Sample.noise Sample.never Sample.always
           (Sample.worker 0 0 5) (Sample.worker 4 0 5) 4 2 0 2);
    try reflexivity; try (cbn; lia);
    unfold FootprintFits, Int32.in_range, Int32.min_signed, Int32.max_signed;
    cbn; lia.
Defined.

(** X7: for a chunk whose size is 0 or negative the loop guard fails at
    once, with any amount of fuel; the worker appends nothing, never sleeps,
    and still broadcasts its one completion notification. *)
Theorem RunThread_empty_chunk
        (noise : Z -> Z -> Z -> Q -> Q -> Z -> Q) (StopRequested : Z -> bool)
        (t : FChunkThread) :
  Size (Chunk t) <= 0 ->
  Int32.in_range (Y (Coords (Chunk t))) ->
  Int32.in_range (Y (Coords (Chunk t)) + Size (Chunk t)) ->
  (forall (fuel : nat) (_x ys : Z) (st : FChunkThread * RunLocals),
      RunOuter noise StopRequested fuel _x (Y (Coords (Chunk t)))
               (Size (Chunk t)) (Y (Coords (Chunk t))) ys st = st) /\
  Chunk (RunThread noise StopRequested t) = Chunk t /\
  WorkerTrace (RunThread noise StopRequested t) =
    WorkerTrace t ++ [OnCalcOver (Id (Chunk t)) (Chunk t)].
Proof.
  intros Hs Hy Hys.
  assert (forall (fuel : nat) (_x ys : Z) (st : FChunkThread * RunLocals),
             RunOuter noise StopRequested fuel _x (Y (Coords (Chunk t)))
                      (Size (Chunk t)) (Y (Coords (Chunk t))) ys st = st)
    as Hguard.
  { intros fuel _x ys st. destruct fuel; cbn [RunOuter]; [reflexivity |].
    assert (Int32.add (Y (Coords (Chunk t))) (Size (Chunk t)) =
            Y (Coords (Chunk t)) + Size (Chunk t)) as ->
      by (int32_small; ring).
    assert ((Y (Coords (Chunk t)) <?
             Y (Coords (Chunk t)) + Size (Chunk t)) = false) as ->
      by (apply Z.ltb_ge; lia).
    reflexivity. }
  split; [exact Hguard |].
  unfold RunThread, Init, Run, RunLoops.
  rewrite (wrap32_small (Y (Coords (Chunk t)))) by assumption.
  rewrite Hguard. cbn. rewrite app_nil_r.
  destruct t as [[id sz co va] P b1 b2 tr]. cbn. split; reflexivity.
Qed.

Lemma RunThread_empty_chunk_witness :
  Chunk (RunThread Sample.noise Sample.never (Sample.worker 31 62 (-3))) =
  Chunk (Sample.worker 31 62 (-3)).
Proof.
  apply (RunThread_empty_chunk Sample.noise Sample.never
                               (Sample.worker 31 62 (-3)));
    unfold Int32.in_range, Int32.min_signed, Int32.max_signed; cbn; lia.
Defined.

(* ================================================================= *)
(** ** More on the stream manager *)

Lemma manager_eta (s : UChunkManagerWorldSubsystem) :
  s = set_Trace (set_TerrainGenerator s (TerrainGenerator s)) (Trace s).
Proof. destruct s. reflexivity. Qed.

Lemma RegistryCallsOnly_refl (s : UChunkManagerWorldSubsystem) :
  RegistryCallsOnly s s.
Proof.
  exists []. rewrite app_nil_r. split; [apply manager_eta | split; reflexivity].
Qed.

Lemma RegistryCallsOnly_trans (s1 s2 s3 : UChunkManagerWorldSubsystem) :
  RegistryCallsOnly s1 s2 -> RegistryCallsOnly s2 s3 ->
  RegistryCallsOnly s1 s3.
Proof.
  intros (c1 & E1 & P1 & S1) (c2 & E2 & P2 & S2). exists (c1 ++ c2).
  rewrite progress_reports_app, stress_reports_app, P1, P2, S1, S2.
  split; [| split; reflexivity].
  rewrite E2 at 1. rewrite E1 at 1 2. destruct s1. cbn.
  rewrite app_assoc. reflexivity.
Qed.

Lemma RequestChunkGeneration_calls_only (s : UChunkManagerWorldSubsystem)
      (x y size : Z) :
  RegistryCallsOnly s (RequestChunkGeneration s x y size).
Proof.
  unfold RequestChunkGeneration. destruct (TerrainGenerator s) eqn:Hg.
  - exists [CallGenerateChunk x y size]. destruct s. cbn. auto.
  - apply RegistryCallsOnly_refl.
Qed.

Lemma RequestChunkDestruction_calls_only (s : UChunkManagerWorldSubsystem)
      (ChunkId : Z) :
  RegistryCallsOnly s (RequestChunkDestruction s ChunkId).
Proof.
  unfold RequestChunkDestruction. destruct (TerrainGenerator s) eqn:Hg.
  - exists [CallDestroyChunk ChunkId]. destruct s. cbn. auto.
  - apply RegistryCallsOnly_refl.
Qed.

Lemma fold_calls_only {A : Type}
      (step : UChunkManagerWorldSubsystem -> A -> UChunkManagerWorldSubsystem)
      (l : list A) :
  (forall s a, RegistryCallsOnly s (step s a)) ->
  forall s, RegistryCallsOnly s (fold_left step l s).
Proof.
  intros Hstep. induction l as [| a l IH]; intros s; cbn [fold_left].
  - apply RegistryCallsOnly_refl.
  - eapply RegistryCallsOnly_trans; [apply Hstep | apply IH].
Qed.

Lemma StressTest_calls_only (s : UChunkManagerWorldSubsystem) (now : Q)
      (NumChunks : Z) :
  RegistryCallsOnly
    (set_StressTestStartTime
       (set_bStressTestInProgress (set_PendingChunks s NumChunks) true) now)
    (StressTest s now NumChunks).
Proof.
  unfold StressTest. apply fold_calls_only. intros s' i.
  apply RequestChunkGeneration_calls_only.
Qed.

Lemma InitialChunkGeneration_calls_only (s : UChunkManagerWorldSubsystem)
      (InRenderDistance : Z) :
  RegistryCallsOnly
    (set_InitialChunksRemaining
       s (ChunkData.GetInitialChunkCount InRenderDistance))
    (InitialChunkGeneration s InRenderDistance).
Proof.
  unfold InitialChunkGeneration.
  eapply RegistryCallsOnly_trans;
    [apply RequestChunkGeneration_calls_only |].
  apply fold_calls_only. intros s1 y. apply fold_calls_only. intros s2 x.
  destruct ((x =? 0) && (y =? 0));
    [apply RegistryCallsOnly_refl | apply RequestChunkGeneration_calls_only].
Qed.

Lemma fold_left_fixed {A S : Type} (step : S -> A -> S) (l : list A) (s : S) :
  (forall a, step s a = s) -> fold_left step l s = s.
Proof.
  intros H. induction l as [| a l IH]; cbn [fold_left].
  - reflexivity.
  - rewrite H. exact IH.
Qed.

Lemma display_requests_app (tr1 tr2 : list ManagerEvent) :
  display_requests (tr1 ++ tr2) = display_requests tr1 ++ display_requests tr2.
Proof. unfold display_requests. apply flat_map_app. Qed.

(** X8: while [TerrainGenerator] is null no entry point of the manager
    reaches a registry: the two request functions do nothing at all,
    [StressTest] and [InitialChunkGeneration] only set their counters, and
    a completion notification displays nothing. *)
Theorem Null_generator_forwards_nothing (s : UChunkManagerWorldSubsystem) :
  TerrainGenerator s = None ->
  (forall x y size, RequestChunkGeneration s x y size = s) /\
  (forall ChunkId, RequestChunkDestruction s ChunkId = s) /\
  (forall now NumChunks,
      StressTest s now NumChunks =
      set_StressTestStartTime
        (set_bStressTestInProgress (set_PendingChunks s NumChunks) true) now) /\
  (forall InRenderDistance,
      InitialChunkGeneration s InRenderDistance =
      set_InitialChunksRemaining
        s (ChunkData.GetInitialChunkCount InRenderDistance)) /\
  (forall now ChunkId,
      display_requests (Trace (OnChunkGenerated s now ChunkId)) =
      display_requests (Trace s)).
Proof.
  intros Hg.
  assert (forall s' : UChunkManagerWorldSubsystem,
             TerrainGenerator s' = None ->
             forall x y size, RequestChunkGeneration s' x y size = s') as Hreq
    by (intros s' Hs' x y size; unfold RequestChunkGeneration;
        rewrite Hs'; reflexivity).
  split; [apply Hreq; exact Hg |]. split; [| split; [| split]].
  - intros ChunkId. unfold RequestChunkDestruction. rewrite Hg. reflexivity.
  - intros now NumChunks. unfold StressTest. apply fold_left_fixed.
    intros i. apply Hreq. exact Hg.
  - intros R. unfold InitialChunkGeneration.
    rewrite (Hreq (set_InitialChunksRemaining s _)) by exact Hg.
    apply fold_left_fixed. intros y. apply fold_left_fixed. intros x.
    destruct ((x =? 0) && (y =? 0)); [reflexivity | apply Hreq; exact Hg].
  - intros now ChunkId. unfold OnChunkGenerated.
    destruct s as [tg cs R P cq dq T I b1 n1 b2 n2 t0 tr]. cbn in *. subst tg.
    destruct b1; cbn;
      try destruct (Int32.sub n1 1 <=? 0); cbn;
      destruct b2; cbn;
      try destruct (Int32.sub n2 1 <=? 0); cbn;
      rewrite ?display_requests_app; cbn; rewrite ?app_nil_r; reflexivity.
Qed.

Lemma Null_generator_forwards_nothing_witness :
  Trace (InitialChunkGeneration Edge.no_generator 2) = [] /\
  InitialChunksRemaining (InitialChunkGeneration Edge.no_generator 2) = 25 /\
  Trace (StressTest Edge.no_generator 5%Q 3) = [].
Proof.
  destruct (Null_generator_forwards_nothing Edge.no_generator eq_refl)
    as (_ & _ & Hstress & Hinit & _).
  rewrite Hinit, Hstress. repeat split; reflexivity.
Defined.

(** The drain leaves the configuration, the observer and the bookkeeping of
    bootstrap and stress test alone, and keeps a registry once there is
    one. *)
Lemma ProcessQueuedOperations_frame (s : UChunkManagerWorldSubsystem) (dt : Q) :
  let s' := ProcessQueuedOperations s dt in
  ChunkSize s' = ChunkSize s /\ RenderDistance s' = RenderDistance s /\
  ChunkOperationInterval s' = ChunkOperationInterval s /\
  bInitialChunksGenerated s' = bInitialChunksGenerated s /\
  InitialChunksRemaining s' = InitialChunksRemaining s /\
  bStressTestInProgress s' = bStressTestInProgress s /\
  PendingChunks s' = PendingChunks s /\
  StressTestStartTime s' = StressTestStartTime s /\
  (TerrainGenerator s = None -> TerrainGenerator s' = None) /\
  (TerrainGenerator s <> None -> TerrainGenerator s' <> None) /\
  TimeSinceLastChunkOperation s' =
    (if DrainDue s dt then 0%Q else (TimeSinceLastChunkOperation s + dt)%Q).
Proof.
  destruct (DrainDue s dt) eqn:Hdue.
  - rewrite (ProcessQueuedOperations_due s dt Hdue).
    unfold RequestChunkGeneration, RequestChunkDestruction.
    destruct s as [[g |] cs R P cq dq T I b1 n1 b2 n2 t0 tr];
      destruct cq as [| c cq]; destruct dq as [| d dq]; cbn;
      repeat split; congruence.
  - rewrite (ProcessQueuedOperations_not_due s dt Hdue). cbn.
    repeat split; congruence.
Qed.

Lemma int_range_nil (lo hi : Z) : int_range lo hi = [] <-> hi < lo.
Proof.
  unfold int_range. split.
  - intros H. apply (f_equal (@length Z)) in H.
    rewrite length_map, length_seq in H. cbn in H. lia.
  - intros H. replace (Z.to_nat (hi + 1 - lo)) with 0%nat by lia. reflexivity.
Qed.

Lemma grid_nil (xs ys : list Z) : grid xs ys = [] <-> xs = [] \/ ys = [].
Proof.
  split.
  - destruct xs as [| x xs]; [auto |]. destruct ys as [| y ys]; [auto |].
    discriminate.
  - intros [-> | ->]; [| reflexivity].
    induction ys as [| y ys IH]; [reflexivity | exact IH].
Qed.

(** With a null registry the scan comes through exactly when its loops
    visit no coordinate. *)
Lemma NullScanReturns_spec (s : UChunkManagerWorldSubsystem) :
  NullScanReturns s = true <->
  grid (int_range (Int32.wrap (X (PlayerPos s) - RenderDistance s))
                  (X (PlayerPos s) + RenderDistance s))
       (int_range (Int32.wrap (Y (PlayerPos s) - RenderDistance s))
                  (Y (PlayerPos s) + RenderDistance s)) = [].
Proof.
  unfold NullScanReturns.
  rewrite (fold_nested (fun (ok : bool) (x y : Z) => false)).
  destruct (grid _ _) as [| c l]; cbn [fold_left].
  - split; reflexivity.
  - rewrite fold_left_fixed by reflexivity. split; discriminate.
Qed.

(** Where the bounds of the window are [int]s, the loops visit no coordinate
    exactly when the render distance is negative. *)
Lemma NullScanReturns_negative (s : UChunkManagerWorldSubsystem) :
  Int32.in_range (X (PlayerPos s) - RenderDistance s) ->
  Int32.in_range (Y (PlayerPos s) - RenderDistance s) ->
  NullScanReturns s = (RenderDistance s <? 0).
Proof.
  intros Hx Hy. apply eq_true_iff_eq.
  rewrite NullScanReturns_spec, grid_nil, !int_range_nil, Z.ltb_lt,
    !wrap32_small by assumption.
  lia.
Qed.

(** X9: with chunks that have an edge and a window whose bounds are [int]s,
    [Tick] breaks off in exactly one situation: in the steady phase, with a
    pawn that has moved to another chunk and a render distance that is not
    negative, while [TerrainGenerator] is null; the first pass of the scan
    then calls [HasChunk] through the null pointer, the test
    [if (TerrainGenerator)] coming only after the loops.  With a negative
    render distance the loops make no pass and the tick runs to its end.  In
    every case in which the tick ends, a registry that was there is still
    there. *)
Theorem Tick_fails_only_on_null_generator
        (s : UChunkManagerWorldSubsystem) (DeltaTime : Q)
        (Pawn : option FVector) :
  2 <= ChunkSize s ->
  (forall location,
      Pawn = Some location ->
      let px := ObserverChunk (ChunkSize s) (vX location) in
      let py := ObserverChunk (ChunkSize s) (vY location) in
      Int32.in_range (px - RenderDistance s) /\
      Int32.in_range (px + RenderDistance s) /\
      Int32.in_range (py - RenderDistance s) /\
      Int32.in_range (py + RenderDistance s)) ->
  ((Tick s DeltaTime Pawn = None) <->
   (bInitialChunksGenerated s = true /\
    TerrainGenerator s = None /\
    0 <= RenderDistance s /\
    exists location,
      Pawn = Some location /\
      PlayerPos s <> {| X := ObserverChunk (ChunkSize s) (vX location);
                        Y := ObserverChunk (ChunkSize s) (vY location) |})) /\
  (forall s', Tick s DeltaTime Pawn = Some s' ->
              TerrainGenerator s <> None -> TerrainGenerator s' <> None).
Proof.
  intros Hcs Hfit. split.
  - unfold Tick. destruct (bInitialChunksGenerated s); cbn [negb].
    + unfold UpdateWindow. destruct Pawn as [location |].
      * destruct (Hfit location eq_refl) as (Hx & _ & Hy & _).
        set (pos := {| X := ObserverChunk (ChunkSize s) (vX location);
                       Y := ObserverChunk (ChunkSize s) (vY location) |}).
        destruct (coords_eqb (PlayerPos s) pos) eqn:Heq.
        -- split; [discriminate |]. intros (_ & _ & _ & l & E & Hne).
           injection E as El. subst l.
           apply coords_eqb_eq in Heq. destruct (Hne Heq).
        -- cbn [set_PlayerPos TerrainGenerator].
           destruct (TerrainGenerator s) as [g |].
           ++ split; [discriminate |]. intros (_ & E & _). discriminate.
           ++ rewrite NullScanReturns_negative by exact Hx || exact Hy.
              cbn [set_PlayerPos RenderDistance].
              destruct (RenderDistance s <? 0) eqn:HR.
              ** split; [discriminate |]. apply Z.ltb_lt in HR.
                 intros (_ & _ & H0 & _). lia.
              ** apply Z.ltb_ge in HR. split; [| reflexivity].
                 intros _. repeat split; [exact HR |].
                 exists location. split; [reflexivity |].
                 fold pos. intros E.
                 rewrite (proj2 (coords_eqb_eq _ _) E) in Heq. discriminate.
      * split; [discriminate |]. intros (_ & _ & _ & l & E & _). discriminate.
    + split; [discriminate |]. intros (E & _). discriminate.
  - unfold Tick. destruct (bInitialChunksGenerated s); cbn [negb].
    + destruct (UpdateWindow s Pawn) as [s1 |] eqn:Hscan; [| discriminate].
      intros s' [= <-] Hg.
      destruct (UpdateWindow_appends s s1 Pawn Hscan) as (pos & c & d & Hs1).
      apply ProcessQueuedOperations_frame. rewrite Hs1. exact Hg.
    + intros s' [= <-] Hg. exact Hg.
Qed.

Lemma Tick_fails_only_on_null_generator_witness :
  Tick Edge.lost_generator (1 # 5) (Some Sample.pawn_far) = None.
Proof.
  apply (proj1 (Tick_fails_only_on_null_generator
                  Edge.lost_generator (1 # 5) (Some Sample.pawn_far)
                  ltac:(vm_compute; discriminate)
                  ltac:(intros location [= <-]; vm_compute;
                        repeat split; discriminate))).
  split; [reflexivity |]. split; [reflexivity |].
  split; [vm_compute; discriminate |].
  exists Sample.pawn_far. split; [reflexivity |]. vm_compute. discriminate.
Defined.

(** X10: a tick never changes the chunk size, the render distance, the drain
    interval, nor the bookkeeping of bootstrap and stress test; in
    particular it never leaves the steady phase. *)
Theorem Tick_keeps_configuration_and_counters
        (s s' : UChunkManagerWorldSubsystem) (DeltaTime : Q)
        (Pawn : option FVector) :
  Tick s DeltaTime Pawn = Some s' ->
  ChunkSize s' = ChunkSize s /\ RenderDistance s' = RenderDistance s /\
  ChunkOperationInterval s' = ChunkOperationInterval s /\
  bInitialChunksGenerated s' = bInitialChunksGenerated s /\
  InitialChunksRemaining s' = InitialChunksRemaining s /\
  bStressTestInProgress s' = bStressTestInProgress s /\
  PendingChunks s' = PendingChunks s /\
  StressTestStartTime s' = StressTestStartTime s.
Proof.
  unfold Tick. destruct (bInitialChunksGenerated s) eqn:Hinit; cbn [negb].
  - destruct (UpdateWindow s Pawn) as [s1 |] eqn:Hscan; [| discriminate].
    intros [= <-].
    destruct (UpdateWindow_appends s s1 Pawn Hscan) as (pos & c & d & Hs1).
    destruct (ProcessQueuedOperations_frame s1 DeltaTime)
      as (H1 & H2 & H3 & H4 & H5 & H6 & H7 & H8 & _).
    rewrite H1, H2, H3, H4, H5, H6, H7, H8, Hs1. cbn.
    rewrite Hinit. repeat split; reflexivity.
  - intros [= <-]. rewrite Hinit. repeat split; reflexivity.
Qed.

Lemma Tick_keeps_configuration_and_counters_witness :
  let s' := Sample.after_tick Sample.queued (1 # 5) (Some Sample.pawn_far) in
  ChunkSize s' = 32 /\ RenderDistance s' = 1 /\
  bInitialChunksGenerated s' = true /\ InitialChunksRemaining s' = 0.
Proof.
  intros s'.
  destruct (Tick_keeps_configuration_and_counters
              Sample.queued s' (1 # 5) (Some Sample.pawn_far))
    as (H1 & H2 & _ & H4 & H5 & _); [vm_compute; reflexivity |].
  rewrite H1, H2, H4, H5. repeat split; reflexivity.
Defined.

(** X11: after a tick of the steady phase the drain timer is back at 0 when
    the drain was due, and otherwise holds the accumulated time, which is
    then below the interval; so with a positive interval the timer is below
    the interval after every such tick. *)
Theorem Tick_timer_stays_below_interval
        (s s' : UChunkManagerWorldSubsystem) (DeltaTime : Q)
        (Pawn : option FVector) :
  bInitialChunksGenerated s = true ->
  Tick s DeltaTime Pawn = Some s' ->
  TimeSinceLastChunkOperation s' =
    (if DrainDue s DeltaTime then 0%Q
     else (TimeSinceLastChunkOperation s + DeltaTime)%Q) /\
  ((0 < ChunkOperationInterval s)%Q ->
   (TimeSinceLastChunkOperation s' < ChunkOperationInterval s')%Q).
Proof.
  intros Hinit. unfold Tick. rewrite Hinit. cbn [negb].
  destruct (UpdateWindow s Pawn) as [s1 |] eqn:Hscan; [| discriminate].
  intros [= <-].
  destruct (UpdateWindow_appends s s1 Pawn Hscan) as (pos & c & d & Hs1).
  destruct (ProcessQueuedOperations_frame s1 DeltaTime)
    as (_ & _ & HI & _ & _ & _ & _ & _ & _ & _ & HT).
  assert (DrainDue s1 DeltaTime = DrainDue s DeltaTime /\
          TimeSinceLastChunkOperation s1 = TimeSinceLastChunkOperation s /\
          ChunkOperationInterval s1 = ChunkOperationInterval s)
    as (Edue & ET & EI) by (rewrite Hs1; unfold DrainDue; cbn; auto).
  rewrite Edue, ET in HT. rewrite HT, HI, EI. split; [reflexivity |].
  intros Hpos. destruct (DrainDue s DeltaTime) eqn:Hdue; [exact Hpos |].
  unfold DrainDue in Hdue. apply Qnot_le_lt. intros Hle.
  apply Qle_bool_iff in Hle. congruence.
Qed.

Lemma Tick_timer_stays_below_interval_witness :
  let s' := Sample.after_tick Sample.queued (1 # 20) (Some Sample.pawn_far) in
  (TimeSinceLastChunkOperation s' < 1 # 10)%Q.
Proof.
  intros s'.
  destruct (Tick_timer_stays_below_interval
              Sample.queued s' (1 # 20) (Some Sample.pawn_far))
    as (_ & H); [reflexivity | vm_compute; reflexivity |].
  apply H. reflexivity.
Defined.

(** X12: a tick of the steady phase on which the drain is not due sends
    nothing to the registry and takes nothing off the queues: the trace and
    the registry are unchanged and the old queue contents stay in front of
    whatever the scan has appended. *)
Theorem Tick_not_due_forwards_nothing
        (s s' : UChunkManagerWorldSubsystem) (DeltaTime : Q)
        (Pawn : option FVector) :
  DrainDue s DeltaTime = false ->
  Tick s DeltaTime Pawn = Some s' ->
  Trace s' = Trace s /\
  TerrainGenerator s' = TerrainGenerator s /\
  exists (created : list FCoords) (destroyed : list Z),
    ChunkGenerationQueue s' = ChunkGenerationQueue s ++ created /\
    ChunkDestructionQueue s' = ChunkDestructionQueue s ++ destroyed.
Proof.
  intros Hdue. unfold Tick.
  destruct (bInitialChunksGenerated s); cbn [negb].
  - destruct (UpdateWindow s Pawn) as [s1 |] eqn:Hscan; [| discriminate].
    intros [= <-].
    destruct (UpdateWindow_appends s s1 Pawn Hscan) as (pos & c & d & Hs1).
    assert (DrainDue s1 DeltaTime = false) as Hdue1
      by (rewrite Hs1; unfold DrainDue in *; cbn; exact Hdue).
    rewrite (ProcessQueuedOperations_not_due s1 DeltaTime Hdue1), Hs1. cbn.
    split; [reflexivity |]. split; [reflexivity |].
    exists c, d. split; reflexivity.
  - intros [= <-]. split; [reflexivity |]. split; [reflexivity |].
    exists [], []. rewrite !app_nil_r. split; reflexivity.
Qed.

Lemma Tick_not_due_forwards_nothing_witness :
  Trace Sample.queued = Trace Sample.steady /\
  TerrainGenerator Sample.queued = TerrainGenerator Sample.steady /\
  exists (created : list FCoords) (destroyed : list Z),
    ChunkGenerationQueue Sample.queued =
      ChunkGenerationQueue Sample.steady ++ created /\
    ChunkDestructionQueue Sample.queued =
      ChunkDestructionQueue Sample.steady ++ destroyed.
Proof.
  apply (Tick_not_due_forwards_nothing
           Sample.steady Sample.queued (1 # 100) (Some Sample.pawn_far));
    vm_compute; reflexivity.
Defined.

(** X13: without a player controller or pawn the tick of the steady phase
    skips the scan but still drains: the observer's coordinate stays, and
    when the drain is due each queue loses its head, which is forwarded; an
    empty queue forwards nothing. *)
Theorem Tick_without_pawn_still_drains
        (s : UChunkManagerWorldSubsystem) (g : UTerrainGeneratorWorldSubsystem)
        (DeltaTime : Q) :
  bInitialChunksGenerated s = true ->
  TerrainGenerator s = Some g ->
  exists s' : UChunkManagerWorldSubsystem,
    Tick s DeltaTime None = Some s' /\
    PlayerPos s' = PlayerPos s /\
    ChunkGenerationQueue s' =
      (if DrainDue s DeltaTime then tl (ChunkGenerationQueue s)
       else ChunkGenerationQueue s) /\
    ChunkDestructionQueue s' =
      (if DrainDue s DeltaTime then tl (ChunkDestructionQueue s)
       else ChunkDestructionQueue s) /\
    Trace s' =
      Trace s ++
      (if DrainDue s DeltaTime then
         match ChunkGenerationQueue s with
         | c :: _ =>
             [CallGenerateChunk
                (Int32.wrap (X c * Int32.sub (ChunkSize s) 1))
                (Int32.wrap (Y c * Int32.sub (ChunkSize s) 1))
                (ChunkSize s)]
         | [] => []
         end ++
         match ChunkDestructionQueue s with
         | d :: _ => [CallDestroyChunk d]
         | [] => []
         end
       else []).
Proof.
  intros Hinit Hg. exists (ProcessQueuedOperations s DeltaTime).
  destruct (ProcessQueuedOperations_queues s DeltaTime) as (HP & HG & HD).
  pose proof (ProcessQueuedOperations_trace s DeltaTime) as HT.
  rewrite Hg in HT.
  unfold Tick, UpdateWindow. rewrite Hinit. cbn [negb]. auto.
Qed.

Lemma Tick_without_pawn_still_drains_witness :
  exists s' : UChunkManagerWorldSubsystem,
    Tick Sample.queued (1 # 5) None = Some s' /\
    PlayerPos s' = {| X := 3; Y := 0 |} /\
    length (ChunkGenerationQueue s') = 8%nat /\
    length (ChunkDestructionQueue s') = 8%nat.
Proof.
  destruct (Tick_without_pawn_still_drains
              Sample.queued (Sample.registry Sample.queued) (1 # 5))
    as (s' & HT & HP & HG & HD & _); try reflexivity.
  exists s'. split; [exact HT |]. rewrite HP, HG, HD.
  repeat split; vm_compute; reflexivity.
Defined.

(* ================================================================= *)
(** ** More on the window scan *)

(** The scan of a tick on which the observer has changed chunk. *)
Lemma UpdateWindow_moved (s : UChunkManagerWorldSubsystem)
      (g : UTerrainGeneratorWorldSubsystem) (location : FVector) :
  TerrainGenerator s = Some g ->
  let pos := {| X := ObserverChunk (ChunkSize s) (vX location);
                Y := ObserverChunk (ChunkSize s) (vY location) |} in
  let R := RenderDistance s in
  PlayerPos s <> pos ->
  Int32.in_range (X pos - R) -> Int32.in_range (Y pos - R) ->
  UpdateWindow s (Some location) =
  Some (set_ChunkDestructionQueue
          (set_ChunkGenerationQueue
             (set_PlayerPos s pos)
             (ChunkGenerationQueue s ++
              filter (fun c => negb (HasChunk g (ChunkIdAt (ChunkSize s)
                                                           (X c) (Y c))))
                     (grid (int_range (X pos - R) (X pos + R))
                           (int_range (Y pos - R) (Y pos + R)))))
          (ChunkDestructionQueue s ++
           map fst (filter (fun e => IsFar (set_PlayerPos s pos) (snd e))
                           (ChunkMap g)))).
Proof.
  intros Hg pos R Hmoved Hx Hy. unfold UpdateWindow. fold pos.
  rewrite (coords_eqb_neq _ _ Hmoved).
  replace (TerrainGenerator (set_PlayerPos s pos)) with (Some g)
    by (symmetry; exact Hg).
  rewrite QueueNewChunks_spec, QueueFarChunks_spec.
  cbn [set_PlayerPos PlayerPos RenderDistance ChunkSize
       ChunkGenerationQueue ChunkDestructionQueue].
  fold R. rewrite (wrap32_small _ Hx), (wrap32_small _ Hy). reflexivity.
Qed.

Lemma filter_none_true {A : Type} (p : A -> bool) (l : list A) :
  (forall a, In a l -> p a = false) -> filter p l = [].
Proof.
  induction l as [| a l IH]; intros H; cbn; [reflexivity |].
  rewrite (H a) by (left; reflexivity). apply IH.
  intros b Hb. apply H. right. exact Hb.
Qed.

Lemma filter_split_length {A : Type} (p : A -> bool) (l : list A) :
  (length (filter p l) + length (filter (fun a => negb (p a)) l))%nat
  = length l.
Proof.
  induction l as [| a l IH]; cbn; [reflexivity |].
  destruct (p a); cbn; lia.
Qed.

(** X14: with chunks that have an edge and no [int] overflow, the scan
    divides the window between the queue and the registry.  The coordinates
    it enqueues are those of the window under whose id the registry holds no
    chunk; together with the coordinates of the window under whose id it
    holds one they are the [(2R+1)^2] coordinates of the window, each in
    one of the two lists and none in both or twice.  Over an empty registry
    the whole window is enqueued. *)
Theorem UpdateWindow_partitions_window
        (s : UChunkManagerWorldSubsystem) (g : UTerrainGeneratorWorldSubsystem)
        (location : FVector) :
  TerrainGenerator s = Some g ->
  let pos := {| X := ObserverChunk (ChunkSize s) (vX location);
                Y := ObserverChunk (ChunkSize s) (vY location) |} in
  let R := RenderDistance s in
  let n := ChunkSize s - 1 in
  PlayerPos s <> pos ->
  0 <= R ->
  2 <= ChunkSize s ->
  (Z.abs (X pos) + R + 1) * n <= 2 ^ 30 ->
  (Z.abs (Y pos) + R + 1) * n <= 2 ^ 30 ->
  exists (s1 : UChunkManagerWorldSubsystem) (created present : list FCoords),
    UpdateWindow s (Some location) = Some s1 /\
    ChunkGenerationQueue s1 = ChunkGenerationQueue s ++ created /\
    NoDup created /\
    NoDup present /\
    (forall c, In c created <->
               InWindow pos R c /\
               ~ exists chunk,
                   In (ChunkData.GetChunkIdFromCoordinates (X c * n) (Y c * n),
                       chunk) (ChunkMap g)) /\
    (forall c, In c present <->
               InWindow pos R c /\
               exists chunk,
                 In (ChunkData.GetChunkIdFromCoordinates (X c * n) (Y c * n),
                     chunk) (ChunkMap g)) /\
    (forall c, In c created -> ~ In c present) /\
    (forall c, InWindow pos R c -> In c created \/ In c present) /\
    Z.of_nat (length created) + Z.of_nat (length present) =
      (2 * R + 1) * (2 * R + 1) /\
    (ChunkMap g = [] ->
     present = [] /\
     Z.of_nat (length created) = (2 * R + 1) * (2 * R + 1)).
Proof.
  intros Hg pos R n Hmoved HR Hcs Hwx Hwy.
  assert (2 ^ 30 = 1073741824) as E30 by reflexivity.
  assert (1 <= n) as Hn by (subst n; lia).
  assert (Int32.in_range (X pos - R) /\ Int32.in_range (Y pos - R)) as [Hx Hy]
    by (split; int32_range).
  set (window := grid (int_range (X pos - R) (X pos + R))
                      (int_range (Y pos - R) (Y pos + R))).
  set (held := fun c : FCoords =>
                 HasChunk g (ChunkData.GetChunkIdFromCoordinates
                               (X c * n) (Y c * n))).
  assert (forall c, In c window <-> InWindow pos R c) as Hwin.
  { intros c. unfold window. rewrite grid_In, InWindow_ranges. reflexivity. }
  assert (NoDup window) as Hnd
    by (apply grid_NoDup; apply int_range_NoDup).
  assert (filter (fun c => negb (HasChunk g (ChunkIdAt (ChunkSize s)
                                                       (X c) (Y c))))
                 window =
          filter (fun c => negb (held c)) window) as Hsame.
  { apply filter_ext_in. intros c Hc. apply Hwin in Hc.
    destruct Hc as [Hcx Hcy]. unfold held.
    rewrite ChunkIdAt_exact; [reflexivity | exact Hcs | |];
      fold n; eapply window_coordinate_fits; try eassumption;
      rewrite (Z.abs_eq R) by exact HR; assumption. }
  assert (forall c, In c (filter (fun c => negb (held c)) window) <->
                    InWindow pos R c /\
                    ~ exists chunk,
                        In (ChunkData.GetChunkIdFromCoordinates
                              (X c * n) (Y c * n), chunk) (ChunkMap g))
    as Hcreated.
  { intros c. rewrite filter_In, Hwin, negb_true_iff. unfold held.
    rewrite <- HasChunk_In, not_true_iff_false. reflexivity. }
  assert (forall c, In c (filter held window) <->
                    InWindow pos R c /\
                    exists chunk,
                      In (ChunkData.GetChunkIdFromCoordinates
                            (X c * n) (Y c * n), chunk) (ChunkMap g))
    as Hpresent.
  { intros c. rewrite filter_In, Hwin. unfold held.
    rewrite <- HasChunk_In. reflexivity. }
  assert (Z.of_nat (length (filter (fun c => negb (held c)) window)) +
          Z.of_nat (length (filter held window)) =
          (2 * R + 1) * (2 * R + 1)) as Hlen.
  { rewrite <- Nat2Z.inj_add, Nat.add_comm, filter_split_length.
    unfold window. rewrite grid_length, Nat2Z.inj_mul, !int_range_length by lia.
    ring. }
  eexists. exists (filter (fun c => negb (held c)) window).
  exists (filter held window).
  split; [apply (UpdateWindow_moved s g location Hg Hmoved Hx Hy) |].
  split; [cbn [ChunkGenerationQueue set_ChunkDestructionQueue
               set_ChunkGenerationQueue];
          fold pos; fold R; fold window; rewrite Hsame; reflexivity |].
  split; [apply NoDup_filter, Hnd |].
  split; [apply NoDup_filter, Hnd |].
  split; [exact Hcreated |]. split; [exact Hpresent |].
  split; [| split; [| split; [exact Hlen |]]].
  - intros c Hc Hp. apply Hcreated in Hc. apply Hpresent in Hp. tauto.
  - intros c Hc. apply Hwin in Hc. destruct (held c) eqn:Hh.
    + right. apply filter_In. auto.
    + left. apply filter_In. rewrite Hh. auto.
  - intros Hempty.
    assert (filter held window = []) as Hnone.
    { apply filter_none_true. intros c _.
      unfold held, HasChunk. rewrite Hempty. reflexivity. }
    split; [exact Hnone |]. rewrite Hnone in Hlen. cbn [length] in Hlen. lia.
Qed.

Lemma UpdateWindow_partitions_window_witness :
  exists (s1 : UChunkManagerWorldSubsystem) (created present : list FCoords),
    UpdateWindow Sample.steady (Some Sample.pawn_near) = Some s1 /\
    ChunkGenerationQueue s1 = ChunkGenerationQueue Sample.steady ++ created /\
    In {| X := 2; Y := 0 |} created /\
    In {| X := 1; Y := 0 |} present /\
    ~ In {| X := 1; Y := 0 |} created /\
    Z.of_nat (length created) + Z.of_nat (length present) = 9.
Proof.
  destruct (UpdateWindow_partitions_window
              Sample.steady (Sample.registry Sample.steady) Sample.pawn_near)
    as (s1 & created & present & H1 & H2 & _ & _ & Hc & Hp & Hd & _ & H5 & _);
    try reflexivity;
    try (vm_compute; discriminate).
  assert (In {| X := 1; Y := 0 |} present) as Hin.
  { apply Hp. split; [split; vm_compute; discriminate |].
    eexists. vm_compute. do 5 right. left. reflexivity. }
  exists s1, created, present. split; [exact H1 |]. split; [exact H2 |].
  split; [| split; [exact Hin | split; [| exact H5]]].
  - apply Hc. split; [split; vm_compute; discriminate |].
    intros (chunk & Hchunk). vm_compute in Hchunk.
    repeat (destruct Hchunk as [Hchunk | Hchunk]; [discriminate |]).
    exact Hchunk.
  - intros Hcr. exact (Hd _ Hcr Hin).
Defined.

Lemma Chebyshev_nonneg (chunkSize : Z) (p : FCoords) (chunk : FChunk) :
  (0 <= ChebyshevDistance chunkSize p chunk)%Q.
Proof.
  unfold ChebyshevDistance.
  eapply Qle_trans; [apply Qabs_nonneg | apply Q.le_max_l].
Qed.

(** X15: with a negative render distance the window is empty and every
    registered chunk counts as far: a tick on which the observer changes
    chunk enqueues no creation and enqueues every registered chunk, in
    registry order, for destruction. *)
Theorem UpdateWindow_negative_render_distance
        (s : UChunkManagerWorldSubsystem) (g : UTerrainGeneratorWorldSubsystem)
        (location : FVector) :
  TerrainGenerator s = Some g ->
  let pos := {| X := ObserverChunk (ChunkSize s) (vX location);
                Y := ObserverChunk (ChunkSize s) (vY location) |} in
  PlayerPos s <> pos ->
  RenderDistance s < 0 ->
  WorldFits s pos g ->
  UpdateWindow s (Some location) =
  Some (set_ChunkDestructionQueue
          (set_PlayerPos s pos)
          (ChunkDestructionQueue s ++ map fst (ChunkMap g))).
Proof.
  intros Hg pos Hmoved HR (Hcs & Hwx & Hwy & Hreg).
  assert (2 ^ 30 = 1073741824) as E30 by reflexivity.
  rewrite (UpdateWindow_moved s g location Hg Hmoved);
    [| fold pos; int32_range | fold pos; int32_range].
  fold pos.
  assert (int_range (X pos - RenderDistance s) (X pos + RenderDistance s) = [])
    as ->.
  { unfold int_range.
    replace (Z.to_nat (X pos + RenderDistance s + 1
                       - (X pos - RenderDistance s))) with 0%nat by lia.
    reflexivity. }
  assert (forall ys, grid [] ys = []) as Hgrid
    by (induction ys as [| y ys IH]; cbn; auto).
  rewrite Hgrid. cbn [filter]. rewrite app_nil_r.
  rewrite filter_all.
  - destruct s. reflexivity.
  - intros e He. rewrite Forall_forall in Hreg.
    destruct (Hreg e He) as [Hcx Hcy].
    rewrite (IsFar_Chebyshev (set_PlayerPos s pos) (snd e)) by assumption.
    apply negb_true_iff, not_true_iff_false. rewrite Qle_bool_iff.
    intros Hle. cbn [set_PlayerPos ChunkSize PlayerPos RenderDistance] in Hle.
    pose proof (Chebyshev_nonneg (ChunkSize s) pos (snd e)) as Hdist.
    assert (0 <= inject_Z (RenderDistance s))%Q as Hn
      by (eapply Qle_trans; eassumption).
    unfold Qle, inject_Z in Hn. cbn in Hn. lia.
Qed.

Lemma UpdateWindow_negative_render_distance_witness :
  exists s1 : UChunkManagerWorldSubsystem,
    UpdateWindow Edge.negative_distance (Some Sample.pawn_far) = Some s1 /\
    ChunkGenerationQueue s1 = [] /\
    length (ChunkDestructionQueue s1) = 9%nat.
Proof.
  eexists. split.
  - apply (UpdateWindow_negative_render_distance
             Edge.negative_distance (Sample.registry Sample.steady)
             Sample.pawn_far).
    + reflexivity.
    + vm_compute. discriminate.
    + reflexivity.
    + unfold WorldFits.
      split; [vm_compute; discriminate |].
      split; [vm_compute; discriminate |].
      split; [vm_compute; discriminate |].
      assert (forallb (fun e => (Z.abs (X (Coords (snd e))) <=? 2 ^ 30) &&
                                (Z.abs (Y (Coords (snd e))) <=? 2 ^ 30))
                      (ChunkMap (Sample.registry Sample.steady)) = true) as Hb
        by (vm_compute; reflexivity).
      rewrite forallb_forall in Hb. apply Forall_forall. intros e He.
      specialize (Hb e He). rewrite andb_true_iff, !Z.leb_le in Hb. exact Hb.
  - split; vm_compute; reflexivity.
Defined.








(* ================================================================= *)
(** ** More on stress test and bootstrap *)

(** What calls that only reach the registry leave as it was. *)
Lemma RegistryCallsOnly_fields (s s' : UChunkManagerWorldSubsystem) :
  RegistryCallsOnly s s' ->
  bInitialChunksGenerated s' = bInitialChunksGenerated s /\
  InitialChunksRemaining s' = InitialChunksRemaining s /\
  RenderDistance s' = RenderDistance s /\
  bStressTestInProgress s' = bStressTestInProgress s /\
  PendingChunks s' = PendingChunks s /\
  StressTestStartTime s' = StressTestStartTime s /\
  progress_reports (Trace s') = progress_reports (Trace s) /\
  stress_reports (Trace s') = stress_reports (Trace s).
Proof.
  intros (calls & E & HP & HS). rewrite E. cbn.
  rewrite progress_reports_app, stress_reports_app, HP, HS, !app_nil_r.
  repeat split; reflexivity.
Qed.

(** X17: [StressTest] with a registry in place forwards one request per
    index [0 <= i < NumChunks] (none for [NumChunks <= 0]), each of size 32
    on the axis [y = 0] at [x = 31*i]; the origins are pairwise distinct
    for every [int] count, wrap-around of [31*i] included. *)
Theorem StressTest_requests_along_axis
        (s : UChunkManagerWorldSubsystem) (g : UTerrainGeneratorWorldSubsystem)
        (now : Q) (NumChunks : Z) :
  TerrainGenerator s = Some g ->
  NumChunks <= Int32.max_signed ->
  exists origins : list Z,
    Trace (StressTest s now NumChunks) =
      Trace s ++ map (fun x => CallGenerateChunk x 0 32) origins /\
    Z.of_nat (length origins) = Z.max 0 NumChunks /\
    NoDup origins /\
    (forall x, In x origins <->
               exists i, 0 <= i < NumChunks /\ x = Int32.mul i 31).
Proof.
  intros Hg HN.
  destruct (StressTest_requests s g now NumChunks Hg) as (Htr & _).
  exists (map (fun i => Int32.mul i 31) (int_range 0 (NumChunks - 1))).
  split; [rewrite Htr, map_map; reflexivity |]. split; [| split].
  - rewrite length_map. unfold int_range. rewrite length_map, length_seq. lia.
  - assert (forall l, NoDup l -> Forall Int32.in_range l ->
                      NoDup (map (fun i => Int32.mul i 31) l)) as Hgen.
    { induction 1 as [| i l Hi Hnd IH]; intros Hr; cbn; constructor.
      - rewrite in_map_iff. intros (j & E & Hj). apply Hi.
        inversion Hr as [| ? ? Hri Hrl]; subst.
        rewrite Forall_forall in Hrl.
        apply mul31_injective in E; auto. congruence.
      - apply IH. inversion Hr; assumption. }
    apply Hgen; [apply int_range_NoDup |].
    apply Forall_forall. intros i Hi. apply int_range_In in Hi.
    unfold Int32.in_range, Int32.min_signed, Int32.max_signed in *. lia.
  - intros x. rewrite in_map_iff. split.
    + intros (i & <- & Hi). apply int_range_In in Hi. exists i.
      split; [lia | reflexivity].
    + intros (i & Hi & ->). exists i. split; [reflexivity |].
      apply int_range_In. lia.
Qed.

Lemma StressTest_requests_along_axis_witness :
  exists origins : list Z,
    Trace (StressTest (Sample.fresh 1) 5%Q 100) =
      map (fun x => CallGenerateChunk x 0 32) origins /\
    Z.of_nat (length origins) = 100 /\
    NoDup origins.
Proof.
  destruct (StressTest_requests_along_axis
              (Sample.fresh 1) {| ChunkMap := [] |} 5%Q 100)
    as (origins & H1 & H2 & H3 & _);
    [reflexivity | unfold Int32.max_signed; lia |].
  exists origins. split; [exact H1 |]. split; [exact H2 | exact H3].
Defined.

(** One completion notification, as the stress test sees it. *)
Lemma OnChunkGenerated_stress_step (s : UChunkManagerWorldSubsystem)
      (now : Q) (ChunkId : Z) :
  let p := Int32.sub (PendingChunks s) 1 in
  let TotalTime := ((now - StressTestStartTime s) * 1000)%Q in
  let s' := OnChunkGenerated s now ChunkId in
  StressTestStartTime s' = StressTestStartTime s /\
  (bStressTestInProgress s = false ->
   bStressTestInProgress s' = false /\
   PendingChunks s' = PendingChunks s /\
   stress_reports (Trace s') = stress_reports (Trace s)) /\
  (bStressTestInProgress s = true ->
   PendingChunks s' = p /\
   bStressTestInProgress s' = negb (p <=? 0) /\
   stress_reports (Trace s') =
     stress_reports (Trace s) ++
     (if p <=? 0 then [(TotalTime, fdiv TotalTime p)] else [])).
Proof.
  unfold OnChunkGenerated.
  destruct s as [tg cs R P cq dq T I b1 n1 b2 n2 t0 tr]. cbn.
  destruct b1; cbn;
    try destruct (Int32.sub n1 1 <=? 0); cbn;
    destruct b2; cbn;
    try destruct (Int32.sub n2 1 <=? 0); cbn;
    destruct tg; cbn;
    rewrite ?stress_reports_app; cbn; rewrite ?app_nil_r;
    repeat split; intros; try discriminate; repeat split; reflexivity.
Qed.

(** Once no stress test is in progress, notifications write no report. *)
Lemma Notifications_no_stress_test (ns : list (Q * Z)) :
  forall s : UChunkManagerWorldSubsystem,
    bStressTestInProgress s = false ->
    bStressTestInProgress (Notifications s ns) = false /\
    stress_reports (Trace (Notifications s ns)) = stress_reports (Trace s).
Proof.
  unfold Notifications.
  induction ns as [| [now id] ns IH]; intros s Hb; cbn [fold_left fst snd].
  - auto.
  - destruct (OnChunkGenerated_stress_step s now id) as (_ & Hoff & _).
    destruct (Hoff Hb) as (Hb' & _ & Hr).
    destruct (IH _ Hb') as (Hb'' & Hr'').
    split; [exact Hb'' | congruence].
Qed.

(** While fewer than [PendingChunks] notifications have arrived, the stress
    test stays in progress and silent. *)
Lemma Notifications_stress_pending (ns : list (Q * Z)) :
  forall s : UChunkManagerWorldSubsystem,
    bStressTestInProgress s = true ->
    Int32.in_range (PendingChunks s) ->
    Z.of_nat (length ns) < PendingChunks s ->
    let sk := Notifications s ns in
    bStressTestInProgress sk = true /\
    PendingChunks sk = PendingChunks s - Z.of_nat (length ns) /\
    StressTestStartTime sk = StressTestStartTime s /\
    stress_reports (Trace sk) = stress_reports (Trace s).
Proof.
  unfold Notifications.
  induction ns as [| [now id] ns IH]; intros s Hb Hr Hlen;
    cbn [fold_left fst snd length] in *.
  - split; [exact Hb |]. split; [lia |]. split; reflexivity.
  - destruct (OnChunkGenerated_stress_step s now id) as (Hstart & _ & Hon).
    destruct (Hon Hb) as (Hp & Hb' & Hrep).
    assert (Int32.sub (PendingChunks s) 1 = PendingChunks s - 1) as E
      by (int32_small; reflexivity).
    rewrite E in *.
    assert ((PendingChunks s - 1 <=? 0) = false) as Hpos
      by (apply Z.leb_gt; lia).
    rewrite Hpos in *. cbn [negb] in Hb'. rewrite app_nil_r in Hrep.
    destruct (IH (OnChunkGenerated s now id)) as (H1 & H2 & H3 & H4);
      [exact Hb' | rewrite Hp; int32_range | rewrite Hp; lia |].
    rewrite H1, H2, H3, H4, Hp, Hstart, Hrep. repeat split. lia.
Qed.

(** X18: a stress test of [N >= 1] chunks stays silent and in progress for
    the first [N-1] completion notifications, whatever chunks they are
    for; the [N]th writes the one report, with the total
    [(arrival - start) * 1000] ms and the average taken over
    [PendingChunks = 0]; the stress test is then over and later
    notifications write nothing more. *)
Theorem StressTest_reports_once_at_last_completion
        (s : UChunkManagerWorldSubsystem) (start arrival : Q)
        (NumChunks ChunkId : Z) (ns more : list (Q * Z)) :
  1 <= NumChunks <= Int32.max_signed ->
  Z.of_nat (length ns) = NumChunks - 1 ->
  let s0 := StressTest s start NumChunks in
  let TotalTime := ((arrival - start) * 1000)%Q in
  let report := [(TotalTime, fdiv TotalTime 0)] in
  (bStressTestInProgress (Notifications s0 ns) = true /\
   stress_reports (Trace (Notifications s0 ns)) = stress_reports (Trace s)) /\
  (bStressTestInProgress (Notifications s0 (ns ++ [(arrival, ChunkId)]))
   = false /\
   stress_reports (Trace (Notifications s0 (ns ++ [(arrival, ChunkId)]))) =
     stress_reports (Trace s) ++ report) /\
  stress_reports (Trace (Notifications s0 (ns ++ (arrival, ChunkId) :: more))) =
    stress_reports (Trace s) ++ report.
Proof.
  intros HN Hlen s0 TotalTime report.
  destruct (RegistryCallsOnly_fields _ _ (StressTest_calls_only s start NumChunks))
    as (_ & _ & _ & Hb0 & Hp0 & Hs0 & _ & Hr0).
  fold s0 in Hb0, Hp0, Hs0, Hr0.
  cbn [Trace set_StressTestStartTime set_bStressTestInProgress
       set_PendingChunks PendingChunks bStressTestInProgress
       StressTestStartTime] in Hb0, Hp0, Hs0, Hr0.
  destruct (Notifications_stress_pending ns s0) as (Hb & Hp & Hst & Hr);
    [exact Hb0 | rewrite Hp0; int32_range | rewrite Hp0; lia |].
  set (sk := Notifications s0 ns) in *.
  destruct (OnChunkGenerated_stress_step sk arrival ChunkId) as (_ & _ & Hon).
  destruct (Hon Hb) as (_ & Hb' & Hrep).
  assert (Int32.sub (PendingChunks sk) 1 = 0) as E
    by (rewrite Hp, Hp0, Hlen; int32_small; ring).
  rewrite E, Hst, Hs0 in *. cbn [Z.leb Z.compare negb] in Hb', Hrep.
  fold TotalTime in Hrep. fold report in Hrep.
  assert (Notifications s0 (ns ++ [(arrival, ChunkId)]) =
          OnChunkGenerated sk arrival ChunkId) as Elast
    by (unfold Notifications, sk; rewrite fold_left_app; reflexivity).
  split; [split; [exact Hb | congruence] |].
  split; [rewrite Elast; split; [exact Hb' | congruence] |].
  replace (ns ++ (arrival, ChunkId) :: more)
    with ((ns ++ [(arrival, ChunkId)]) ++ more)
    by (rewrite <- app_assoc; reflexivity).
  unfold Notifications at 1. rewrite fold_left_app.
  fold (Notifications s0 (ns ++ [(arrival, ChunkId)])).
  fold (Notifications (Notifications s0 (ns ++ [(arrival, ChunkId)])) more).
  rewrite Elast.
  destruct (Notifications_no_stress_test more _ Hb') as (_ & Hmore).
  congruence.
Qed.

Lemma StressTest_reports_once_at_last_completion_witness :
  let s0 := StressTest Sample.steady 5%Q 3 in
  stress_reports (Trace (Notifications s0 [(6%Q, 1); (7%Q, 2)])) = [] /\
  stress_reports
    (Trace (Notifications s0 [(6%Q, 1); (7%Q, 2); (8%Q, 3); (9%Q, 4)])) =
    [(((8 - 5) * 1000)%Q, None)].
Proof.
  intros s0.
  destruct (StressTest_reports_once_at_last_completion
              Sample.steady 5%Q 8%Q 3 3 [(6%Q, 1); (7%Q, 2)] [(9%Q, 4)])
    as ((_ & H1) & _ & H3);
    [unfold Int32.max_signed; lia | reflexivity |].
  split; [exact H1 | exact H3].
Defined.

(** X19: a completion notification touches neither the queues nor the
    observer, the drain timer or the configuration; of the calls the manager
    can make on the registry it makes exactly one, [DisplayChunk] for the
    notified id and no request to generate or destroy, after any progress
    update or stress report it writes. *)
Theorem OnChunkGenerated_displays_the_chunk
        (s : UChunkManagerWorldSubsystem) (g : UTerrainGeneratorWorldSubsystem)
        (now : Q) (ChunkId : Z) :
  TerrainGenerator s = Some g ->
  let s' := OnChunkGenerated s now ChunkId in
  ChunkGenerationQueue s' = ChunkGenerationQueue s /\
  ChunkDestructionQueue s' = ChunkDestructionQueue s /\
  PlayerPos s' = PlayerPos s /\
  TimeSinceLastChunkOperation s' = TimeSinceLastChunkOperation s /\
  ChunkSize s' = ChunkSize s /\ RenderDistance s' = RenderDistance s /\
  exists reports : list ManagerEvent,
    Trace s' = Trace s ++ reports ++ [CallDisplayChunk ChunkId] /\
    generation_requests reports = [] /\
    destruction_requests reports = [] /\
    display_requests reports = [].
Proof.
  intros Hg. unfold OnChunkGenerated.
  destruct s as [tg cs R P cq dq T I b1 n1 b2 n2 t0 tr]. cbn in *. subst tg.
  destruct b1; cbn;
    try destruct (Int32.sub n1 1 <=? 0); cbn;
    destruct b2; cbn;
    try destruct (Int32.sub n2 1 <=? 0); cbn;
    do 6 (split; [reflexivity |]);
    match goal with
    | |- exists r, ((?t ++ [?a]) ++ [?b]) ++ [?d] = _ /\ _ => exists [a; b]
    | |- exists r, (?t ++ [?a]) ++ [?d] = _ /\ _ => exists [a]
    | |- exists r, ?t ++ [?d] = _ /\ _ => exists []
    end;
    rewrite <- ?app_assoc; cbn; repeat split.
Qed.

Lemma OnChunkGenerated_displays_the_chunk_witness :
  display_requests (Trace (OnChunkGenerated Sample.queued 3%Q 77)) =
  display_requests (Trace Sample.queued) ++ [77] /\
  ChunkGenerationQueue (OnChunkGenerated Sample.queued 3%Q 77) =
  ChunkGenerationQueue Sample.queued.
Proof.
  destruct (OnChunkGenerated_displays_the_chunk
              Sample.queued (Sample.registry Sample.queued) 3%Q 77 eq_refl)
    as (HG & _ & _ & _ & _ & _ & reports & Htr & _ & _ & Hd).
  split; [| exact HG].
  rewrite Htr, !display_requests_app, Hd. reflexivity.
Defined.

(** X20: the steady phase is final.  Once [bInitialChunksGenerated] is set,
    no completion notification, stress test or call of
    [InitialChunkGeneration] clears it; a second [InitialChunkGeneration]
    sends its requests and sets the remaining count, but the notifications
    that follow neither count down nor report progress. *)
Theorem Steady_phase_is_final
        (s : UChunkManagerWorldSubsystem) (InRenderDistance : Z)
        (now : Q) (NumChunks : Z) (ns : list (Q * Z)) :
  bInitialChunksGenerated s = true ->
  bInitialChunksGenerated (StressTest s now NumChunks) = true /\
  bInitialChunksGenerated (Notifications s ns) = true /\
  let sk := Notifications (InitialChunkGeneration s InRenderDistance) ns in
  bInitialChunksGenerated sk = true /\
  InitialChunksRemaining sk = ChunkData.GetInitialChunkCount InRenderDistance /\
  progress_reports (Trace sk) = progress_reports (Trace s).
Proof.
  intros Hinit.
  assert (forall (l : list (Q * Z)) (s1 : UChunkManagerWorldSubsystem),
             bInitialChunksGenerated s1 = true ->
             bInitialChunksGenerated (Notifications s1 l) = true /\
             InitialChunksRemaining (Notifications s1 l) =
               InitialChunksRemaining s1 /\
             progress_reports (Trace (Notifications s1 l)) =
               progress_reports (Trace s1)) as Hsteady.
  { unfold Notifications.
    induction l as [| [t id] l IH]; intros s1 H1; cbn [fold_left fst snd].
    - auto.
    - assert (bInitialChunksGenerated (OnChunkGenerated s1 t id) = true /\
              InitialChunksRemaining (OnChunkGenerated s1 t id) =
                InitialChunksRemaining s1 /\
              progress_reports (Trace (OnChunkGenerated s1 t id)) =
                progress_reports (Trace s1)) as (A & B & C).
      { unfold OnChunkGenerated.
        destruct s1 as [tg cs R P cq dq T I b1 n1 b2 n2 t0 tr].
        cbn in *. subst b1. cbn.
        destruct b2; cbn;
          try destruct (Int32.sub n2 1 <=? 0); cbn;
          destruct tg; cbn;
          rewrite ?progress_reports_app; cbn; rewrite ?app_nil_r; auto. }
      destruct (IH _ A) as (A' & B' & C'). split; [exact A' |].
      split; congruence. }
  destruct (RegistryCallsOnly_fields _ _ (StressTest_calls_only s now NumChunks))
    as (Hb & _).
  destruct (RegistryCallsOnly_fields
              _ _ (InitialChunkGeneration_calls_only s InRenderDistance))
    as (Hb1 & Hrem1 & _ & _ & _ & _ & Hp1 & _).
  cbn [Trace set_StressTestStartTime set_bStressTestInProgress
       set_PendingChunks set_InitialChunksRemaining
       bInitialChunksGenerated InitialChunksRemaining] in Hb, Hb1, Hrem1, Hp1.
  split; [congruence |]. split; [apply Hsteady; exact Hinit |].
  destruct (Hsteady ns (InitialChunkGeneration s InRenderDistance))
    as (A & B & C); [congruence |].
  split; [exact A |]. split; congruence.
Qed.

Lemma Steady_phase_is_final_witness :
  let sk := Notifications (InitialChunkGeneration Sample.steady 1)
                          [(1%Q, 1); (2%Q, 2)] in
  bInitialChunksGenerated sk = true /\
  InitialChunksRemaining sk = 9 /\
  progress_reports (Trace sk) = progress_reports (Trace Sample.steady).
Proof.
  destruct (Steady_phase_is_final Sample.steady 1 0%Q 0 [(1%Q, 1); (2%Q, 2)])
    as (_ & _ & H); [reflexivity |].
  exact H.
Defined.

(* ================================================================= *)
(** ** The observer's chunk coordinate *)

Lemma Zdiv_interval (a b k : Z) :
  0 < b -> (a / b = k <-> k * b <= a < (k + 1) * b).
Proof.
  intros Hb. pose proof (Z.div_mod a b ltac:(lia)) as Hdm.
  pose proof (Z.mod_pos_bound a b Hb) as Hm. split.
  - intros <-. nia.
  - intros H. symmetry. apply (Z.div_unique a b k (a - k * b)); [lia | ring].
Qed.

(** X21: the observer's chunk coordinate is the floor of the position
    measured in chunk edges of [(ChunkSize - 1) * 100] world units: it is
    [k] exactly on the half-open interval from [k] edges to [k+1] edges,
    also left of the origin, where positions just below 0 are in chunk
    -1. *)
Theorem ObserverChunk_interval (chunkSize k : Z) (location : Q) :
  2 <= chunkSize ->
  let edge := (chunkSize - 1) * 100 in
  ObserverChunk chunkSize location = k <->
  (inject_Z (k * edge) <= location)%Q /\
  (location < inject_Z ((k + 1) * edge))%Q.
Proof.
  intros Hcs edge. unfold ObserverChunk.
  destruct location as [n m].
  assert (0 < edge) as Hedge by (subst edge; lia).
  assert ((inject_Z chunkSize - 1) * 100 == inject_Z edge)%Q as Hd.
  { unfold Qeq, Qmult, Qminus, Qplus, Qopp, inject_Z. simpl.
    subst edge. lia. }
  rewrite Hd.
  assert (Qfloor ((n # m) / inject_Z edge) = n / (Z.pos m * edge)) as ->.
  { destruct edge as [| e | e]; try lia.
    unfold Qfloor, Qdiv, Qmult, Qinv, inject_Z. cbn [Qnum Qden].
    rewrite Z.mul_1_r, Pos2Z.inj_mul. reflexivity. }
  rewrite Zdiv_interval by lia.
  unfold Qle, Qlt, inject_Z. cbn [Qnum Qden]. rewrite !Z.mul_1_r.
  split; intros [H1 H2]; split; nia.
Qed.

Lemma ObserverChunk_interval_witness :
  ObserverChunk 32 (-1 # 2) = -1 /\ ObserverChunk 32 (30999 # 10) = 0.
Proof.
  split.
  - apply (ObserverChunk_interval 32 (-1) (-1 # 2)); [lia |].
    split; vm_compute; congruence.
  - apply (ObserverChunk_interval 32 0 (30999 # 10)); [lia |].
    split; vm_compute; congruence.
Defined.

(** A tick of the steady phase with a pawn: the phase and the chunk size
    stay, and the stored coordinate is the pawn's chunk afterwards. *)
Lemma Tick_with_pawn (s s' : UChunkManagerWorldSubsystem) (DeltaTime : Q)
      (location : FVector) :
  bInitialChunksGenerated s = true ->
  Tick s DeltaTime (Some location) = Some s' ->
  bInitialChunksGenerated s' = true /\
  ChunkSize s' = ChunkSize s /\
  PlayerPos s' = {| X := ObserverChunk (ChunkSize s) (vX location);
                    Y := ObserverChunk (ChunkSize s) (vY location) |}.
Proof.
  intros Hinit. unfold Tick. rewrite Hinit. cbn [negb].
  destruct (UpdateWindow s (Some location)) as [s1 |] eqn:Hscan;
    [| discriminate].
  intros [= <-].
  destruct (ProcessQueuedOperations_queues s1 DeltaTime) as (-> & _).
  destruct (ProcessQueuedOperations_frame s1 DeltaTime)
    as (-> & _ & _ & -> & _).
  destruct (UpdateWindow_appends s s1 _ Hscan) as (p & c & d & Hs1).
  assert (bInitialChunksGenerated s1 = true /\ ChunkSize s1 = ChunkSize s)
    as (-> & ->) by (rewrite Hs1; cbn; auto).
  split; [reflexivity |]. split; [reflexivity |].
  unfold UpdateWindow in Hscan.
  set (pos := {| X := ObserverChunk (ChunkSize s) (vX location);
                 Y := ObserverChunk (ChunkSize s) (vY location) |}) in *.
  destruct (coords_eqb (PlayerPos s) pos) eqn:Heq.
  - injection Hscan as <-. apply coords_eqb_eq. exact Heq.
  - cbn [set_PlayerPos TerrainGenerator RenderDistance] in Hscan.
    destruct (TerrainGenerator s).
    + injection Hscan as <-. reflexivity.
    + destruct (NullScanReturns _); [| discriminate].
      injection Hscan as <-. reflexivity.
Qed.

(** X22: with chunks that have an edge ([2 <= ChunkSize]), after a tick of
    the steady phase with a pawn the stored coordinate is the chunk the pawn
    stands in, whether it had to be updated or not. *)
Theorem Tick_tracks_the_pawn
        (s s' : UChunkManagerWorldSubsystem) (DeltaTime : Q)
        (location : FVector) :
  bInitialChunksGenerated s = true ->
  2 <= ChunkSize s ->
  Tick s DeltaTime (Some location) = Some s' ->
  PlayerPos s' = {| X := ObserverChunk (ChunkSize s) (vX location);
                    Y := ObserverChunk (ChunkSize s) (vY location) |}.
Proof.
  intros Hinit Hcs HT. apply (Tick_with_pawn s s' DeltaTime location Hinit HT).
Qed.

Lemma Tick_tracks_the_pawn_witness :
  PlayerPos (Sample.after_tick Sample.steady (1 # 5) (Some Sample.pawn_far))
  = {| X := 3; Y := 0 |}.
Proof.
  apply (Tick_tracks_the_pawn Sample.steady _ (1 # 5) Sample.pawn_far);
    [reflexivity | vm_compute; discriminate | vm_compute; reflexivity].
Defined.

(** X23: one scan per chunk change: with chunks that have an edge
    ([2 <= ChunkSize]), when a tick of the steady phase has run for a pawn,
    the next tick for a pawn at the same place is the drain alone and
    appends nothing to the queues. *)
Theorem Tick_scans_once_per_chunk_change
        (s s1 : UChunkManagerWorldSubsystem) (DeltaTime DeltaTime' : Q)
        (location : FVector) :
  bInitialChunksGenerated s = true ->
  2 <= ChunkSize s ->
  Tick s DeltaTime (Some location) = Some s1 ->
  Tick s1 DeltaTime' (Some location) =
    Some (ProcessQueuedOperations s1 DeltaTime').
Proof.
  intros Hinit Hedge HT.
  destruct (Tick_with_pawn s s1 DeltaTime location Hinit HT)
    as (Hinit1 & Hcs & Hpos).
  unfold Tick. rewrite Hinit1. cbn [negb]. unfold UpdateWindow.
  rewrite Hcs, Hpos.
  assert (forall c, coords_eqb c c = true) as Hrefl
    by (intros c; apply coords_eqb_eq; reflexivity).
  rewrite Hrefl. reflexivity.
Qed.

Lemma Tick_scans_once_per_chunk_change_witness :
  Tick Sample.queued (1 # 5) (Some Sample.pawn_far) =
  Some (ProcessQueuedOperations Sample.queued (1 # 5)).
Proof.
  apply (Tick_scans_once_per_chunk_change
           Sample.steady Sample.queued (1 # 100) (1 # 5) Sample.pawn_far);
    [reflexivity | vm_compute; discriminate | vm_compute; reflexivity].
Defined.

(* ================================================================= *)
(** ** The two render distances of the bootstrap *)

Lemma generation_requests_of_calls {A : Type} (fx fy fs : A -> Z) (l : list A) :
  generation_requests (map (fun a => CallGenerateChunk (fx a) (fy a) (fs a)) l)
  = map (fun a => (fx a, fy a, fs a)) l.
Proof.
  induction l as [| a l IH]; cbn; [reflexivity | f_equal; exact IH].
Qed.

(** X24: [InitialChunkGeneration] reads two render distances: the window it
    requests is the one of the member [RenderDistance], [(2R+1)^2] chunks,
    while the count it waits for is computed from its argument; the progress
    total that [OnChunkGenerated] reports is again the member's. *)
Theorem InitialChunkGeneration_counts_its_argument
        (s : UChunkManagerWorldSubsystem) (g : UTerrainGeneratorWorldSubsystem)
        (InRenderDistance : Z) :
  TerrainGenerator s = Some g ->
  0 <= RenderDistance s ->
  (2 * RenderDistance s + 1) * (2 * RenderDistance s + 1) <= Int32.max_signed ->
  0 <= InRenderDistance ->
  (2 * InRenderDistance + 1) * (2 * InRenderDistance + 1) <= Int32.max_signed ->
  let s0 := InitialChunkGeneration s InRenderDistance in
  (exists calls : list ManagerEvent,
      Trace s0 = Trace s ++ calls /\
      Z.of_nat (length (generation_requests calls)) =
        (2 * RenderDistance s + 1) * (2 * RenderDistance s + 1)) /\
  InitialChunksRemaining s0 =
    (2 * InRenderDistance + 1) * (2 * InRenderDistance + 1) /\
  RenderDistance s0 = RenderDistance s.
Proof.
  intros Hg HR Hfit HA HfitA s0.
  assert (0 <= RenderDistance s <= Int32.max_signed) as HR'
    by (unfold Int32.max_signed in *; nia).
  destruct (InitialChunkGeneration_spec s g InRenderDistance Hg HR')
    as (g' & Hs0).
  fold s0 in Hs0.
  rewrite (GetInitialChunkCount_square _ HA HfitA) in Hs0.
  destruct (window_without_centre (RenderDistance s) HR) as (Hlen & _).
  split; [| rewrite Hs0; cbn; auto].
  eexists. split; [rewrite Hs0; cbn [Trace set_Trace]; reflexivity |].
  rewrite (generation_requests_of_calls
             (fun c => Int32.mul (X c) (Int32.sub (ChunkSize s) 1))
             (fun c => Int32.mul (Y c) (Int32.sub (ChunkSize s) 1))
             (fun _ => ChunkSize s)).
  rewrite length_map. exact Hlen.
Qed.

Lemma InitialChunkGeneration_counts_its_argument_witness :
  let s0 := InitialChunkGeneration (Sample.fresh 1) 2 in
  (exists calls : list ManagerEvent,
      Trace s0 = calls /\ Z.of_nat (length (generation_requests calls)) = 9) /\
  InitialChunksRemaining s0 = 25.
Proof.
  destruct (InitialChunkGeneration_counts_its_argument
              (Sample.fresh 1) {| ChunkMap := [] |} 2)
    as ((calls & Htr & Hlen) & Hrem & _);
    try reflexivity; try (unfold Int32.max_signed; cbn; lia).
  split; [| exact Hrem]. exists calls. split; [exact Htr | exact Hlen].
Defined.
